(** * upload_to_kv: normalisation, filtering and batched upload of problems

    A shallow embedding of [src/upload_to_kv.py]: the record normalisers
    [parse_csv_row] and [parse_json_problem], the filter
    [should_process_problem], the essentials builder
    [create_essentials_entry], the uploader methods [put] and [put_bulk],
    the driver [upload_file_to_kv] and the entry point [main].

    Conventions of the embedding.
    - A Python [str] is a [string]; one [ascii] stands for one code point
      below 256.
    - A Python [int] is a [Z]; a Python [float] is a binary64 value of
      [spec_float].
    - A Python value whose type is only known at run time (what [json.load]
      returns, what a [dict] holds) is a [value]; a [dict] keeps its items
      in insertion order.
    - A raised exception is the [Raise] branch of [exc]; [try]/[except
      Exception] is [try_except].
    - Each [logging] call is one [log_record] whose [message] constructor
      names the call site and carries the interpolated values.
    - The remote store is an oracle giving the outcome of the k-th
      [requests.put]; the driver threads the number of requests made, the
      writes attempted, the entries of each call of [put_bulk] and the
      log. *)

From Stdlib Require Import ZArith List String Ascii Bool Lia.
From Stdlib Require Import Permutation Sorted.
From Stdlib Require Import DecimalString DecimalPos DecimalZ.
From Stdlib Require Import SpecFloat.
Import ListNotations.

Local Open Scope string_scope.
Local Open Scope Z_scope.

(* ================================================================== *)
(** * Python strings *)

Module PyStr.

(** [str.isspace] on code points below 256. *)
Definition isspace (c : ascii) : bool :=
  let n := nat_of_ascii c in
  (((9 <=? n) && (n <=? 13)) || ((28 <=? n) && (n <=? 32))
   || (n =? 133) || (n =? 160))%nat.

Definition isdigit (c : ascii) : bool :=
  let n := nat_of_ascii c in ((48 <=? n) && (n <=? 57))%nat.

Definition digit_value (c : ascii) : Z := Z.of_nat (nat_of_ascii c) - 48.

Fixpoint lstrip_by (p : ascii -> bool) (l : list ascii) : list ascii :=
  match l with
  | [] => []
  | c :: t => if p c then lstrip_by p t else l
  end.

Definition strip_by (p : ascii -> bool) (l : list ascii) : list ascii :=
  rev (lstrip_by p (rev (lstrip_by p l))).

Definition mem_char (chars : list ascii) (c : ascii) : bool :=
  existsb (Ascii.eqb c) chars.

(** [s.strip()] *)
Definition strip (s : string) : string :=
  string_of_list_ascii (strip_by isspace (list_ascii_of_string s)).

(** [s.strip(chars)] *)
Definition strip_chars (chars s : string) : string :=
  string_of_list_ascii
    (strip_by (mem_char (list_ascii_of_string chars)) (list_ascii_of_string s)).

Fixpoint split_on (sep : ascii) (l : list ascii) : list (list ascii) :=
  match l with
  | [] => [[]]
  | c :: t =>
      if Ascii.eqb c sep then [] :: split_on sep t
      else match split_on sep t with
           | h :: r => (c :: h) :: r
           | [] => [[c]]
           end
  end.

(** [s.split(sep)] for a separator of one character. *)
Definition split (sep : ascii) (s : string) : list string :=
  map string_of_list_ascii (split_on sep (list_ascii_of_string s)).

(** [s.replace(c, '')] for a single character [c]. *)
Definition remove_char (c : ascii) (s : string) : string :=
  string_of_list_ascii
    (filter (fun x => negb (Ascii.eqb x c)) (list_ascii_of_string s)).

Fixpoint starts_with (p l : list ascii) : bool :=
  match p, l with
  | [], _ => true
  | _ :: _, [] => false
  | a :: p', b :: l' => Ascii.eqb a b && starts_with p' l'
  end.

(** [s.endswith(suffix)] *)
Definition endswith (s suffix : string) : bool :=
  starts_with (rev (list_ascii_of_string suffix)) (rev (list_ascii_of_string s)).

(** Truth value of a string: [bool(s)]. *)
Definition nonempty (s : string) : bool :=
  match s with EmptyString => false | String _ _ => true end.

(** [str(n)] for an integer. *)
Definition str_of_Z (n : Z) : string := NilZero.string_of_int (Z.to_int n).

(** ASCII lower-casing, as the case-insensitive matches of [float] need. *)
Definition lower (c : ascii) : ascii :=
  let n := nat_of_ascii c in
  if ((65 <=? n) && (n <=? 90))%nat then ascii_of_nat (n + 32) else c.

End PyStr.

(* ================================================================== *)
(** * Exceptions *)

Inductive exn : Type :=
| ValueError
| TypeError
| KeyError
| AttributeError
| OverflowError
| OSError
| JSONDecodeError.

Inductive exc (A : Type) : Type :=
| Ok (a : A)
| Raise (e : exn).

Arguments Ok {A} a.
Arguments Raise {A} e.

Definition bind {A B : Type} (c : exc A) (k : A -> exc B) : exc B :=
  match c with
  | Ok a => k a
  | Raise e => Raise e
  end.

Notation "x <- c ;; k" := (bind c (fun x => k))
  (at level 61, c at next level, right associativity).

(** [try: c  except Exception as e: h e] *)
Definition try_except {A : Type} (c : exc A) (h : exn -> exc A) : exc A :=
  match c with
  | Ok a => Ok a
  | Raise e => h e
  end.

(* ================================================================== *)
(** * Python numbers read from text *)

Module PyNum.
Import PyStr.

(** Underscores in a numeric literal: each one must stand directly
    between two digits.  Returns the text without them. *)
Fixpoint drop_underscores (prev : option ascii) (l : list ascii)
  : option (list ascii) :=
  match l with
  | [] =>
      match prev with
      | Some "_"%char => None
      | _ => Some []
      end
  | c :: t =>
      if Ascii.eqb c "_" then
        match prev with
        | Some p => if isdigit p then drop_underscores (Some c) t else None
        | None => None
        end
      else
        let ok := match prev with
                  | Some "_"%char => isdigit c
                  | _ => true
                  end in
        if ok then option_map (cons c) (drop_underscores (Some c) t) else None
  end.

Definition digits_value (l : list ascii) : Z :=
  fold_left (fun acc c => 10 * acc + digit_value c) l 0.

(** Optional sign; [true] is a minus sign. *)
Definition split_sign (l : list ascii) : bool * list ascii :=
  match l with
  | "-"%char :: t => (true, t)
  | "+"%char :: t => (false, t)
  | _ => (false, l)
  end.

(** [int(s)] for a string, base 10. *)
Definition py_int (s : string) : exc Z :=
  let body := strip_by isspace (list_ascii_of_string s) in
  let '(neg, rest) := split_sign body in
  match drop_underscores None rest with
  | Some (d :: ds) =>
      if forallb isdigit (d :: ds) then
        let n := digits_value (d :: ds) in
        Ok (if neg then - n else n)
      else Raise ValueError
  | _ => Raise ValueError
  end.

(** ** [float(s)] *)

Definition prec : Z := 53.
Definition emax : Z := 1024.

(** The binary64 value nearest to [m * 10^e] (ties to even), for [0 <= m].
    For a negative exponent the quotient is taken with at least 62
    significant bits and a sticky last bit before the final rounding. *)
Definition binary64_of_decimal (neg : bool) (m e : Z) : spec_float :=
  if m =? 0 then S754_zero neg
  else
    let signed (x : Z) := if neg then - x else x in
    if 0 <=? e then binary_normalize prec emax (signed (m * 10 ^ e)) 0 neg
    else
      let d := 10 ^ (- e) in
      let k := Z.max 0 (64 + Z.log2_up d - Z.log2 m) in
      let n := m * 2 ^ k in
      let q := n / d in
      let q' := if n mod d =? 0 then q else Z.lor q 1 in
      binary_normalize prec emax (signed q') (- k) neg.

Fixpoint span_digits (l : list ascii) : list ascii * list ascii :=
  match l with
  | c :: t =>
      if isdigit c then let '(d, r) := span_digits t in (c :: d, r)
      else ([], l)
  | [] => ([], [])
  end.

(** Exponent part [e[sign]digits] at the end of the text; [None] when what
    is left is not an exponent part. *)
Definition parse_exponent (l : list ascii) : option Z :=
  match l with
  | [] => Some 0
  | c :: t =>
      if Ascii.eqb (lower c) "e" then
        let '(neg, t') := split_sign t in
        match span_digits t' with
        | (d :: ds, []) =>
            let n := digits_value (d :: ds) in
            Some (if neg then - n else n)
        | _ => None
        end
      else None
  end.

Definition parse_decimal (neg : bool) (l : list ascii) : exc spec_float :=
  let '(ip, r1) := span_digits l in
  let '(fp, r2) := match r1 with
                   | "."%char :: t => span_digits t
                   | _ => ([], r1)
                   end in
  match (ip ++ fp)%list with
  | [] => Raise ValueError
  | ds =>
      match parse_exponent r2 with
      | Some ex =>
          Ok (binary64_of_decimal neg (digits_value ds)
                (ex - Z.of_nat (List.length fp)))
      | None => Raise ValueError
      end
  end.

Definition py_float (s : string) : exc spec_float :=
  let body := strip_by isspace (list_ascii_of_string s) in
  match drop_underscores None body with
  | None => Raise ValueError
  | Some l =>
      let '(neg, rest) := split_sign l in
      let word := string_of_list_ascii (map lower rest) in
      if String.eqb word "inf" || String.eqb word "infinity"
      then Ok (S754_infinity neg)
      else if String.eqb word "nan" then Ok S754_nan
      else parse_decimal neg rest
  end.

(** [int(x)] for a float: truncation towards zero. *)
Definition int_of_float (x : spec_float) : exc Z :=
  match x with
  | S754_zero _ => Ok 0
  | S754_infinity _ => Raise OverflowError
  | S754_nan => Raise ValueError
  | S754_finite neg m e =>
      let n := Z.shiftl (Zpos m) e in
      Ok (if neg then - n else n)
  end.

End PyNum.

(* ================================================================== *)
(** * Python values and dictionaries *)

#[warning="-register-all"]
Inductive value : Type :=
| VNone
| VBool (b : bool)
| VInt (n : Z)
| VFloat (x : spec_float)
| VStr (s : string)
| VList (l : list value)
| VDict (d : list (string * value)).

(** A [dict] with string keys, as the list of its items in insertion
    order. *)
Definition dict : Type := list (string * value).

Module Dict.

(** [d.get(k)] *)
Fixpoint get {A : Type} (d : list (string * A)) (k : string) : option A :=
  match d with
  | [] => None
  | (k', v) :: t => if String.eqb k k' then Some v else get t k
  end.

(** [d[k] = v]: an existing key keeps its place, a new one goes last. *)
Fixpoint set {A : Type} (d : list (string * A)) (k : string) (v : A)
  : list (string * A) :=
  match d with
  | [] => [(k, v)]
  | (k', v') :: t =>
      if String.eqb k k' then (k', v) :: t else (k', v') :: set t k v
  end.

(** [d.update(other)] *)
Definition update {A : Type} (d other : list (string * A))
  : list (string * A) :=
  fold_left (fun acc kv => set acc (fst kv) (snd kv)) other d.

(** [d[k]] *)
Definition getitem (d : dict) (k : string) : exc value :=
  match get d k with
  | Some v => Ok v
  | None => Raise KeyError
  end.

End Dict.

(** [bool(v)] *)
Definition truthy (v : value) : bool :=
  match v with
  | VNone => false
  | VBool b => b
  | VInt n => negb (n =? 0)
  | VFloat (S754_zero _) => false
  | VFloat _ => true
  | VStr s => PyStr.nonempty s
  | VList [] => false
  | VList _ => true
  | VDict [] => false
  | VDict _ => true
  end.

(** [v.get(k, default)] on a value of any type: only a [dict] has [get]. *)
Definition value_get (v : value) (k : string) (default : value) : exc value :=
  match v with
  | VDict d => Ok (match Dict.get d k with Some x => x | None => default end)
  | _ => Raise AttributeError
  end.

(** [int(v)] *)
Definition py_int_of_value (v : value) : exc Z :=
  match v with
  | VInt n => Ok n
  | VBool b => Ok (if b then 1 else 0)
  | VFloat x => PyNum.int_of_float x
  | VStr s => PyNum.py_int s
  | VNone | VList _ | VDict _ => Raise TypeError
  end.

(* ================================================================== *)
(** * Logging *)

Inductive level : Type := INFO | WARNING | ERROR.

(** One constructor per [logging] call of the module, with the values its
    f-string interpolates. *)
Inductive message : Type :=
| UploadKeyFailed (key : string) (status_code : Z) (text : string)
| UploadKeyException (key : string) (e : exn)
| BulkException (e : exn)
| ErrorParsingRow (e : exn)
| ErrorParsingJson (e : exn)
| StartingUpload (file_path : string)
| ReadingAndParsing
| InvalidJsonFormat
| ProcessedRows (processed_count : nat)
| ParsedProblems (parsed processed_count : nat)
| NoProblemsFound
| UploadingProblems
| UploadingEssentials
| EssentialsUploaded
| EssentialsFailed
| SkippingEssentials
| FileNotFound (file_path : string)
| SummaryRule
| SummaryTitle
| TotalProcessed (n : nat)
| SuccessfulUploads (n : nat)
| FailedUploads (n : nat)
| SuccessRate (success_count failed_count : nat)
| AllUploadsCompleted
| SomeUploadsFailed (failed_count : nat)
| FatalError (e : exn).

Definition log_record : Type := level * message.

(* ================================================================== *)
(** * Filter policy *)

Definition should_process_problem (problem_id : Z) : bool :=
  if problem_id =? 1262 then true
  else if problem_id >=? 1931 then true
  else false.

(* ================================================================== *)
(** * Normaliser for tabular rows *)

(** A row as [parse_csv_row] declares it, [Dict[str, str]]: column name to
    text, in column order.  [csv.DictReader] yields such a row for every
    line that has as many fields as the header; the rows of shorter and
    longer lines, which hold [None] for the missing columns or a list of
    the surplus fields under the key [None], are outside this type. *)
Definition Row : Type := list (string * string).

(** [row.get(k, default)] *)
Definition row_get (row : Row) (k default : string) : string :=
  match Dict.get row k with
  | Some v => v
  | None => default
  end.

Definition dquote : string := String "034"%char EmptyString.

(** The comprehension shared by [topics], [hints] and [similar_questions]:
    every piece [x] of [s.strip('[]').split(',')] whose [x.strip()] is not
    empty, stripped of blanks and then of double quotes. *)
Definition list_literal_items (s : string) : list string :=
  map (fun x => PyStr.strip_chars dquote (PyStr.strip x))
      (filter (fun x => PyStr.nonempty (PyStr.strip x))
              (PyStr.split "," (PyStr.strip_chars "[]" s))).

(** [try: c  except ValueError: pass], the variable keeping [default]. *)
Definition except_ValueError {A : Type} (c : exc A) (default : A) : exc A :=
  try_except c (fun e => match e with
                         | ValueError => Ok default
                         | _ => Raise e
                         end).

Definition recognized_columns : list string :=
  ["difficulty"; "frontendQuestionId"; "paidOnly"; "title"; "titleSlug"; "url";
   "description_url"; "description"; "solution_url"; "solution";
   "solution_code_python"; "solution_code_java"; "solution_code_cpp";
   "solution_code_url"; "category"; "acceptance_rate"; "topics";
   "hints"; "likes"; "dislikes"; "similar_questions"; "stats"].

Definition str_list (l : list string) : value := VList (map VStr l).

(** A list-valued column: empty when the stripped text is empty. *)
Definition parse_list_column (row : Row) (column : string) : list string :=
  let text := PyStr.strip (row_get row column "") in
  if PyStr.nonempty text then list_literal_items text else [].

(** The acceptance rate: [None] unless the text, without its percent sign,
    reads as a float. *)
Definition parse_acceptance_rate (row : Row) : exc value :=
  let acceptance_rate_str := PyStr.strip (row_get row "acceptance_rate" "") in
  if PyStr.nonempty acceptance_rate_str then
    except_ValueError
      (x <- PyNum.py_float (PyStr.strip (PyStr.remove_char "%" acceptance_rate_str)) ;;
       Ok (VFloat x))
      VNone
  else Ok VNone.

(** [likes] and [dislikes]: 0 unless the text reads as an integer. *)
Definition parse_count (row : Row) (column : string) : exc Z :=
  except_ValueError
    (if PyStr.nonempty (PyStr.strip (row_get row column ""))
     then PyNum.py_int (PyStr.strip (row_get row column "0"))
     else Ok 0)
    0.

(** The solution codes the row holds, by language. *)
Definition solution_codes_of (row : Row) : dict :=
  fold_left
    (fun acc lang =>
       let code_key := "solution_code_" ++ lang in
       match Dict.get row code_key with
       | Some code =>
           if PyStr.nonempty code then Dict.set acc code_key (VStr code) else acc
       | None => acc
       end)
    ["python"; "java"; "cpp"] [].

(** The loop that folds every other non-empty column into the metadata. *)
Definition add_other_columns (row : Row) (metadata : dict) : dict :=
  fold_left
    (fun acc kv =>
       let '(key, v) := kv in
       if negb (existsb (String.eqb key) recognized_columns) then
         if PyStr.nonempty v && PyStr.nonempty (PyStr.strip v)
         then Dict.set acc key (VStr (PyStr.strip v))
         else acc
       else acc)
    row metadata.

Definition metadata_of (row : Row) (topics hints similar_questions : list string)
  (acceptance_rate : value) (likes dislikes : Z) : dict :=
  let metadata : dict :=
    [("category", VStr (PyStr.strip (row_get row "category" "")));
     ("topics", str_list topics);
     ("hints", str_list hints);
     ("acceptance_rate", acceptance_rate);
     ("likes", VInt likes);
     ("dislikes", VInt dislikes)] in
  let metadata :=
    if truthy (str_list similar_questions)
    then Dict.set metadata "similar_questions" (str_list similar_questions)
    else metadata in
  add_other_columns row metadata.

(** The body of the [try] block of [parse_csv_row]. *)
Definition parse_csv_row_body (row : Row) : exc (option dict) :=
  let frontend_question_id := PyStr.strip (row_get row "frontendQuestionId" "") in
  if negb (PyStr.nonempty frontend_question_id) then Ok None else
  problem_id <- PyNum.py_int frontend_question_id ;;
  if negb (should_process_problem problem_id) then Ok None else
  let topics := parse_list_column row "topics" in
  let hints := parse_list_column row "hints" in
  let similar_questions := parse_list_column row "similar_questions" in
  acceptance_rate <- parse_acceptance_rate row ;;
  likes <- parse_count row "likes" ;;
  dislikes <- parse_count row "dislikes" ;;
  let problem : dict :=
    [("id", VInt problem_id);
     ("difficulty", VStr (PyStr.strip (row_get row "difficulty" "")));
     ("title", VStr (PyStr.strip (row_get row "title" "")));
     ("titleSlug", VStr (PyStr.strip (row_get row "titleSlug" "")));
     ("url", VStr (PyStr.strip (row_get row "url" "")));
     ("description", VStr (PyStr.strip (row_get row "description" "")))] in
  let solution_codes := solution_codes_of row in
  let problem :=
    if truthy (VDict solution_codes) then Dict.update problem solution_codes
    else problem in
  let metadata :=
    metadata_of row topics hints similar_questions acceptance_rate likes dislikes in
  let problem :=
    if truthy (VDict metadata) then Dict.set problem "metadata" (VDict metadata)
    else problem in
  Ok (Some problem).

(** [parse_csv_row]: the parsed problem or [None], and what it logged. *)
Definition parse_csv_row (row : Row) : exc (option dict) * list log_record :=
  match parse_csv_row_body row with
  | Ok r => (Ok r, [])
  | Raise e => (Ok None, [(ERROR, ErrorParsingRow e)])
  end.

(* ================================================================== *)
(** * Normaliser for structured problems *)

(** The body of the [try] block of [parse_json_problem]; [json_data] is
    whatever element the decoded document holds. *)
Definition parse_json_problem_body (json_data : value) : exc (option dict) :=
  question_id <- value_get json_data "questionId" VNone ;;
  if negb (truthy question_id) then Ok None else
  problem_id <- py_int_of_value question_id ;;
  if negb (should_process_problem problem_id) then Ok None else
  difficulty <- value_get json_data "difficulty" (VStr "") ;;
  title <- value_get json_data "title" (VStr "") ;;
  titleSlug <- value_get json_data "titleSlug" (VStr "") ;;
  url <- value_get json_data "url" (VStr "") ;;
  description <- value_get json_data "description" (VStr "") ;;
  topics <- value_get json_data "topics" (VList []) ;;
  category <- value_get json_data "category" (VStr "General") ;;
  Ok (Some [("id", VInt problem_id);
            ("difficulty", difficulty);
            ("title", title);
            ("titleSlug", titleSlug);
            ("url", url);
            ("description", description);
            ("metadata", VDict [("topics", topics); ("category", category)])]).

Definition parse_json_problem (json_data : value)
  : exc (option dict) * list log_record :=
  match parse_json_problem_body json_data with
  | Ok r => (Ok r, [])
  | Raise e => (Ok None, [(ERROR, ErrorParsingJson e)])
  end.

(* ================================================================== *)
(** * Essentials builder *)

(** The summary that the loop of [create_essentials_entry] appends for one
    problem. *)
Definition essential_of (problem : dict) : exc dict :=
  id <- Dict.getitem problem "id" ;;
  title <- Dict.getitem problem "title" ;;
  difficulty <- Dict.getitem problem "difficulty" ;;
  let metadata :=
    match Dict.get problem "metadata" with Some m => m | None => VDict [] end in
  category <- value_get metadata "category" (VStr "") ;;
  topics <- value_get metadata "topics" (VList []) ;;
  Ok [("id", id); ("title", title); ("difficulty", difficulty);
      ("category", category); ("topics", topics)].

Fixpoint map_exc {A B : Type} (f : A -> exc B) (l : list A) : exc (list B) :=
  match l with
  | [] => Ok []
  | a :: t => b <- f a ;; bs <- map_exc f t ;; Ok (b :: bs)
  end.

(** The key [x["id"]] of the sort.  Both normalisers store [int(...)]
    under ["id"]; the order of keys of another type is not modelled and
    shows as [TypeError]. *)
Definition sort_key (essential : dict) : exc (Z * dict) :=
  id <- Dict.getitem essential "id" ;;
  match id with
  | VInt n => Ok (n, essential)
  | _ => Raise TypeError
  end.

(** [list.sort(key=...)] is stable: an element goes before the first one
    whose key is not smaller. *)
Fixpoint insert_by_key {A : Type} (x : Z * A) (l : list (Z * A)) : list (Z * A) :=
  match l with
  | [] => [x]
  | y :: t => if fst x <=? fst y then x :: l else y :: insert_by_key x t
  end.

Definition sort_by_key {A : Type} (l : list (Z * A)) : list (Z * A) :=
  fold_right insert_by_key [] l.

Definition create_essentials_entry (problems : list dict) : exc dict :=
  essentials <- map_exc essential_of problems ;;
  keyed <- map_exc sort_key essentials ;;
  let essentials := map snd (sort_by_key keyed) in
  Ok [("problems", VList (map VDict essentials));
      ("count", VInt (Z.of_nat (List.length essentials)));
      ("last_updated", VNone)].

(* ================================================================== *)
(** * The world outside and the state of a run *)

(** Outcome of one [requests.put]. *)
Inductive response : Type :=
| Response (status_code : Z) (text : string)
| RequestRaised (e : exn).

(** A file, by what the two readers make of its content:
    [csv.DictReader] and [json.load] ([open] failing shows in both). *)
Record file : Type := {
  csv_rows : exc (list Row);
  json_doc : exc value
}.

Record world : Type := {
  remote : nat -> response;      (* the answer to the k-th request *)
  now : Z;                       (* [int(time.time())] *)
  files : string -> option file  (* the file system *)
}.

Record state : Type := {
  log : list log_record;           (* logging calls, oldest first *)
  requests : nat;                  (* requests sent so far *)
  writes : list (string * value);  (* key and body of each request *)
  bulk_calls : list (list (string * value))
                                   (* the entries of each call of [put_bulk] *)
}.

Definition initial_state : state :=
  {| log := []; requests := 0%nat; writes := []; bulk_calls := [] |}.

Definition M (A : Type) : Type := state -> exc A * state.

Definition ret {A : Type} (a : A) : M A := fun s => (Ok a, s).

Definition bindM {A B : Type} (c : M A) (k : A -> M B) : M B :=
  fun s =>
    match c s with
    | (Ok a, s') => k a s'
    | (Raise e, s') => (Raise e, s')
    end.

Notation "x <~ c ;; k" := (bindM c (fun x => k))
  (at level 61, c at next level, right associativity).
Notation "c ;;; k" := (bindM c (fun _ => k))
  (at level 61, right associativity).

Definition lift {A : Type} (c : exc A) : M A := fun s => (c, s).

Definition logging (lvl : level) (msg : message) : M unit :=
  fun s => (Ok tt, {| log := log s ++ [(lvl, msg)];
                      requests := requests s;
                      writes := writes s;
                      bulk_calls := bulk_calls s |}).

(** Runs a normaliser and appends what it logged. *)
Definition call_logged {A : Type} (c : exc A * list log_record) : M A :=
  fun s => (fst c, {| log := log s ++ snd c;
                      requests := requests s;
                      writes := writes s;
                      bulk_calls := bulk_calls s |}).

Definition try_exceptM {A : Type} (c : M A) (h : exn -> M A) : M A :=
  fun s =>
    match c s with
    | (Ok a, s') => (Ok a, s')
    | (Raise e, s') => h e s'
    end.

(** [requests.put(url, headers=..., data=body)]: the store answers or the
    call raises.  [body] is the value handed to [json.dumps]. *)
Definition requests_put (w : world) (key : string) (body : value)
  : M (Z * string) :=
  fun s =>
    let s' := {| log := log s;
                 requests := S (requests s);
                 writes := writes s ++ [(key, body)];
                 bulk_calls := bulk_calls s |} in
    match remote w (requests s) with
    | Response status_code text => (Ok (status_code, text), s')
    | RequestRaised e => (Raise e, s')
    end.

Definition status_ok (status_code : Z) : bool :=
  existsb (Z.eqb status_code) [200; 201].

(* ================================================================== *)
(** * CloudflareKVUploader *)

(** [put]: one write; [True] on status 200 or 201. *)
Definition put (w : world) (key : string) (value : value) : M bool :=
  try_exceptM
    (r <~ requests_put w key value ;;
     let '(status_code, text) := r in
     if status_ok status_code then ret true
     else logging ERROR (UploadKeyFailed key status_code text) ;;; ret false)
    (fun e => logging ERROR (UploadKeyException key e) ;;; ret false).

(** The [results] dictionary of [put_bulk]. *)
Record results : Type := { success : nat; failed : nat }.

(** The body of the [for] loop of [put_bulk], with its own [try]. *)
Definition put_bulk_entry (w : world) (entry : string * value) (res : results)
  : M results :=
  try_exceptM
    (r <~ requests_put w (fst entry) (snd entry) ;;
     let '(status_code, text) := r in
     if status_ok status_code
     then ret {| success := S (success res); failed := failed res |}
     else logging ERROR (UploadKeyFailed (fst entry) status_code text) ;;;
          ret {| success := success res; failed := S (failed res) |})
    (fun e =>
       logging ERROR (UploadKeyException (fst entry) e) ;;;
       ret {| success := success res; failed := S (failed res) |}).

(** The [for] loop: the counts reached, and the exception that left the
    loop if one did. *)
Fixpoint put_bulk_loop (w : world) (entries : list (string * value))
  (res : results) : state -> (results * option exn) * state :=
  fun s =>
    match entries with
    | [] => ((res, None), s)
    | entry :: rest =>
        match put_bulk_entry w entry res s with
        | (Ok res', s') => put_bulk_loop w rest res' s'
        | (Raise e, s') => ((res, Some e), s')
        end
    end.

(** A call of [put_bulk] entered with [entries]. *)
Definition called_put_bulk (entries : list (string * value)) (s : state) : state :=
  {| log := log s;
     requests := requests s;
     writes := writes s;
     bulk_calls := bulk_calls s ++ [entries] |}.

Definition put_bulk (w : world) (entries : list (string * value)) : M results :=
  fun s =>
    match put_bulk_loop w entries {| success := 0; failed := 0 |}
            (called_put_bulk entries s) with
    | ((res, None), s') => (Ok res, s')
    | ((res, Some e), s') =>
        (logging ERROR (BulkException e) ;;;
         ret {| success := success res; failed := List.length entries |}) s'
    end.

(* ================================================================== *)
(** * Driver *)

(** [for p in v]: what iterating a value yields. *)
Definition py_iter (v : value) : exc (list value) :=
  match v with
  | VList l => Ok l
  | VStr s => Ok (map (fun c => VStr (String c EmptyString)) (list_ascii_of_string s))
  | VDict d => Ok (map (fun kv => VStr (fst kv)) d)
  | VNone | VBool _ | VInt _ | VFloat _ => Raise TypeError
  end.

(** [open(file_path)]: a missing file raises. *)
Definition open_file (w : world) (file_path : string) : exc file :=
  match files w file_path with
  | Some f => Ok f
  | None => Raise OSError
  end.

(** The loop over the structured problems. *)
Fixpoint parse_json_loop (raw_problems : list value) (problems : list dict)
  (processed_count : nat) : M (list dict * nat) :=
  match raw_problems with
  | [] => ret (problems, processed_count)
  | p :: rest =>
      problem <~ call_logged (parse_json_problem p) ;;
      let problems :=
        match problem with
        | Some d => if truthy (VDict d) then (problems ++ [d])%list else problems
        | None => problems
        end in
      parse_json_loop rest problems (S processed_count)
  end.

(** The loop over the rows of the reader. *)
Fixpoint parse_csv_loop (rows : list Row) (problems : list dict)
  (processed_count : nat) : M (list dict * nat) :=
  match rows with
  | [] => ret (problems, processed_count)
  | row :: rest =>
      problem <~ call_logged (parse_csv_row row) ;;
      let problems :=
        match problem with
        | Some d => if truthy (VDict d) then (problems ++ [d])%list else problems
        | None => problems
        end in
      let processed_count := S processed_count in
      (if (processed_count mod 1000 =? 0)%nat
       then logging INFO (ProcessedRows processed_count)
       else ret tt) ;;;
      parse_csv_loop rest problems processed_count
  end.

(** The branch of a path ending in [.json]: the decoded document is a
    list of problems or an object holding one under ["problems"]; [None] is
    the early [return 0, 0] of a document of another shape. *)
Definition parse_structured (data : exc value) : M (option (list dict * nat)) :=
  data <~ lift data ;;
  match data with
  | VDict d =>
      match Dict.get d "problems" with
      | Some raw_problems =>
          items <~ lift (py_iter raw_problems) ;;
          r <~ parse_json_loop items [] 0 ;; ret (Some r)
      | None => logging ERROR InvalidJsonFormat ;;; ret None
      end
  | VList l => r <~ parse_json_loop l [] 0 ;; ret (Some r)
  | _ => logging ERROR InvalidJsonFormat ;;; ret None
  end.

(** The other branch: every row of the reader goes through
    [parse_csv_row]. *)
Definition parse_tabular (rows : exc (list Row)) : M (option (list dict * nat)) :=
  rows <~ lift rows ;;
  r <~ parse_csv_loop rows [] 0 ;; ret (Some r).

(** Reading and parsing, as [upload_file_to_kv] starts. *)
Definition read_and_parse (w : world) (file_path : string)
  : M (option (list dict * nat)) :=
  if PyStr.endswith file_path ".json" then
    f <~ lift (open_file w file_path) ;;
    parse_structured (json_doc f)
  else
    f <~ lift (open_file w file_path) ;;
    parse_tabular (csv_rows f).

(** [range(0, stop, step)] *)
Definition py_range (stop : nat) (step : Z) : exc (list nat) :=
  if step =? 0 then Raise ValueError
  else if step <? 0 then Ok []
  else
    let b := Z.to_nat step in
    Ok (map (fun k => (k * b)%nat) (seq 0 ((stop + b - 1) / b))).

(** The key of a problem entry.  ["id"] holds an [int] in every problem the
    normalisers build; the text of another value is not modelled and shows
    as [TypeError]. *)
Definition problem_key (problem : dict) : exc string :=
  id <- Dict.getitem problem "id" ;;
  match id with
  | VInt n => Ok ("problem:" ++ PyStr.str_of_Z n)
  | _ => Raise TypeError
  end.

Definition problem_entry (problem : dict) : exc (string * value) :=
  key <- problem_key problem ;; Ok (key, VDict problem).

(** [problems[i:i + batch_size]] *)
Definition batch_at (problems : list dict) (i : nat) (batch_size : Z) : list dict :=
  firstn (Z.to_nat batch_size) (skipn i problems).

(** The loop over the batches, with the counts it accumulates. *)
Fixpoint upload_batches (w : world) (problems : list dict) (batch_size : Z)
  (starts : list nat) (success_count failed_count : nat) : M (nat * nat) :=
  match starts with
  | [] => ret (success_count, failed_count)
  | i :: rest =>
      let batch := batch_at problems i batch_size in
      entries <~ lift (map_exc problem_entry batch) ;;
      result <~ put_bulk w entries ;;
      upload_batches w problems batch_size rest
        (success_count + success result) (failed_count + failed result)
  end.

(** The phase that uploads the individual problem entries. *)
Definition upload_problems (w : world) (problems : list dict) (batch_size : Z)
  : M (nat * nat) :=
  logging INFO UploadingProblems ;;;
  starts <~ lift (py_range (List.length problems) batch_size) ;;
  upload_batches w problems batch_size starts 0 0.

(** The block that uploads the essentials entry: [True] when the write
    succeeded. *)
Definition upload_essentials (w : world) (problems : list dict) : M bool :=
  logging INFO UploadingEssentials ;;;
  essentials <~ lift (create_essentials_entry problems) ;;
  let essentials :=
    Dict.set essentials "last_updated" (VStr (PyStr.str_of_Z (now w))) in
  ok <~ put w "essentials" (VDict essentials) ;;
  if ok : bool then logging INFO EssentialsUploaded ;;; ret true
  else logging ERROR EssentialsFailed ;;; ret false.

Definition upload_file_to_kv (w : world) (file_path : string)
  (batch_size : Z) (skip_essentials : bool) : M (nat * nat) :=
  logging INFO (StartingUpload file_path) ;;;
  logging INFO ReadingAndParsing ;;;
  parsed <~ read_and_parse w file_path ;;
  match parsed with
  | None => ret (0, 0)%nat
  | Some (problems, processed_count) =>
      logging INFO (ParsedProblems (List.length problems) processed_count) ;;;
      match problems with
      | [] => logging WARNING NoProblemsFound ;;; ret (0, 0)%nat
      | _ :: _ =>
          counts <~ upload_problems w problems batch_size ;;
          let '(success_count, failed_count) := counts in
          if negb skip_essentials then
            ok <~ upload_essentials w problems ;;
            if ok : bool then ret (S success_count, failed_count)
            else ret (success_count, S failed_count)
          else
            logging INFO SkippingEssentials ;;; ret (success_count, failed_count)
      end
  end.

(* ================================================================== *)
(** * Entry point *)

Record args : Type := {
  csv : string;
  batch_size : Z;
  skip_essentials : bool
}.

(** [main]: the exit code of the process and the final state. *)
Definition main (w : world) (a : args) : state -> Z * state :=
  fun s =>
    match files w (csv a) with
    | None =>
        let '(_, s') := logging ERROR (FileNotFound (csv a)) s in (1, s')
    | Some _ =>
        let body :=
          counts <~ upload_file_to_kv w (csv a) (batch_size a) (skip_essentials a) ;;
          let '(success_count, failed_count) := counts in
          logging INFO SummaryRule ;;;
          logging INFO SummaryTitle ;;;
          logging INFO SummaryRule ;;;
          logging INFO (TotalProcessed (success_count + failed_count)) ;;;
          logging INFO (SuccessfulUploads success_count) ;;;
          logging INFO (FailedUploads failed_count) ;;;
          (if (0 <? success_count + failed_count)%nat
           then logging INFO (SuccessRate success_count failed_count)
           else ret tt) ;;;
          logging INFO SummaryRule ;;;
          (if (failed_count =? 0)%nat
           then logging INFO AllUploadsCompleted
           else logging WARNING (SomeUploadsFailed failed_count)) in
        match body s with
        | (Ok _, s') => (0, s')
        | (Raise e, s') =>
            let '(_, s'') := logging ERROR (FatalError e) s' in (1, s'')
        end
    end.

(* ================================================================== *)
(** * The sibling converter *)

Module ConvertForBulkUpload.

(** How [parse_csv_row] of [convert_for_bulk_upload.py] reads the
    identifier, under its comment about identifiers written like a float:
    [int(float(frontend_question_id))]. *)
Definition question_id (frontend_question_id : string) : exc Z :=
  x <- PyNum.py_float frontend_question_id ;; PyNum.int_of_float x.

End ConvertForBulkUpload.

(* ================================================================== *)
(** * test_upload.py *)

Module TestUpload.

(** How a call ends: with a returned value, with an exception of [exn], or
    with the [ZeroDivisionError] of a division by zero. *)
Inductive outcome (A : Type) : Type :=
| Returned (a : A)
| Raised (e : exn)
| RaisedZeroDivisionError.

Arguments Returned {A} a.
Arguments Raised {A} e.
Arguments RaisedZeroDivisionError {A}.

(** The counters of the loop of [test_csv_parsing]. *)
Record tally : Type := {
  problems : list dict;
  parsed_count : nat;
  failed_count : nat
}.

(** One turn of the loop, for a row of the sample. *)
Definition test_row (t : tally) (row : Row) : tally :=
  match fst (parse_csv_row row) with
  | Ok (Some problem) =>
      if truthy (VDict problem)
      then {| problems := (problems t ++ [problem])%list;
              parsed_count := S (parsed_count t);
              failed_count := failed_count t |}
      else {| problems := problems t;
              parsed_count := parsed_count t;
              failed_count := S (failed_count t) |}
  | _ => {| problems := problems t;
            parsed_count := parsed_count t;
            failed_count := S (failed_count t) |}
  end.

(** [test_csv_parsing(csv_file, sample_size)], without what it prints.
    [rows] is what the reader makes of the file; an exception while reading
    returns [False].  The loop stops at the row of index [sample_size]; the
    essentials are built from the parsed problems when there are any; the
    success rate divides by [sample_size]. *)
Definition test_csv_parsing (rows : exc (list Row)) (sample_size : Z)
  : outcome bool :=
  match rows with
  | Raise _ => Returned false
  | Ok rows =>
      let t := fold_left test_row (firstn (Z.to_nat sample_size) rows)
                 {| problems := []; parsed_count := 0; failed_count := 0 |} in
      let essentials :=
        if truthy (VList (map VDict (problems t)))
        then e <- create_essentials_entry (problems t) ;; Ok tt
        else Ok tt in
      match essentials with
      | Raise e => Raised e
      | Ok _ =>
          if sample_size =? 0 then RaisedZeroDivisionError
          else Returned (failed_count t =? 0)%nat
      end
  end.

End TestUpload.

(* ================================================================== *)
(** * setup_env.py *)

Module SetupEnv.

(** [ns.get("binding") == "KV"] *)
Definition is_kv_binding (ns : value) : exc bool :=
  binding <- value_get ns "binding" VNone ;;
  Ok (match binding with
      | VStr s => String.eqb s "KV"
      | _ => false
      end).

(** [ns["id"] = namespace_id] *)
Definition set_id (ns : value) (namespace_id : string) : exc value :=
  match ns with
  | VDict d => Ok (VDict (Dict.set d "id" (VStr namespace_id)))
  | _ => Raise TypeError
  end.

(** The loop over [config["kv_namespaces"]]: the entries with the first
    one bound to KV given the id, or [None] when no entry is bound to KV. *)
Fixpoint update_first_kv (namespaces : list value) (namespace_id : string)
  : exc (option (list value)) :=
  match namespaces with
  | [] => Ok None
  | ns :: rest =>
      kv <- is_kv_binding ns ;;
      if kv : bool then
        ns' <- set_id ns namespace_id ;; Ok (Some (ns' :: rest))
      else
        r <- update_first_kv rest namespace_id ;;
        Ok (option_map (cons ns) r)
  end.

(** The entry appended when no namespace is bound to KV. *)
Definition new_kv_namespace (namespace_id : string) : value :=
  VDict [("binding", VStr "KV");
         ("id", VStr namespace_id);
         ("preview_id", VStr "<PREVIEW_ID_FOR_LOCAL_DEVELOPMENT>")].

(** The configuration that [update_wrangler_config] writes back, from the
    decoded one; an exception leaves the file as it is. *)
Definition updated_config (config : value) (namespace_id : string) : exc value :=
  match config with
  | VDict d =>
      let d := match Dict.get d "kv_namespaces" with
               | Some _ => d
               | None => Dict.set d "kv_namespaces" (VList [])
               end in
      kv_namespaces <- Dict.getitem d "kv_namespaces" ;;
      match kv_namespaces with
      | VList namespaces =>
          r <- update_first_kv namespaces namespace_id ;;
          let namespaces' :=
            match r with
            | Some updated => updated
            | None => (namespaces ++ [new_kv_namespace namespace_id])%list
            end in
          Ok (VDict (Dict.set d "kv_namespaces" (VList namespaces')))
      | VStr _ | VDict _ => Raise AttributeError
      | _ => Raise TypeError
      end
  | _ => Raise TypeError
  end.

(** [update_wrangler_config(namespace_id)], by what it writes: [content] is
    what [json.loads] makes of the file; [None] when nothing is written. *)
Definition update_wrangler_config (content : exc value) (namespace_id : string)
  : option value :=
  match (config <- content ;; updated_config config namespace_id) with
  | Ok config => Some config
  | Raise _ => None
  end.

End SetupEnv.

(* ================================================================== *)
(** * The saved credentials: [setup_env.save_env_file] and the reader of
      [cloudinterview_upload.main] *)

Module DotEnv.
Import PyStr.

Definition newline : ascii := "010"%char.
Definition carriage_return : ascii := "013"%char.
Definition nl : string := String newline EmptyString.
Definition dquote : string := String "034"%char EmptyString.
Definition squote : string := String "039"%char EmptyString.

(** [save_env_file(config)]: the text written to [.env].  The three
    arguments are [config['account_id']], [config['api_token']] and
    [config['namespace_id']], the strings that [get_cloudflare_credentials]
    collects. *)
Definition save_env_file (account_id api_token namespace_id : string) : string :=
  ("# Cloudflare KV Configuration" ++ nl ++
   "export CF_ACCOUNT_ID=" ++ dquote ++ account_id ++ dquote ++ nl ++
   "export CF_API_TOKEN=" ++ dquote ++ api_token ++ dquote ++ nl ++
   "export CF_NAMESPACE_ID=" ++ dquote ++ namespace_id ++ dquote ++ nl)%string.

(** [for line in f] on a file opened in text mode: a line ends at a line
    feed, a carriage return or the pair of them, each read as one line
    feed, which the line keeps; a last line without an end is a line too. *)
Fixpoint readlines (l : list ascii) : list (list ascii) :=
  match l with
  | [] => []
  | c :: t =>
      if Ascii.eqb c newline then [newline] :: readlines t
      else if Ascii.eqb c carriage_return then
        match t with
        | c' :: t' =>
            if Ascii.eqb c' newline then [newline] :: readlines t'
            else [newline] :: readlines t
        | [] => [[newline]]
        end
      else match readlines t with
           | [] => [[c]]
           | h :: r => (c :: h) :: r
           end
  end.

(** [s.startswith(prefix)] *)
Definition startswith (s prefix : string) : bool :=
  starts_with (list_ascii_of_string prefix) (list_ascii_of_string s).

(** [c in s] for one character [c]. *)
Definition contains (c : ascii) (s : string) : bool :=
  existsb (Ascii.eqb c) (list_ascii_of_string s).

(** [s.split(sep, 1)] for a separator of one character that [s] contains:
    the text before its first occurrence and the text after it. *)
Fixpoint split_once (sep : ascii) (s : string) : string * string :=
  match s with
  | EmptyString => (EmptyString, EmptyString)
  | String c t =>
      if Ascii.eqb c sep then (EmptyString, t)
      else let (a, b) := split_once sep t in (String c a, b)
  end.

(** [s.replace(old, '')] for a non-empty [old]: the occurrences of [old]
    are found from the left and do not overlap; [skip] counts the
    characters of a found occurrence still to be dropped. *)
Fixpoint remove_from (old : list ascii) (skip : nat) (l : list ascii) : list ascii :=
  match l with
  | [] => []
  | c :: t =>
      match skip with
      | S k => remove_from old k t
      | O =>
          if starts_with old l then remove_from old (List.length old - 1) t
          else c :: remove_from old O t
      end
  end.

Definition remove (old s : string) : string :=
  string_of_list_ascii
    (remove_from (list_ascii_of_string old) O (list_ascii_of_string s)).

(** The body of the loop over the lines of [.env]. *)
Definition env_line (config : dict) (line : string) : dict :=
  let line := strip line in
  if startswith line "#" || negb (nonempty line) then config
  else if contains "="%char line then
    let (key, value) := split_once "="%char line in
    let key := strip (remove "export " key) in
    let value := strip_chars squote (strip_chars dquote (strip value)) in
    Dict.set config key (VStr value)
  else config.

(** [config] after the loop over the file, from the text of the file. *)
Definition read_env (content : string) : dict :=
  fold_left env_line
    (map string_of_list_ascii (readlines (list_ascii_of_string content))) [].

End DotEnv.

(* ================================================================== *)
(** * Vocabulary of the statements *)

Definition is_int (v : option value) : bool :=
  match v with Some (VInt _) => true | _ => false end.

Definition is_str (v : option value) : bool :=
  match v with Some (VStr _) => true | _ => false end.

Definition is_present (v : option value) : bool :=
  match v with Some _ => true | None => false end.

(** A problem with every required field: an integer id and five strings. *)
Definition well_formed_problem (p : dict) : bool :=
  is_int (Dict.get p "id")
  && forallb (fun k => is_str (Dict.get p k))
       ["difficulty"; "title"; "titleSlug"; "url"; "description"].

(** What the essentials builder and the uploader read of a problem: an
    integer id, a title, a difficulty, and a metadata dictionary. *)
Definition normalized (p : dict) : bool :=
  is_int (Dict.get p "id")
  && is_present (Dict.get p "title")
  && is_present (Dict.get p "difficulty")
  && match Dict.get p "metadata" with Some (VDict _) => true | _ => false end.

(** The keys under which [parse_csv_row] attaches solution codes. *)
Definition solution_code_keys : list string :=
  ["solution_code_python"; "solution_code_java"; "solution_code_cpp"].

(** The integer stored under ["id"] (0 when there is none). *)
Definition int_id (p : dict) : Z :=
  match Dict.get p "id" with Some (VInt n) => n | _ => 0 end.

(** The category stored in the metadata of a problem. *)
Definition metadata_category (p : dict) : option value :=
  match Dict.get p "metadata" with
  | Some (VDict m) => Dict.get m "category"
  | _ => None
  end.

(** The summary of a problem, empty when [essential_of] raises. *)
Definition summary_of (p : dict) : dict :=
  match essential_of p with
  | Ok e => e
  | Raise _ => []
  end.

(** The summary of a problem as the data model describes it, the record
    of the five fields [id], [title], [difficulty], [category] and [topics]:
    the first three are the values that the problem holds under these
    names, the last two are the ones its metadata holds, the empty string
    and the empty list when the metadata has none. *)
Definition five_field_summary (p : dict) : dict :=
  let field (d : dict) (k : string) (missing : value) : value :=
    match Dict.get d k with Some v => v | None => missing end in
  let metadata :=
    match Dict.get p "metadata" with Some (VDict m) => m | _ => [] end in
  [("id", field p "id" VNone);
   ("title", field p "title" VNone);
   ("difficulty", field p "difficulty" VNone);
   ("category", field metadata "category" (VStr ""));
   ("topics", field metadata "topics" (VList []))].

(** A summary with the key that the sort reads from it. *)
Definition keyed (e : dict) : Z * dict := (int_id e, e).

(** Ascending identifiers, each strictly below the next. *)
Definition ascending_ids (l : list dict) : Prop :=
  StronglySorted (fun a b => int_id a < int_id b) l.

(** The entry that the driver writes for a problem with an integer id. *)
Definition problem_entry_of (p : dict) : string * value :=
  ("problem:" ++ PyStr.str_of_Z (int_id p), VDict p).

(** The problems that the loop over the rows keeps. *)
Definition csv_problems (rows : list Row) : list dict :=
  flat_map (fun row => match fst (parse_csv_row row) with
                       | Ok (Some p) => [p]
                       | _ => []
                       end) rows.

(** The problems that the loop over the structured items keeps. *)
Definition json_problems (items : list value) : list dict :=
  flat_map (fun item => match fst (parse_json_problem item) with
                        | Ok (Some p) => [p]
                        | _ => []
                        end) items.

(** The valid problems that a file yields under a given path; [None] when
    reading raises or the document has neither of the two shapes. *)
Definition parsed_problems (file_path : string) (f : file) : option (list dict) :=
  if PyStr.endswith file_path ".json" then
    match json_doc f with
    | Ok (VList items) => Some (json_problems items)
    | Ok (VDict d) =>
        match Dict.get d "problems" with
        | Some raw_problems =>
            match py_iter raw_problems with
            | Ok items => Some (json_problems items)
            | Raise _ => None
            end
        | None => None
        end
    | _ => None
    end
  else
    match csv_rows f with
    | Ok rows => Some (csv_problems rows)
    | Raise _ => None
    end.

(** A write that the uploader counts as a success. *)
Definition write_ok (r : response) : bool :=
  match r with
  | Response status_code _ => status_ok status_code
  | RequestRaised _ => false
  end.

(** Among the [n] requests from number [first] on, those that succeed. *)
Definition count_ok (w : world) (first n : nat) : nat :=
  List.length (filter write_ok (map (remote w) (seq first n))).

(** The last logging call of a run. *)
Definition final_record (s : state) : option log_record :=
  match rev (log s) with
  | r :: _ => Some r
  | [] => None
  end.

(** What reading a file under a given path comes to: an exception, the
    early return of a document of the wrong shape ([None]), or the valid
    problems. *)
Definition read_outcome (file_path : string) (f : file) : exc (option (list dict)) :=
  if PyStr.endswith file_path ".json" then
    data <- json_doc f ;;
    match data with
    | VDict d =>
        match Dict.get d "problems" with
        | Some raw_problems =>
            items <- py_iter raw_problems ;; Ok (Some (json_problems items))
        | None => Ok None
        end
    | VList items => Ok (Some (json_problems items))
    | _ => Ok None
    end
  else
    rows <- csv_rows f ;; Ok (Some (csv_problems rows)).

(** The records of a log that report an error. *)
Definition is_error (r : log_record) : bool :=
  match fst r with ERROR => true | _ => false end.

(** The problem that [parse_csv_row] builds once the identifier and the
    three numeric fields are read: its last lines, from the dictionary
    literal on. *)
Definition assembled_problem (row : Row) (problem_id : Z)
  (acceptance_rate : value) (likes dislikes : Z) : dict :=
  let problem : dict :=
    [("id", VInt problem_id);
     ("difficulty", VStr (PyStr.strip (row_get row "difficulty" "")));
     ("title", VStr (PyStr.strip (row_get row "title" "")));
     ("titleSlug", VStr (PyStr.strip (row_get row "titleSlug" "")));
     ("url", VStr (PyStr.strip (row_get row "url" "")));
     ("description", VStr (PyStr.strip (row_get row "description" "")))] in
  let solution_codes := solution_codes_of row in
  let problem :=
    if truthy (VDict solution_codes) then Dict.update problem solution_codes
    else problem in
  let metadata :=
    metadata_of row (parse_list_column row "topics")
      (parse_list_column row "hints")
      (parse_list_column row "similar_questions")
      acceptance_rate likes dislikes in
  if truthy (VDict metadata) then Dict.set problem "metadata" (VDict metadata)
  else problem.

(** The names under which [parse_csv_row] itself stores metadata. *)
Definition metadata_keys : list string :=
  ["category"; "topics"; "hints"; "acceptance_rate"; "likes"; "dislikes";
   "similar_questions"].

(** [key not in [...]] of the loop over the other columns. *)
Definition unrecognized (key : string) : bool :=
  negb (existsb (String.eqb key) recognized_columns).


(** No line feed and no carriage return. *)
Definition no_line_break (l : list ascii) : bool :=
  forallb (fun c => negb (Ascii.eqb c DotEnv.newline)
                    && negb (Ascii.eqb c DotEnv.carriage_return)) l.

(** The text does not begin with a quote character, single or double. *)
Definition no_leading_quote (l : list ascii) : bool :=
  match l with
  | [] => true
  | c :: _ => negb (Ascii.eqb c "034"%char) && negb (Ascii.eqb c "039"%char)
  end.

(** A value that [.env] can hold: ASCII text (every encoding a file is
    opened with writes and reads it back unchanged) on one line, with no
    quote character at either end. *)
Definition plain_value (v : string) : bool :=
  let l := list_ascii_of_string v in
  forallb (fun c => (nat_of_ascii c <? 128)%nat) l
  && no_line_break l
  && no_leading_quote l
  && no_leading_quote (rev l).

(* ================================================================== *)
(** * Sample inputs *)

(** A row whose identifier is written like a float. *)
Definition row_float_id : Row :=
  [("frontendQuestionId", "1931.0"); ("title", "Two Sum"); ("difficulty", "Easy")].

(** The same row with the identifier written as an integer. *)
Definition row_int_id : Row :=
  [("frontendQuestionId", "1931"); ("title", "Two Sum"); ("difficulty", "Easy")].

(** What [parse_csv_row] makes of [row_int_id]. *)
Definition problem_of_row_int_id : dict :=
  [("id", VInt 1931); ("difficulty", VStr "Easy"); ("title", VStr "Two Sum");
   ("titleSlug", VStr ""); ("url", VStr ""); ("description", VStr "");
   ("metadata",
    VDict [("category", VStr ""); ("topics", VList []); ("hints", VList []);
           ("acceptance_rate", VNone); ("likes", VInt 0); ("dislikes", VInt 0)])].

(** A structured problem without a category. *)
Definition json_no_category : dict :=
  [("questionId", VStr "1931"); ("title", VStr "Two Sum");
   ("difficulty", VStr "Easy")].

(** What [parse_json_problem] makes of [json_no_category]. *)
Definition problem_of_json_no_category : dict :=
  [("id", VInt 1931); ("difficulty", VStr "Easy"); ("title", VStr "Two Sum");
   ("titleSlug", VStr ""); ("url", VStr ""); ("description", VStr "");
   ("metadata", VDict [("topics", VList []); ("category", VStr "General")])].

(** Three problems in the order 1931, 1262, 2000, and the same three in
    another order. *)
Definition sample_problem (n : Z) : dict :=
  [("id", VInt n); ("difficulty", VStr "Easy"); ("title", VStr "T");
   ("titleSlug", VStr ""); ("url", VStr ""); ("description", VStr "");
   ("metadata", VDict [("topics", VList []); ("category", VStr "General")])].

Definition three_problems : list dict :=
  map sample_problem [1931; 1262; 2000].

Definition three_problems_reordered : list dict :=
  map sample_problem [2000; 1931; 1262].

(** The summary of [sample_problem n]. *)
Definition sample_summary (n : Z) : dict :=
  [("id", VInt n); ("title", VStr "T"); ("difficulty", VStr "Easy");
   ("category", VStr "General"); ("topics", VList [])].

Definition five_problems : list dict :=
  map sample_problem [1262; 1931; 1932; 1933; 1934].

(** A store that refuses the third request and accepts every other one. *)
Definition third_write_fails : world :=
  {| remote := fun k => if Nat.eqb k 2 then Response 500 "error"
                        else Response 200 "";
     now := 1700000000;
     files := fun _ => None |}.

(** A world holding one file, whose store accepts every write. *)
Definition world_with (file_path : string) (f : file) : world :=
  {| remote := fun _ => Response 200 "";
     now := 1700000000;
     files := fun p => if String.eqb p file_path then Some f else None |}.



(** A tabular file whose only row has an identifier that the filter
    rejects. *)
Definition filtered_out_content : file :=
  {| csv_rows := Ok [[("frontendQuestionId", "1500"); ("title", "Old")]];
     json_doc := Raise JSONDecodeError |}.

(** A tabular file with the identifiers 1262, 1500 and 1931. *)
Definition three_rows_content : file :=
  {| csv_rows := Ok [[("frontendQuestionId", "1262"); ("title", "A")];
                     [("frontendQuestionId", "1500"); ("title", "B")];
                     [("frontendQuestionId", "1931"); ("title", "C")]];
     json_doc := Raise JSONDecodeError |}.

(** The world of [three_rows_content] under [problems.csv], with a store
    that refuses the second request. *)
Definition second_write_fails : world :=
  {| remote := fun k => if Nat.eqb k 1 then Response 500 "error"
                        else Response 200 "";
     now := 1700000000;
     files := fun p => if String.eqb p "problems.csv"
                       then Some three_rows_content else None |}.

Definition default_args (file_path : string) : args :=
  {| csv := file_path; batch_size := 50; skip_essentials := false |}.


Definition args_with_batch_size (file_path : string) (b : Z) : args :=
  {| csv := file_path; batch_size := b; skip_essentials := false |}.

(** A row with an eligible identifier, a solution in one language, an
    empty solution in another, and two columns outside the schema. *)
Definition row_with_extras : Row :=
  [("frontendQuestionId", "1931"); ("title", "Two Sum");
   ("likes", "many"); ("acceptance_rate", "45.5%");
   ("solution_code_python", "x = 1"); ("solution_code_java", "");
   ("company", " Acme "); ("notes", "   ")].

(** The same identifier with every other column different. *)
Definition row_same_identifier : Row :=
  [("frontendQuestionId", "1931"); ("title", "Other"); ("likes", "7");
   ("topics", "[x]")].

(** A wrangler configuration with a cache binding before the KV one. *)
Definition wrangler_config : value :=
  VDict [("name", VStr "app");
         ("kv_namespaces",
          VList [VDict [("binding", VStr "CACHE"); ("id", VStr "c1")];
                 VDict [("binding", VStr "KV"); ("id", VStr "old")]])].

(** The same configuration once the id [new] is set. *)
Definition wrangler_config_updated : value :=
  VDict [("name", VStr "app");
         ("kv_namespaces",
          VList [VDict [("binding", VStr "CACHE"); ("id", VStr "c1")];
                 VDict [("binding", VStr "KV"); ("id", VStr "new")]])].

(* ================================================================== *)
(** * Properties *)

(** ** Dictionaries *)

Lemma get_set {A : Type} (d : list (string * A)) (k k' : string) (v : A) :
  Dict.get (Dict.set d k v) k' =
  if String.eqb k' k then Some v else Dict.get d k'.
Proof.
  induction d as [|[k0 v0] d IH]; simpl.
  - reflexivity.
  - destruct (String.eqb k k0) eqn:E; simpl.
    + apply String.eqb_eq in E. subst k0.
      destruct (String.eqb k' k); reflexivity.
    + rewrite IH. destruct (String.eqb k' k0) eqn:E0; [|reflexivity].
      apply String.eqb_eq in E0. subst k0.
      rewrite String.eqb_sym, E. reflexivity.
Qed.

Lemma set_not_nil {A : Type} (d : list (string * A)) (k : string) (v : A) :
  Dict.set d k v <> [].
Proof.
  destruct d as [|[k0 v0] d]; simpl; [discriminate|].
  destruct (String.eqb k k0); discriminate.
Qed.

Lemma get_update {A : Type} (other d : list (string * A)) (k : string) :
  Dict.get other k = None -> Dict.get (Dict.update d other) k = Dict.get d k.
Proof.
  unfold Dict.update. revert d.
  induction other as [|[k0 v0] other IH]; intros d H; simpl in *.
  - reflexivity.
  - destruct (String.eqb k k0) eqn:E; [discriminate|].
    rewrite IH by assumption. rewrite get_set, E. reflexivity.
Qed.

(** ** Numbers read from text *)

Lemma py_int_raises (s : string) (e : exn) :
  PyNum.py_int s = Raise e -> e = ValueError.
Proof.
  unfold PyNum.py_int.
  destruct (PyNum.split_sign _) as [neg rest].
  destruct (PyNum.drop_underscores None rest) as [[|d ds]|];
    try (intros H; inversion H; reflexivity).
  destruct (forallb PyStr.isdigit (d :: ds)); intros H; inversion H; reflexivity.
Qed.

Lemma py_float_raises (s : string) (e : exn) :
  PyNum.py_float s = Raise e -> e = ValueError.
Proof.
  unfold PyNum.py_float.
  destruct (PyNum.drop_underscores None _) as [l|];
    [|intros H; inversion H; reflexivity].
  destruct (PyNum.split_sign l) as [neg rest].
  destruct (_ || _); [discriminate|].
  destruct (String.eqb _ "nan"); [discriminate|].
  unfold PyNum.parse_decimal.
  destruct (PyNum.span_digits rest) as [ip r1].
  destruct (match r1 with
            | "."%char :: t => PyNum.span_digits t
            | _ => ([], r1)
            end) as [fp r2].
  destruct (ip ++ fp)%list; [intros H; inversion H; reflexivity|].
  destruct (PyNum.parse_exponent r2); intros H; inversion H; reflexivity.
Qed.

Lemma except_ValueError_ok {A : Type} (c : exc A) (default : A) :
  (forall e, c = Raise e -> e = ValueError) ->
  exists a, except_ValueError c default = Ok a.
Proof.
  intros H. destruct c as [a|e]; simpl.
  - exists a. reflexivity.
  - rewrite (H e eq_refl). exists default. reflexivity.
Qed.

(** ** Filter policy *)

(** C2: for every integer id the filter answers true exactly when
    [id = 1262] or [id >= 1931], and false for every other id, among them
    1261 and 1930. *)
Theorem should_process_problem_policy :
  (forall id : Z,
      (should_process_problem id = true <-> id = 1262 \/ id >= 1931) /\
      (should_process_problem id = false <-> ~ (id = 1262 \/ id >= 1931))) /\
  should_process_problem 1261 = false /\
  should_process_problem 1930 = false.
Proof.
  split; [|split; reflexivity].
  intros id. unfold should_process_problem.
  destruct (Z.eqb_spec id 1262) as [E|E].
  - split; split; intros H; try reflexivity; try discriminate.
    + left. exact E.
    + exfalso. apply H. left. exact E.
  - destruct (Z.geb_spec id 1931) as [G|G].
    + split; split; intros H; try reflexivity; try discriminate.
      * right. lia.
      * exfalso. apply H. right. lia.
    + split; split; intros H; try reflexivity; try discriminate.
      * destruct H; lia.
      * intros [H1|H1]; lia.
Qed.

(** ** Normaliser for tabular rows *)

Lemma parse_acceptance_rate_ok (row : Row) :
  exists v, parse_acceptance_rate row = Ok v.
Proof.
  unfold parse_acceptance_rate.
  destruct (PyStr.nonempty _); [|eexists; reflexivity].
  apply except_ValueError_ok. intros e.
  destruct (PyNum.py_float _) as [x|e'] eqn:E; simpl; [discriminate|].
  intros H. inversion H. subst e'. eapply py_float_raises. exact E.
Qed.

Lemma parse_count_ok (row : Row) (column : string) :
  exists n, parse_count row column = Ok n.
Proof.
  unfold parse_count. apply except_ValueError_ok. intros e.
  destruct (PyStr.nonempty _); [|discriminate].
  apply py_int_raises.
Qed.

Lemma solution_codes_get_other (row : Row) (k : string) :
  existsb (String.eqb k) solution_code_keys = false ->
  Dict.get (solution_codes_of row) k = None.
Proof.
  unfold solution_code_keys. simpl. intros H.
  apply orb_false_elim in H. destruct H as [H1 H].
  apply orb_false_elim in H. destruct H as [H2 H].
  apply orb_false_elim in H. destruct H as [H3 _].
  unfold solution_codes_of. cbn [fold_left].
  change ("solution_code_" ++ "python") with "solution_code_python".
  change ("solution_code_" ++ "java") with "solution_code_java".
  change ("solution_code_" ++ "cpp") with "solution_code_cpp".
  destruct (Dict.get row "solution_code_python") as [c1|];
    [destruct (PyStr.nonempty c1)|];
    (destruct (Dict.get row "solution_code_java") as [c2|];
     [destruct (PyStr.nonempty c2)|]);
    (destruct (Dict.get row "solution_code_cpp") as [c3|];
     [destruct (PyStr.nonempty c3)|]);
    repeat rewrite get_set; rewrite ?H1, ?H2, ?H3; reflexivity.
Qed.

Lemma add_other_columns_not_nil (row : Row) (metadata : dict) :
  metadata <> [] -> add_other_columns row metadata <> [].
Proof.
  unfold add_other_columns. revert metadata.
  induction row as [|[key v] row IH]; intros metadata H; cbn [fold_left].
  - exact H.
  - apply IH.
    destruct (negb _); [|exact H].
    destruct (_ && _); [apply set_not_nil|exact H].
Qed.

Lemma add_other_columns_get (row : Row) (metadata : dict) (k : string) :
  existsb (String.eqb k) recognized_columns = true ->
  Dict.get (add_other_columns row metadata) k = Dict.get metadata k.
Proof.
  intros Hk. unfold add_other_columns. revert metadata.
  induction row as [|[key v] row IH]; intros metadata; cbn [fold_left].
  - reflexivity.
  - rewrite IH.
    destruct (existsb (String.eqb key) recognized_columns) eqn:E; cbn [negb].
    + reflexivity.
    + destruct (_ && _); [|reflexivity].
      rewrite get_set.
      destruct (String.eqb k key) eqn:Ek; [|reflexivity].
      apply String.eqb_eq in Ek. subst key. congruence.
Qed.

Lemma metadata_of_not_nil row topics hints similar ar likes dislikes :
  metadata_of row topics hints similar ar likes dislikes <> [].
Proof.
  unfold metadata_of. apply add_other_columns_not_nil.
  destruct (truthy _); [apply set_not_nil|discriminate].
Qed.

Lemma metadata_of_category row topics hints similar ar likes dislikes :
  Dict.get (metadata_of row topics hints similar ar likes dislikes) "category"
  = Some (VStr (PyStr.strip (row_get row "category" ""))).
Proof.
  unfold metadata_of. rewrite add_other_columns_get by reflexivity.
  destruct (truthy _); [rewrite get_set|]; reflexivity.
Qed.

(** The problem that the last lines of [parse_csv_row] assemble keeps the
    fields of the first dictionary literal and gains the metadata. *)
Lemma assembled_get (base solution_codes metadata : dict) (k : string) :
  metadata <> [] ->
  Dict.get solution_codes k = None ->
  Dict.get (if truthy (VDict metadata)
            then Dict.set
                   (if truthy (VDict solution_codes)
                    then Dict.update base solution_codes else base)
                   "metadata" (VDict metadata)
            else if truthy (VDict solution_codes)
                 then Dict.update base solution_codes else base) k
  = if String.eqb k "metadata" then Some (VDict metadata) else Dict.get base k.
Proof.
  intros Hm Hs.
  set (problem := if truthy (VDict solution_codes)
                  then Dict.update base solution_codes else base).
  assert (Hp : Dict.get problem k = Dict.get base k).
  { unfold problem. destruct (truthy _); [apply get_update; exact Hs|reflexivity]. }
  destruct metadata as [|kv metadata]; [contradiction|].
  cbn [truthy]. rewrite get_set, Hp. reflexivity.
Qed.

(** What [parse_csv_row] does with a row, by the identifier it holds. *)
Lemma parse_csv_row_body_cases (row : Row) :
  let text := PyStr.strip (row_get row "frontendQuestionId" "") in
  (PyStr.nonempty text = false /\ parse_csv_row_body row = Ok None) \/
  (PyStr.nonempty text = true /\ PyNum.py_int text = Raise ValueError /\
   parse_csv_row_body row = Raise ValueError) \/
  (PyStr.nonempty text = true /\
   exists n, PyNum.py_int text = Ok n /\ should_process_problem n = false /\
             parse_csv_row_body row = Ok None) \/
  (PyStr.nonempty text = true /\
   exists n p, PyNum.py_int text = Ok n /\ should_process_problem n = true /\
               parse_csv_row_body row = Ok (Some p) /\
               Dict.get p "id" = Some (VInt n) /\
               well_formed_problem p = true /\
               normalized p = true /\
               metadata_category p
               = Some (VStr (PyStr.strip (row_get row "category" "")))).
Proof.
  intros text. unfold parse_csv_row_body. fold text.
  destruct (PyStr.nonempty text) eqn:Ht; cbn [negb]; [|left; auto].
  right.
  destruct (PyNum.py_int text) as [n|e] eqn:Hn; cbn [bind].
  2: { left. pose proof (py_int_raises _ _ Hn). subst e. auto. }
  right.
  destruct (should_process_problem n) eqn:Hf; cbn [negb].
  2: { left. split; [reflexivity|]. exists n. auto. }
  right. split; [reflexivity|].
  destruct (parse_acceptance_rate_ok row) as [ar ->].
  destruct (parse_count_ok row "likes") as [likes ->].
  destruct (parse_count_ok row "dislikes") as [dislikes ->].
  cbn [bind]. cbv zeta.
  set (md := metadata_of _ _ _ _ _ _ _).
  assert (Hmd : md <> []) by apply metadata_of_not_nil.
  eexists n, _. split; [reflexivity|]. split; [exact Hf|].
  split; [reflexivity|].
  assert (G : forall k,
             existsb (String.eqb k) solution_code_keys = false ->
             Dict.get (solution_codes_of row) k = None)
    by (intros; apply solution_codes_get_other; assumption).
  repeat split.
  - rewrite assembled_get by (auto; apply G; reflexivity). reflexivity.
  - unfold well_formed_problem. cbn [forallb].
    repeat (rewrite assembled_get by (auto; apply G; reflexivity)).
    reflexivity.
  - unfold normalized.
    repeat (rewrite assembled_get by (auto; apply G; reflexivity)).
    reflexivity.
  - unfold metadata_category.
    rewrite assembled_get by (auto; apply G; reflexivity).
    cbn [String.eqb Ascii.eqb Bool.eqb].
    apply metadata_of_category.
Qed.

Lemma parse_csv_row_inv (row : Row) (p : dict) :
  fst (parse_csv_row row) = Ok (Some p) ->
  exists n,
    PyStr.nonempty (PyStr.strip (row_get row "frontendQuestionId" "")) = true /\
    PyNum.py_int (PyStr.strip (row_get row "frontendQuestionId" "")) = Ok n /\
    should_process_problem n = true /\
    Dict.get p "id" = Some (VInt n) /\
    well_formed_problem p = true /\
    normalized p = true /\
    metadata_category p = Some (VStr (PyStr.strip (row_get row "category" ""))).
Proof.
  unfold parse_csv_row. intros H.
  destruct (parse_csv_row_body_cases row)
    as [[_ E]|[[_ [_ E]]|[[_ [n [_ [_ E]]]]|[Ht [n [q [Hn [Hf [E R]]]]]]]]];
    rewrite E in H; simpl in H; try discriminate.
  inversion H. subst q. exists n. tauto.
Qed.

(** [parse_csv_row] accepts a row exactly when the stripped identifier is
    not empty, reads as an integer literal and passes the filter. *)
Lemma parse_csv_row_accepts_iff (row : Row) :
  (exists p, fst (parse_csv_row row) = Ok (Some p)) <->
  (PyStr.nonempty (PyStr.strip (row_get row "frontendQuestionId" "")) = true /\
   exists n,
     PyNum.py_int (PyStr.strip (row_get row "frontendQuestionId" "")) = Ok n /\
     should_process_problem n = true).
Proof.
  split.
  - intros [p H]. apply parse_csv_row_inv in H.
    destruct H as [n [H1 [H2 [H3 _]]]]. split; [exact H1|]. exists n. auto.
  - intros [Ht [n [Hn Hf]]]. unfold parse_csv_row.
    destruct (parse_csv_row_body_cases row)
      as [[T _]|[[_ [T _]]|[[_ [m [T [F _]]]]|[_ [m [q [_ [_ [E _]]]]]]]]].
    + congruence.
    + congruence.
    + rewrite Hn in T. inversion T. subst m. congruence.
    + exists q. rewrite E. reflexivity.
Qed.

(** C1: a row whose identifier is the text 1931.0 is dropped by
    [parse_csv_row], which reads the identifier with [int] alone and logs the
    [ValueError]; read as the sibling converter does, through [float] first,
    the same text is the identifier 1931, which passes the filter, and the
    row written with 1931 is accepted with that identifier. *)
Theorem parse_csv_row_float_like_identifier :
  parse_csv_row row_float_id = (Ok None, [(ERROR, ErrorParsingRow ValueError)]) /\
  ConvertForBulkUpload.question_id "1931.0" = Ok 1931 /\
  should_process_problem 1931 = true /\
  parse_csv_row row_int_id = (Ok (Some problem_of_row_int_id), []).
Proof.
  repeat split; vm_compute; reflexivity.
Qed.

(** C9: for every row, [parse_csv_row] returns and never raises: its result
    is either [None] or a problem holding an integer id and the five strings
    difficulty, title, titleSlug, url and description; an exception raised
    inside is turned into [None] by the handler. *)
Theorem parse_csv_row_total :
  forall row : Row,
    (exists r : option dict,
        fst (parse_csv_row row) = Ok r /\
        match r with
        | Some p => well_formed_problem p = true
        | None => True
        end) /\
    (forall e : exn,
        parse_csv_row_body row = Raise e ->
        parse_csv_row row = (Ok None, [(ERROR, ErrorParsingRow e)])).
Proof.
  intros row. split.
  - destruct (fst (parse_csv_row row)) as [[p|]|e] eqn:E.
    + exists (Some p). split; [reflexivity|].
      apply parse_csv_row_inv in E. destruct E as [n E]. tauto.
    + exists None. split; [reflexivity|exact I].
    + exfalso. unfold parse_csv_row in E.
      destruct (parse_csv_row_body row); discriminate.
  - intros e H. unfold parse_csv_row. rewrite H. reflexivity.
Qed.

(** ** Normaliser for structured problems *)

Lemma parse_json_problem_inv (json_data : value) (p : dict) :
  fst (parse_json_problem json_data) = Ok (Some p) ->
  exists d n,
    json_data = VDict d /\
    should_process_problem n = true /\
    Dict.get p "id" = Some (VInt n) /\
    normalized p = true /\
    metadata_category p
    = Some (match Dict.get d "category" with
            | Some c => c
            | None => VStr "General"
            end).
Proof.
  unfold parse_json_problem, parse_json_problem_body. intros H.
  destruct json_data as [| | | | |l|d]; try discriminate H.
  cbn [value_get bind] in H.
  destruct (truthy _); cbn [negb] in H; [|discriminate H].
  destruct (py_int_of_value _) as [n|e]; cbn [bind] in H; [|discriminate H].
  destruct (should_process_problem n) eqn:Hf; cbn [negb] in H; [|discriminate H].
  cbn [fst] in H. inversion H. subst p. clear H.
  exists d, n.
  split; [reflexivity|]. split; [exact Hf|]. split; [reflexivity|].
  split; reflexivity.
Qed.

(** C10: a structured problem without a category is stored with the
    category General, a tabular row whose category is missing or empty with
    the empty string: the two defaults differ. *)
Theorem default_category_differs :
  forall (d : dict) (row : Row) (pj pc : dict),
    Dict.get d "category" = None ->
    Dict.get row "category" = None \/ Dict.get row "category" = Some "" ->
    fst (parse_json_problem (VDict d)) = Ok (Some pj) ->
    fst (parse_csv_row row) = Ok (Some pc) ->
    metadata_category pj = Some (VStr "General") /\
    metadata_category pc = Some (VStr "") /\
    metadata_category pj <> metadata_category pc.
Proof.
  intros d row pj pc Hd Hr Hj Hc.
  apply parse_json_problem_inv in Hj.
  destruct Hj as [d' [n [E [_ [_ [_ Cj]]]]]]. inversion E. subst d'.
  rewrite Hd in Cj.
  apply parse_csv_row_inv in Hc.
  destruct Hc as [m [_ [_ [_ [_ [_ [_ Cc]]]]]]].
  assert (S : PyStr.strip (row_get row "category" "") = "").
  { unfold row_get. destruct Hr as [-> | ->]; reflexivity. }
  rewrite S in Cc. rewrite Cj, Cc.
  repeat split. discriminate.
Qed.

Lemma default_category_differs_witness :
  metadata_category problem_of_json_no_category = Some (VStr "General") /\
  metadata_category problem_of_row_int_id = Some (VStr "") /\
  metadata_category problem_of_json_no_category
  <> metadata_category problem_of_row_int_id.
Proof.
  apply (default_category_differs json_no_category row_int_id).
  - reflexivity.
  - left. reflexivity.
  - vm_compute. reflexivity.
  - vm_compute. reflexivity.
Defined.

(** ** Essentials builder *)

Lemma essential_of_normalized (p : dict) :
  normalized p = true ->
  essential_of p = Ok (summary_of p) /\
  Dict.get (summary_of p) "id" = Some (VInt (int_id p)).
Proof.
  unfold normalized, summary_of, essential_of, int_id, Dict.getitem.
  intros H.
  destruct (Dict.get p "id") as [[| | n | | | |]|]; try discriminate H.
  destruct (Dict.get p "title") as [t|]; try discriminate H.
  destruct (Dict.get p "difficulty") as [df|]; try discriminate H.
  destruct (Dict.get p "metadata") as [[| | | | | |m]|]; try discriminate H.
  cbn. split; reflexivity.
Qed.

Lemma map_exc_ok {A B : Type} (f : A -> exc B) (g : A -> B) (l : list A) :
  (forall a, In a l -> f a = Ok (g a)) -> map_exc f l = Ok (map g l).
Proof.
  induction l as [|a l IH]; intros H; simpl.
  - reflexivity.
  - rewrite (H a) by (left; reflexivity). simpl.
    rewrite IH by (intros; apply H; right; assumption). reflexivity.
Qed.

Lemma forallb_In {A : Type} (f : A -> bool) (l : list A) (a : A) :
  forallb f l = true -> In a l -> f a = true.
Proof.
  intros H Ha. rewrite forallb_forall in H. apply H. exact Ha.
Qed.

(** *** The stable sort *)

Section SortByKey.

Context {A : Type}.

Let le_key (x y : Z * A) : Prop := fst x <= fst y.
Let lt_key (x y : Z * A) : Prop := fst x < fst y.

Lemma insert_by_key_perm (x : Z * A) (l : list (Z * A)) :
  Permutation (insert_by_key x l) (x :: l).
Proof.
  induction l as [|y l IH]; simpl.
  - apply Permutation_refl.
  - destruct (fst x <=? fst y).
    + apply Permutation_refl.
    + eapply Permutation_trans; [apply perm_skip; exact IH|apply perm_swap].
Qed.

Lemma sort_by_key_perm (l : list (Z * A)) : Permutation (sort_by_key l) l.
Proof.
  induction l as [|x l IH]; simpl.
  - apply Permutation_refl.
  - eapply Permutation_trans; [apply insert_by_key_perm|].
    apply perm_skip. exact IH.
Qed.

Lemma insert_by_key_sorted (x : Z * A) (l : list (Z * A)) :
  StronglySorted le_key l -> StronglySorted le_key (insert_by_key x l).
Proof.
  induction l as [|y l IH]; intros H; simpl.
  - constructor; constructor.
  - inversion H as [|y' l' Hs Hf]; subst.
    destruct (Z.leb_spec (fst x) (fst y)) as [L|L].
    + constructor; [exact H|].
      constructor; [exact L|].
      eapply Forall_impl; [|exact Hf].
      intros z Hz. unfold le_key in *. lia.
    + constructor; [apply IH; exact Hs|].
      eapply Permutation_Forall;
        [apply Permutation_sym; apply insert_by_key_perm|].
      constructor; [unfold le_key; lia|exact Hf].
Qed.

Lemma sort_by_key_sorted (l : list (Z * A)) :
  StronglySorted le_key (sort_by_key l).
Proof.
  induction l as [|x l IH]; simpl.
  - constructor.
  - apply insert_by_key_sorted. exact IH.
Qed.

Lemma sorted_strict (l : list (Z * A)) :
  StronglySorted le_key l -> NoDup (map fst l) -> StronglySorted lt_key l.
Proof.
  induction 1 as [|x l Hs IH Hf]; intros Hn; simpl in Hn.
  - constructor.
  - inversion Hn as [|k ks Hx Hn']; subst.
    constructor; [apply IH; exact Hn'|].
    rewrite Forall_forall in *. intros y Hy.
    specialize (Hf y Hy). unfold le_key, lt_key in *.
    assert (fst x <> fst y).
    { intros E. apply Hx. rewrite E. apply in_map. exact Hy. }
    lia.
Qed.

(** Two strictly ascending lists with the same elements are equal. *)
Lemma strict_sorted_perm_eq (l1 l2 : list (Z * A)) :
  StronglySorted lt_key l1 -> StronglySorted lt_key l2 ->
  Permutation l1 l2 -> l1 = l2.
Proof.
  revert l2. induction l1 as [|x t1 IH]; intros l2 H1 H2 P.
  - apply Permutation_nil in P. congruence.
  - destruct l2 as [|y t2].
    + apply Permutation_sym, Permutation_nil in P. discriminate.
    + inversion H1 as [|? ? S1 F1]; subst.
      inversion H2 as [|? ? S2 F2]; subst.
      rewrite Forall_forall in F1, F2.
      assert (E : x = y).
      { assert (Hx : In x (y :: t2))
          by (eapply Permutation_in; [exact P|left; reflexivity]).
        assert (Hy : In y (x :: t1))
          by (eapply Permutation_in;
              [apply Permutation_sym; exact P|left; reflexivity]).
        destruct Hx as [Hx|Hx]; [congruence|].
        destruct Hy as [Hy|Hy]; [congruence|].
        specialize (F1 y Hy). specialize (F2 x Hx).
        unfold lt_key in *. lia. }
      subst y. f_equal. apply IH; try assumption.
      eapply Permutation_cons_inv. exact P.
Qed.

Lemma sort_by_key_unique (l1 l2 : list (Z * A)) :
  NoDup (map fst l1) -> Permutation l1 l2 ->
  sort_by_key l1 = sort_by_key l2.
Proof.
  intros Hn P.
  assert (P1 := sort_by_key_perm l1). assert (P2 := sort_by_key_perm l2).
  apply strict_sorted_perm_eq.
  - apply sorted_strict; [apply sort_by_key_sorted|].
    eapply Permutation_NoDup; [|exact Hn].
    apply Permutation_map, Permutation_sym. exact P1.
  - apply sorted_strict; [apply sort_by_key_sorted|].
    eapply Permutation_NoDup; [|exact Hn].
    apply Permutation_map.
    eapply Permutation_trans; [exact P|apply Permutation_sym; exact P2].
  - eapply Permutation_trans; [exact P1|].
    eapply Permutation_trans; [exact P|apply Permutation_sym; exact P2].
Qed.

End SortByKey.

Lemma sort_key_summary (e : dict) (n : Z) :
  Dict.get e "id" = Some (VInt n) -> sort_key e = Ok (int_id e, e).
Proof.
  intros H. unfold sort_key, Dict.getitem, int_id. rewrite H. reflexivity.
Qed.

Lemma int_id_summary_of (p : dict) :
  normalized p = true -> int_id (summary_of p) = int_id p.
Proof.
  intros H. destruct (essential_of_normalized p H) as [_ E].
  unfold int_id at 1. rewrite E. reflexivity.
Qed.

Lemma create_essentials_entry_normalized (problems : list dict) :
  forallb normalized problems = true ->
  create_essentials_entry problems =
  let essentials :=
    map snd (sort_by_key (map keyed (map summary_of problems))) in
  Ok [("problems", VList (map VDict essentials));
      ("count", VInt (Z.of_nat (List.length essentials)));
      ("last_updated", VNone)].
Proof.
  intros H. unfold create_essentials_entry.
  rewrite (map_exc_ok essential_of summary_of).
  2: { intros p Hp. apply essential_of_normalized.
       eapply forallb_In; eassumption. }
  cbn [bind].
  rewrite (map_exc_ok sort_key keyed).
  2: { intros e He. apply in_map_iff in He. destruct He as [p [<- Hp]].
       assert (Hn : normalized p = true) by (eapply forallb_In; eassumption).
       destruct (essential_of_normalized p Hn) as [_ E].
       eapply sort_key_summary. exact E. }
  reflexivity.
Qed.

Lemma ascending_of_keyed (l : list (Z * dict)) :
  StronglySorted (fun x y => fst x < fst y) l ->
  Forall (fun x => fst x = int_id (snd x)) l ->
  ascending_ids (map snd l).
Proof.
  unfold ascending_ids.
  induction 1 as [|x l Hs IH Hf]; intros Hk; simpl.
  - constructor.
  - inversion Hk as [|? ? Kx Kl]; subst.
    constructor; [apply IH; exact Kl|].
    rewrite Forall_forall in *. intros e He.
    apply in_map_iff in He. destruct He as [y [<- Hy]].
    rewrite <- Kx, <- (Kl y Hy). apply Hf. exact Hy.
Qed.

Lemma insert_by_key_map {A B : Type} (f : A -> B) (x : Z * A) (l : list (Z * A)) :
  insert_by_key (fst x, f (snd x)) (map (fun y => (fst y, f (snd y))) l)
  = map (fun y => (fst y, f (snd y))) (insert_by_key x l).
Proof.
  induction l as [|y l IH]; cbn [map insert_by_key fst].
  - reflexivity.
  - destruct (fst x <=? fst y); cbn [map]; [reflexivity|].
    rewrite IH. reflexivity.
Qed.

(** Sorting by key and changing what the keys carry commute. *)
Lemma sort_by_key_map {A B : Type} (f : A -> B) (l : list (Z * A)) :
  sort_by_key (map (fun y => (fst y, f (snd y))) l)
  = map (fun y => (fst y, f (snd y))) (sort_by_key l).
Proof.
  unfold sort_by_key. induction l as [|x l IH]; cbn [map fold_right].
  - reflexivity.
  - rewrite IH. apply insert_by_key_map.
Qed.

Lemma StronglySorted_map_id (f : dict -> dict) (l : list dict) :
  (forall p q, int_id p < int_id q -> int_id (f p) < int_id (f q)) ->
  StronglySorted (fun p q => int_id p < int_id q) l ->
  StronglySorted (fun p q => int_id p < int_id q) (map f l).
Proof.
  intros Hf. induction 1 as [|x l Hs IH Hx]; cbn [map].
  - constructor.
  - constructor; [exact IH|].
    rewrite Forall_forall in *. intros y Hy.
    apply in_map_iff in Hy. destruct Hy as [q [<- Hq]].
    apply Hf, Hx. exact Hq.
Qed.

(** What the loop of the builder makes of a normalized problem is its
    five-field summary. *)
Lemma summary_of_normalized (p : dict) :
  normalized p = true -> summary_of p = five_field_summary p.
Proof.
  unfold normalized, summary_of, five_field_summary, essential_of, Dict.getitem.
  intros H.
  destruct (Dict.get p "id") as [[| | n | | | |]|]; try discriminate H.
  destruct (Dict.get p "title") as [t|]; try discriminate H.
  destruct (Dict.get p "difficulty") as [df|]; try discriminate H.
  destruct (Dict.get p "metadata") as [[| | | | | |m]|]; try discriminate H.
  cbn [bind value_get].
  destruct (Dict.get m "category"), (Dict.get m "topics"); reflexivity.
Qed.

Lemma int_id_five_field_summary (p : dict) :
  int_id (five_field_summary p) = int_id p.
Proof.
  unfold five_field_summary, int_id. cbn [Dict.get String.eqb Ascii.eqb Bool.eqb].
  destruct (Dict.get p "id") as [[| | n | | | |]|]; reflexivity.
Qed.

(** The index of normalized problems: their five-field summaries, in the
    order in which the stable sort by id leaves the problems. *)
Lemma create_essentials_entry_sorted (problems : list dict) :
  forallb normalized problems = true ->
  create_essentials_entry problems
  = Ok [("problems",
         VList (map VDict
                  (map five_field_summary
                     (map snd (sort_by_key
                                 (map (fun p => (int_id p, p)) problems))))));
        ("count", VInt (Z.of_nat (List.length problems)));
        ("last_updated", VNone)].
Proof.
  intros Hn. rewrite (create_essentials_entry_normalized problems Hn). cbv zeta.
  set (kp := map (fun p => (int_id p, p)) problems).
  assert (E : map keyed (map summary_of problems)
              = map (fun y => (fst y, five_field_summary (snd y))) kp).
  { unfold kp. rewrite !map_map. apply map_ext_in. intros p Hp.
    assert (Hp' : normalized p = true)
      by (apply (forallb_In normalized problems); assumption).
    unfold keyed. cbn [fst snd].
    rewrite (int_id_summary_of p Hp'), (summary_of_normalized p Hp').
    reflexivity. }
  rewrite E, sort_by_key_map.
  assert (M : map snd (map (fun y : Z * dict => (fst y, five_field_summary (snd y)))
                         (sort_by_key kp))
              = map five_field_summary (map snd (sort_by_key kp)))
    by (rewrite !map_map; reflexivity).
  rewrite M, !length_map, (Permutation_length (sort_by_key_perm kp)).
  unfold kp. rewrite length_map. reflexivity.
Qed.

(** C6: for problems with distinct identifiers, [create_essentials_entry]
    returns the same index for every reordering of its input.  Its problems
    are the five-field summaries of the problems, one per problem, each
    holding the id, the title and the difficulty of its problem and the
    category and the topics of its metadata, in ascending order of id; its
    count is their number. *)
Theorem create_essentials_entry_order_independent :
  forall problems reordered : list dict,
    forallb normalized problems = true ->
    NoDup (map int_id problems) ->
    Permutation problems reordered ->
    exists sorted : list dict,
      Permutation sorted problems /\
      StronglySorted (fun p q => int_id p < int_id q) sorted /\
      create_essentials_entry problems
      = Ok [("problems", VList (map VDict (map five_field_summary sorted)));
            ("count", VInt (Z.of_nat (List.length problems)));
            ("last_updated", VNone)] /\
      create_essentials_entry reordered = create_essentials_entry problems /\
      ascending_ids (map five_field_summary sorted).
Proof.
  intros problems reordered Hn Hd P.
  set (kp := map (fun p => (int_id p, p)) problems).
  assert (Hfst : map fst kp = map int_id problems)
    by (unfold kp; rewrite map_map; reflexivity).
  assert (Hsnd : map snd kp = problems)
    by (unfold kp; rewrite map_map; apply map_id).
  assert (Hsorted : StronglySorted (fun p q => int_id p < int_id q)
                      (map snd (sort_by_key kp))).
  { apply (ascending_of_keyed (sort_by_key kp)).
    - apply sorted_strict; [apply sort_by_key_sorted|].
      eapply Permutation_NoDup;
        [apply Permutation_map, Permutation_sym, sort_by_key_perm|].
      rewrite Hfst. exact Hd.
    - eapply Permutation_Forall; [apply Permutation_sym, sort_by_key_perm|].
      unfold kp. apply Forall_forall. intros x Hx.
      apply in_map_iff in Hx. destruct Hx as [q [<- _]]. reflexivity. }
  exists (map snd (sort_by_key kp)).
  split.
  { eapply Permutation_trans; [apply Permutation_map, sort_by_key_perm|].
    rewrite Hsnd. apply Permutation_refl. }
  split; [exact Hsorted|].
  split; [apply create_essentials_entry_sorted; exact Hn|].
  split.
  - assert (Hn' : forallb normalized reordered = true).
    { apply forallb_forall. intros p Hp.
      apply (forallb_In normalized problems); [exact Hn|].
      eapply Permutation_in; [apply Permutation_sym; exact P|exact Hp]. }
    rewrite (create_essentials_entry_sorted problems Hn),
      (create_essentials_entry_sorted reordered Hn').
    fold kp.
    rewrite (sort_by_key_unique kp (map (fun p => (int_id p, p)) reordered)).
    + rewrite (Permutation_length P). reflexivity.
    + rewrite Hfst. exact Hd.
    + unfold kp. apply Permutation_map. exact P.
  - unfold ascending_ids.
    apply (StronglySorted_map_id five_field_summary); [|exact Hsorted].
    intros p q H. rewrite !int_id_five_field_summary. exact H.
Qed.

Lemma create_essentials_entry_order_independent_witness :
  create_essentials_entry three_problems
  = Ok [("problems", VList (map VDict (map sample_summary [1262; 1931; 2000])));
        ("count", VInt 3);
        ("last_updated", VNone)] /\
  map five_field_summary (map sample_problem [1262; 1931; 2000])
  = map sample_summary [1262; 1931; 2000] /\
  exists sorted : list dict,
    Permutation sorted three_problems /\
    StronglySorted (fun p q => int_id p < int_id q) sorted /\
    create_essentials_entry three_problems
    = Ok [("problems", VList (map VDict (map five_field_summary sorted)));
          ("count", VInt (Z.of_nat (List.length three_problems)));
          ("last_updated", VNone)] /\
    create_essentials_entry three_problems_reordered
    = create_essentials_entry three_problems /\
    ascending_ids (map five_field_summary sorted).
Proof.
  split; [vm_compute; reflexivity|].
  split; [vm_compute; reflexivity|].
  apply (create_essentials_entry_order_independent
           three_problems three_problems_reordered).
  - reflexivity.
  - cbn. repeat constructor; cbn; intuition discriminate.
  - unfold three_problems, three_problems_reordered. apply Permutation_map.
    apply (Permutation_app_comm [1931; 1262] [2000]).
Defined.

(** ** The uploader *)

Lemma put_spec (w : world) (key : string) (body : value) (s : state) :
  exists s',
    put w key body s = (Ok (write_ok (remote w (requests s))), s') /\
    requests s' = S (requests s) /\
    writes s' = (writes s ++ [(key, body)])%list.
Proof.
  unfold put, try_exceptM, bindM, requests_put, write_ok.
  destruct (remote w (requests s)) as [status_code text|e]; cbv beta iota zeta.
  - destruct (status_ok status_code); cbn; eexists; repeat split.
  - cbn. eexists; repeat split.
Qed.

Lemma put_bulk_entry_spec (w : world) (entry : string * value)
  (res : results) (s : state) :
  exists res' s',
    put_bulk_entry w entry res s = (Ok res', s') /\
    success res' = (success res
                    + if write_ok (remote w (requests s)) then 1 else 0)%nat /\
    failed res' = (failed res
                   + if write_ok (remote w (requests s)) then 0 else 1)%nat /\
    requests s' = S (requests s) /\
    writes s' = (writes s ++ [entry])%list.
Proof.
  destruct entry as [key body].
  unfold put_bulk_entry, try_exceptM, bindM, requests_put, write_ok.
  destruct (remote w (requests s)) as [status_code text|e]; cbv beta iota zeta.
  - destruct (status_ok status_code); cbn; eexists; eexists;
      repeat split; cbn; lia.
  - cbn. eexists; eexists; repeat split; cbn; lia.
Qed.

Lemma count_ok_S (w : world) (first n : nat) :
  count_ok w first (S n)
  = ((if write_ok (remote w first) then 1 else 0) + count_ok w (S first) n)%nat.
Proof.
  unfold count_ok. cbn [seq map filter].
  destruct (write_ok (remote w first)); reflexivity.
Qed.

Lemma count_ok_le (w : world) (first n : nat) : (count_ok w first n <= n)%nat.
Proof.
  revert first. induction n as [|n IH]; intros first.
  - apply Nat.le_refl.
  - rewrite count_ok_S. specialize (IH (S first)).
    destruct (write_ok _); lia.
Qed.

Lemma count_ok_add (w : world) (first a b : nat) :
  count_ok w first (a + b)
  = (count_ok w first a + count_ok w (first + a) b)%nat.
Proof.
  revert first. induction a as [|a IH]; intros first.
  - rewrite Nat.add_0_r. reflexivity.
  - cbn [Nat.add]. rewrite !count_ok_S, IH.
    replace (S first + a)%nat with (first + S a)%nat by lia. lia.
Qed.

Lemma put_bulk_loop_spec (w : world) (entries : list (string * value)) :
  forall (res : results) (s : state),
  exists res' s',
    put_bulk_loop w entries res s = ((res', None), s') /\
    success res'
    = (success res + count_ok w (requests s) (List.length entries))%nat /\
    failed res'
    = (failed res + (List.length entries
                     - count_ok w (requests s) (List.length entries)))%nat /\
    requests s' = (requests s + List.length entries)%nat /\
    writes s' = (writes s ++ entries)%list.
Proof.
  induction entries as [|entry rest IH]; intros res s.
  - exists res, s. cbn. repeat split; try lia.
    rewrite app_nil_r. reflexivity.
  - cbn [put_bulk_loop].
    destruct (put_bulk_entry_spec w entry res s)
      as [res1 [s1 [E [Hs [Hf [Hr Hw]]]]]].
    rewrite E.
    destruct (IH res1 s1) as [res2 [s2 [E2 [Hs2 [Hf2 [Hr2 Hw2]]]]]].
    exists res2, s2. rewrite E2. split; [reflexivity|].
    cbn [List.length]. rewrite count_ok_S.
    rewrite Hr in *.
    pose proof (count_ok_le w (S (requests s)) (List.length rest)) as Hle.
    repeat split.
    + rewrite Hs2, Hs. lia.
    + rewrite Hf2, Hf. destruct (write_ok _); lia.
    + lia.
    + rewrite Hw2, Hw, <- app_assoc. reflexivity.
Qed.

(** [put_bulk] attempts every entry once, in order, and counts each
    outcome; its outer handler never runs. *)
Lemma put_bulk_spec (w : world) (entries : list (string * value)) (s : state) :
  exists res s',
    put_bulk w entries s = (Ok res, s') /\
    success res = count_ok w (requests s) (List.length entries) /\
    failed res
    = (List.length entries - count_ok w (requests s) (List.length entries))%nat /\
    requests s' = (requests s + List.length entries)%nat /\
    writes s' = (writes s ++ entries)%list.
Proof.
  unfold put_bulk.
  destruct (put_bulk_loop_spec w entries {| success := 0; failed := 0 |}
              (called_put_bulk entries s))
    as [res [s' [E [Hs [Hf [Hr Hw]]]]]].
  rewrite E. exists res, s'. cbn in Hs, Hf. auto.
Qed.

(** ** Batches *)

Lemma firstn_add {A : Type} (a b : nat) (l : list A) :
  firstn (a + b) l = (firstn a l ++ firstn b (skipn a l))%list.
Proof.
  revert l. induction a as [|a IH]; intros l.
  - reflexivity.
  - destruct l as [|x l]; cbn.
    + rewrite firstn_nil. reflexivity.
    + rewrite IH. reflexivity.
Qed.

Lemma In_batch_at (problems : list dict) (i : nat) (b : Z) (p : dict) :
  In p (batch_at problems i b) -> In p problems.
Proof.
  unfold batch_at. intros H.
  rewrite <- (firstn_skipn i problems). apply in_or_app. right.
  rewrite <- (firstn_skipn (Z.to_nat b) (skipn i problems)).
  apply in_or_app. left. exact H.
Qed.

(** The batches taken at the multiples of [b] below [k * b] make up the
    first [k * b] problems. *)
Lemma concat_batches (problems : list dict) (b : Z) (k : nat) :
  List.concat (map (fun i => batch_at problems i b)
              (map (fun j => (j * Z.to_nat b)%nat) (seq 0 k)))
  = firstn (k * Z.to_nat b) problems.
Proof.
  induction k as [|k IH].
  - reflexivity.
  - rewrite seq_S, !map_app, concat_app, IH. cbn [map List.concat Nat.add].
    rewrite app_nil_r. unfold batch_at.
    rewrite <- firstn_add. f_equal. lia.
Qed.

Lemma batch_count_bounds (n b : nat) :
  (0 < b)%nat ->
  ((n + b - 1) / b * b >= n)%nat /\
  (forall j, j < (n + b - 1) / b -> j * b < n)%nat.
Proof.
  intros Hb.
  pose proof (Nat.div_mod_eq (n + b - 1) b) as E.
  pose proof (Nat.mod_upper_bound (n + b - 1) b ltac:(lia)) as U.
  set (q := ((n + b - 1) / b)%nat) in *.
  set (r := ((n + b - 1) mod b)%nat) in *.
  split.
  - nia.
  - intros j Hj. nia.
Qed.

Lemma py_range_positive (n : nat) (b : Z) :
  0 < b ->
  py_range n b
  = Ok (map (fun j => (j * Z.to_nat b)%nat)
            (seq 0 ((n + Z.to_nat b - 1) / Z.to_nat b))).
Proof.
  intros Hb. unfold py_range.
  destruct (Z.eqb_spec b 0); [lia|].
  destruct (Z.ltb_spec b 0); [lia|]. reflexivity.
Qed.

Lemma problem_entry_normalized (p : dict) :
  normalized p = true -> problem_entry p = Ok (problem_entry_of p).
Proof.
  unfold normalized, problem_entry, problem_key, problem_entry_of, int_id,
    Dict.getitem.
  destruct (Dict.get p "id") as [[| | n | | | |]|]; try discriminate.
  reflexivity.
Qed.

Lemma upload_batches_spec (w : world) (problems : list dict) (b : Z) :
  forallb normalized problems = true ->
  forall (starts : list nat) (success_count failed_count : nat) (s : state),
  exists (success_count' failed_count' : nat) (s' : state),
    upload_batches w problems b starts success_count failed_count s
    = (Ok (success_count', failed_count'), s') /\
    let sent := List.concat (map (fun i => batch_at problems i b) starts) in
    success_count'
    = (success_count + count_ok w (requests s) (List.length sent))%nat /\
    failed_count'
    = (failed_count
       + (List.length sent - count_ok w (requests s) (List.length sent)))%nat /\
    requests s' = (requests s + List.length sent)%nat /\
    writes s' = (writes s ++ map problem_entry_of sent)%list.
Proof.
  intros Hn. induction starts as [|i rest IH]; intros sc fc s.
  - exists sc, fc, s. cbn. repeat split; try lia.
    rewrite app_nil_r. reflexivity.
  - cbn [upload_batches]. unfold bindM at 1, lift.
    rewrite (map_exc_ok problem_entry problem_entry_of).
    2: { intros p Hp. apply problem_entry_normalized.
         apply (forallb_In normalized problems); [exact Hn|].
         eapply In_batch_at. exact Hp. }
    unfold bindM at 1.
    destruct (put_bulk_spec w (map problem_entry_of (batch_at problems i b)) s)
      as [res [s1 [E [Hs [Hf [Hr Hw]]]]]].
    rewrite E. rewrite length_map in *.
    destruct (IH (sc + success res)%nat (fc + failed res)%nat s1)
      as [sc2 [fc2 [s2 [E2 [Hs2 [Hf2 [Hr2 Hw2]]]]]]].
    exists sc2, fc2, s2. split; [exact E2|].
    cbn [map List.concat]. cbv zeta.
    rewrite length_app, count_ok_add, map_app.
    set (m := List.length (batch_at problems i b)) in *.
    set (rest_sent := List.concat (map (fun i => batch_at problems i b) rest)) in *.
    rewrite Hr in *.
    pose proof (count_ok_le w (requests s) m).
    pose proof (count_ok_le w (requests s + m) (List.length rest_sent)).
    repeat split.
    + rewrite Hs2, Hs. lia.
    + rewrite Hf2, Hf. lia.
    + lia.
    + rewrite Hw2, Hw, <- app_assoc. reflexivity.
Qed.

Lemma upload_problems_spec (w : world) (problems : list dict) (b : Z) (s : state) :
  0 < b ->
  forallb normalized problems = true ->
  exists (starts : list nat) (success_count failed_count : nat) (s' : state),
    py_range (List.length problems) b = Ok starts /\
    starts = map (fun j => (j * Z.to_nat b)%nat) (seq 0 (List.length starts)) /\
    (Z.of_nat (List.length starts) - 1) * b < Z.of_nat (List.length problems)
      <= Z.of_nat (List.length starts) * b /\
    List.concat (map (fun i => batch_at problems i b) starts) = problems /\
    Forall (fun i =>
              (1 <= List.length (batch_at problems i b))%nat /\
              Z.of_nat (List.length (batch_at problems i b)) <= b) starts /\
    upload_problems w problems b s = (Ok (success_count, failed_count), s') /\
    writes s' = (writes s ++ map problem_entry_of problems)%list /\
    requests s' = (requests s + List.length problems)%nat /\
    success_count = count_ok w (requests s) (List.length problems) /\
    (success_count + failed_count)%nat = List.length problems.
Proof.
  intros Hb Hn.
  set (n := List.length problems). set (bn := Z.to_nat b).
  assert (Hbn : (0 < bn)%nat) by (unfold bn; lia).
  set (k := ((n + bn - 1) / bn)%nat).
  destruct (batch_count_bounds n bn Hbn) as [Hge Hlt]. fold k in Hge, Hlt.
  set (starts := map (fun j => (j * bn)%nat) (seq 0 k)).
  assert (Hlen : List.length starts = k)
    by (unfold starts; rewrite length_map, length_seq; reflexivity).
  assert (Hcat : List.concat (map (fun i => batch_at problems i b) starts)
                 = problems).
  { unfold starts, bn. rewrite concat_batches. apply firstn_all2. fold bn n. lia. }
  destruct (upload_batches_spec w problems b Hn starts 0%nat 0%nat
              {| log := (log s ++ [(INFO, UploadingProblems)])%list;
                 requests := requests s; writes := writes s;
                 bulk_calls := bulk_calls s |})
    as [sc [fc [s' [E [Hs [Hf [Hr Hw]]]]]]].
  rewrite Hcat in *. cbn [requests writes] in *. fold n in Hs, Hf, Hr.
  exists starts, sc, fc, s'.
  split; [apply py_range_positive; exact Hb|].
  split; [rewrite Hlen; reflexivity|].
  rewrite Hlen.
  split.
  { split.
    - destruct k as [|k']; [lia|].
      specialize (Hlt k' ltac:(lia)). unfold bn in Hlt. nia.
    - unfold bn in Hge. nia. }
  split; [exact Hcat|].
  split.
  { apply Forall_forall. intros i Hi. unfold starts in Hi.
    apply in_map_iff in Hi. destruct Hi as [j [<- Hj]].
    apply in_seq in Hj. specialize (Hlt j ltac:(lia)).
    unfold batch_at. rewrite length_firstn, length_skipn. fold n bn. lia. }
  split.
  { unfold upload_problems, bindM, logging, lift.
    rewrite py_range_positive by exact Hb. fold n bn k starts. exact E. }
  pose proof (count_ok_le w (requests s) n).
  repeat split; try assumption; lia.
Qed.

(** *** The calls of [put_bulk] *)

Lemma put_bulk_entry_calls (w : world) (entry : string * value)
  (res : results) (s : state) :
  bulk_calls (snd (put_bulk_entry w entry res s)) = bulk_calls s.
Proof.
  destruct entry as [key body].
  unfold put_bulk_entry, try_exceptM, bindM, requests_put.
  destruct (remote w (requests s)) as [status_code text|e]; cbv beta iota zeta.
  - destruct (status_ok status_code); reflexivity.
  - reflexivity.
Qed.

Lemma put_bulk_loop_calls (w : world) (entries : list (string * value)) :
  forall (res : results) (s : state),
    bulk_calls (snd (put_bulk_loop w entries res s)) = bulk_calls s.
Proof.
  induction entries as [|entry rest IH]; intros res s.
  - reflexivity.
  - cbn [put_bulk_loop].
    pose proof (put_bulk_entry_calls w entry res s) as H.
    destruct (put_bulk_entry w entry res s) as [[res'|e] s1]; cbn [snd] in H.
    + rewrite IH. exact H.
    + exact H.
Qed.

(** A call of [put_bulk] is recorded once, with its entries. *)
Lemma put_bulk_calls (w : world) (entries : list (string * value)) (s : state) :
  bulk_calls (snd (put_bulk w entries s)) = (bulk_calls s ++ [entries])%list.
Proof.
  unfold put_bulk.
  pose proof (put_bulk_loop_calls w entries {| success := 0; failed := 0 |}
                (called_put_bulk entries s)) as H.
  destruct (put_bulk_loop w entries {| success := 0; failed := 0 |}
              (called_put_bulk entries s)) as [[res [e|]] s'];
    cbn [snd] in H; cbn; exact H.
Qed.

(** The loop over the batches calls [put_bulk] once per start, with the
    entries of the batch taken there. *)
Lemma upload_batches_calls (w : world) (problems : list dict) (b : Z) :
  forallb normalized problems = true ->
  forall (starts : list nat) (success_count failed_count : nat) (s : state),
    bulk_calls (snd (upload_batches w problems b starts success_count
                       failed_count s))
    = (bulk_calls s
       ++ map (fun i => map problem_entry_of (batch_at problems i b)) starts)%list.
Proof.
  intros Hn. induction starts as [|i rest IH]; intros sc fc s.
  - cbn. rewrite app_nil_r. reflexivity.
  - cbn [upload_batches]. unfold bindM at 1, lift.
    rewrite (map_exc_ok problem_entry problem_entry_of).
    2: { intros p Hp. apply problem_entry_normalized.
         apply (forallb_In normalized problems); [exact Hn|].
         eapply In_batch_at. exact Hp. }
    unfold bindM at 1.
    pose proof (put_bulk_calls w (map problem_entry_of (batch_at problems i b)) s)
      as Hc.
    destruct (put_bulk_spec w (map problem_entry_of (batch_at problems i b)) s)
      as [res [s1 [E _]]].
    rewrite E in Hc. cbn [snd] in Hc. rewrite E.
    rewrite IH, Hc. cbn [map]. rewrite <- app_assoc. reflexivity.
Qed.

Lemma upload_problems_calls (w : world) (problems : list dict) (b : Z)
  (starts : list nat) (s : state) :
  forallb normalized problems = true ->
  py_range (List.length problems) b = Ok starts ->
  bulk_calls (snd (upload_problems w problems b s))
  = (bulk_calls s
     ++ map (fun i => map problem_entry_of (batch_at problems i b)) starts)%list.
Proof.
  intros Hn Hr. unfold upload_problems.
  unfold bindM at 1. cbn [logging]. unfold bindM at 1, lift. rewrite Hr.
  rewrite (upload_batches_calls w problems b Hn). reflexivity.
Qed.

(** C3: for a positive batch size the upload phase cuts the problems into
    contiguous batches in the original order, as many as the quotient of
    their number by the batch size rounded up, each of one to [batch_size]
    problems, and hands each batch to one call of [put_bulk], in that order
    and in no other call; it attempts one write per problem, in order,
    counts every outcome, and the two counts add up to the number of
    problems.  Five problems in batches of two make three calls with 2, 2
    and 1 problems, and one failed write among the five gives the counts 4
    and 1. *)
Theorem upload_problems_batches :
  (forall (w : world) (problems : list dict) (batch_size : Z) (s : state),
      0 < batch_size ->
      forallb normalized problems = true ->
      exists (starts : list nat) (success_count failed_count : nat) (s' : state),
        py_range (List.length problems) batch_size = Ok starts /\
        starts = map (fun j => (j * Z.to_nat batch_size)%nat)
                     (seq 0 (List.length starts)) /\
        (Z.of_nat (List.length starts) - 1) * batch_size
          < Z.of_nat (List.length problems)
          <= Z.of_nat (List.length starts) * batch_size /\
        List.concat (map (fun i => batch_at problems i batch_size) starts)
        = problems /\
        Forall (fun i =>
                  (1 <= List.length (batch_at problems i batch_size))%nat /\
                  Z.of_nat (List.length (batch_at problems i batch_size))
                  <= batch_size) starts /\
        upload_problems w problems batch_size s
        = (Ok (success_count, failed_count), s') /\
        bulk_calls s'
        = (bulk_calls s
           ++ map (fun i => map problem_entry_of (batch_at problems i batch_size))
                  starts)%list /\
        writes s' = (writes s ++ map problem_entry_of problems)%list /\
        requests s' = (requests s + List.length problems)%nat /\
        success_count = count_ok w (requests s) (List.length problems) /\
        (success_count + failed_count)%nat = List.length problems) /\
  (forall (w : world) (problems : list dict) (s : state),
      List.length problems = 5%nat ->
      forallb normalized problems = true ->
      count_ok w (requests s) 5 = 4%nat ->
      py_range 5 2 = Ok [0; 2; 4]%nat /\
      map (fun i => List.length (batch_at problems i 2)) [0; 2; 4]%nat
      = [2; 2; 1]%nat /\
      exists s' : state,
        upload_problems w problems 2 s = (Ok (4, 1)%nat, s') /\
        bulk_calls s'
        = (bulk_calls s
           ++ [map problem_entry_of (batch_at problems 0 2);
               map problem_entry_of (batch_at problems 2 2);
               map problem_entry_of (batch_at problems 4 2)])%list /\
        writes s' = (writes s ++ map problem_entry_of problems)%list).
Proof.
  split.
  - intros w problems batch_size s Hb Hn.
    destruct (upload_problems_spec w problems batch_size s Hb Hn)
      as [starts [sc [fc [s' [Hr [Hst [Hk [Hcat [Hall [E H]]]]]]]]]].
    exists starts, sc, fc, s'.
    pose proof (upload_problems_calls w problems batch_size starts s Hn Hr) as Hc.
    rewrite E in Hc. cbn [snd] in Hc. tauto.
  - intros w problems s H5 Hn Hc.
    split; [reflexivity|]. split.
    + destruct problems as [|p1 [|p2 [|p3 [|p4 [|p5 [|p6 l]]]]]];
        try discriminate H5. reflexivity.
    + destruct (upload_problems_spec w problems 2 s ltac:(lia) Hn)
        as [starts [sc [fc [s' [_ [_ [_ [_ [_ [E [Hw [_ [Hs Hsum]]]]]]]]]]]]].
      rewrite H5 in Hs, Hsum. rewrite Hc in Hs. subst sc.
      assert (fc = 1%nat) by lia. subst fc.
      exists s'. split; [exact E|]. split; [|exact Hw].
      assert (Hr : py_range (List.length problems) 2 = Ok [0; 2; 4]%nat)
        by (rewrite H5; reflexivity).
      pose proof (upload_problems_calls w problems 2 [0; 2; 4]%nat s Hn Hr) as Hb.
      rewrite E in Hb. exact Hb.
Qed.

Lemma upload_problems_batches_witness :
  fst (upload_problems third_write_fails five_problems 2 initial_state)
  = Ok (4, 1)%nat /\
  map fst (writes (snd (upload_problems third_write_fails five_problems 2
                          initial_state)))
  = ["problem:1262"; "problem:1931"; "problem:1932"; "problem:1933";
     "problem:1934"] /\
  py_range 5 2 = Ok [0; 2; 4]%nat /\
  map (fun i => List.length (batch_at five_problems i 2)) [0; 2; 4]%nat
  = [2; 2; 1]%nat /\
  map (fun entries => map fst entries)
    (bulk_calls (snd (upload_problems third_write_fails five_problems 2
                        initial_state)))
  = [["problem:1262"; "problem:1931"]; ["problem:1932"; "problem:1933"];
     ["problem:1934"]] /\
  (exists s' : state,
      upload_problems third_write_fails five_problems 2 initial_state
      = (Ok (4, 1)%nat, s') /\
      bulk_calls s'
      = (bulk_calls initial_state
         ++ [map problem_entry_of (batch_at five_problems 0 2);
             map problem_entry_of (batch_at five_problems 2 2);
             map problem_entry_of (batch_at five_problems 4 2)])%list /\
      writes s' = (writes initial_state ++ map problem_entry_of five_problems)%list) /\
  exists success_count failed_count : nat,
    (success_count + failed_count)%nat = List.length five_problems.
Proof.
  split; [vm_compute; reflexivity|].
  split; [vm_compute; reflexivity|].
  split; [|split; [|split; [vm_compute; reflexivity|split]]].
  - apply (proj2 upload_problems_batches third_write_fails five_problems
             initial_state); reflexivity.
  - apply (proj2 upload_problems_batches third_write_fails five_problems
             initial_state); reflexivity.
  - apply (proj2 upload_problems_batches third_write_fails five_problems
             initial_state); reflexivity.
  - destruct (proj1 upload_problems_batches third_write_fails five_problems 2
                initial_state ltac:(lia) eq_refl)
      as [starts [sc [fc [s' [_ [_ [_ [_ [_ [_ [_ [_ [_ [_ H]]]]]]]]]]]]]].
    exists sc, fc. exact H.
Defined.

(** ** Reading and parsing *)

Lemma normalized_truthy (p : dict) :
  normalized p = true -> truthy (VDict p) = true.
Proof.
  destruct p; [discriminate|reflexivity].
Qed.

Lemma parse_csv_row_fst (row : Row) :
  exists r lg, parse_csv_row row = (Ok r, lg).
Proof.
  unfold parse_csv_row. destruct (parse_csv_row_body row); eexists; eexists; reflexivity.
Qed.

Lemma parse_json_problem_fst (item : value) :
  exists r lg, parse_json_problem item = (Ok r, lg).
Proof.
  unfold parse_json_problem.
  destruct (parse_json_problem_body item); eexists; eexists; reflexivity.
Qed.

Lemma parse_csv_loop_spec (rows : list Row) :
  forall (problems : list dict) (processed_count : nat) (s : state),
  exists s',
    parse_csv_loop rows problems processed_count s
    = (Ok ((problems ++ csv_problems rows)%list,
           (processed_count + List.length rows)%nat), s') /\
    requests s' = requests s /\ writes s' = writes s.
Proof.
  induction rows as [|row rest IH]; intros problems k s.
  - exists s. cbn. rewrite app_nil_r, Nat.add_0_r. auto.
  - cbn [parse_csv_loop csv_problems flat_map List.length].
    fold (csv_problems rest).
    destruct (parse_csv_row_fst row) as [r [lg E]].
    unfold bindM at 1, call_logged. rewrite E. cbn [fst snd].
    set (kept := match r with
                 | Some d => if truthy (VDict d) then (problems ++ [d])%list
                             else problems
                 | None => problems
                 end).
    assert (Hk : (kept ++ csv_problems rest
                  = problems ++ match r with Some p => [p] | None => [] end
                    ++ csv_problems rest)%list).
    { unfold kept. destruct r as [d|]; [|reflexivity].
      assert (Hn : normalized d = true).
      { assert (F : fst (parse_csv_row row) = Ok (Some d)) by (rewrite E; reflexivity).
        apply parse_csv_row_inv in F. destruct F as [n F]. tauto. }
      rewrite (normalized_truthy d Hn), <- app_assoc. reflexivity. }
    unfold bindM at 1.
    destruct ((S k mod 1000 =? 0)%nat); cbn [logging ret];
      cbn [log requests writes bulk_calls].
    + destruct (IH kept (S k) {| log := ((log s ++ lg) ++ [(INFO, ProcessedRows (S k))])%list;
                                 requests := requests s; writes := writes s;
                 bulk_calls := bulk_calls s |})
        as [s' [E' [Hr Hw]]].
      exists s'. rewrite E', Hk. replace (S k + List.length rest)%nat
        with (k + S (List.length rest))%nat by lia.
      destruct r; auto.
    + destruct (IH kept (S k) {| log := (log s ++ lg)%list;
                                 requests := requests s; writes := writes s;
                 bulk_calls := bulk_calls s |})
        as [s' [E' [Hr Hw]]].
      exists s'. rewrite E', Hk. replace (S k + List.length rest)%nat
        with (k + S (List.length rest))%nat by lia.
      destruct r; auto.
Qed.

Lemma parse_json_loop_spec (items : list value) :
  forall (problems : list dict) (processed_count : nat) (s : state),
  exists s',
    parse_json_loop items problems processed_count s
    = (Ok ((problems ++ json_problems items)%list,
           (processed_count + List.length items)%nat), s') /\
    requests s' = requests s /\ writes s' = writes s.
Proof.
  induction items as [|item rest IH]; intros problems k s.
  - exists s. cbn. rewrite app_nil_r, Nat.add_0_r. auto.
  - cbn [parse_json_loop json_problems flat_map List.length].
    fold (json_problems rest).
    destruct (parse_json_problem_fst item) as [r [lg E]].
    unfold bindM at 1, call_logged. rewrite E. cbn [fst snd].
    set (kept := match r with
                 | Some d => if truthy (VDict d) then (problems ++ [d])%list
                             else problems
                 | None => problems
                 end).
    assert (Hk : (kept ++ json_problems rest
                  = problems ++ match r with Some p => [p] | None => [] end
                    ++ json_problems rest)%list).
    { unfold kept. destruct r as [d|]; [|reflexivity].
      assert (Hn : normalized d = true).
      { assert (F : fst (parse_json_problem item) = Ok (Some d))
          by (rewrite E; reflexivity).
        apply parse_json_problem_inv in F.
        destruct F as [d0 [n F]]. tauto. }
      rewrite (normalized_truthy d Hn), <- app_assoc. reflexivity. }
    destruct (IH kept (S k) {| log := (log s ++ lg)%list;
                               requests := requests s; writes := writes s;
                 bulk_calls := bulk_calls s |})
      as [s' [E' [Hr Hw]]].
    exists s'. rewrite E', Hk. replace (S k + List.length rest)%nat
      with (k + S (List.length rest))%nat by lia.
    destruct r; auto.
Qed.

Lemma csv_problems_normalized (rows : list Row) :
  forallb normalized (csv_problems rows) = true.
Proof.
  apply forallb_forall. intros p Hp. unfold csv_problems in Hp.
  apply in_flat_map in Hp. destruct Hp as [row [_ Hp]].
  destruct (fst (parse_csv_row row)) as [[q|]|e] eqn:E; try contradiction.
  destruct Hp as [<-|[]].
  apply parse_csv_row_inv in E. destruct E as [n E]. tauto.
Qed.

Lemma json_problems_normalized (items : list value) :
  forallb normalized (json_problems items) = true.
Proof.
  apply forallb_forall. intros p Hp. unfold json_problems in Hp.
  apply in_flat_map in Hp. destruct Hp as [item [_ Hp]].
  destruct (fst (parse_json_problem item)) as [[q|]|e] eqn:E; try contradiction.
  destruct Hp as [<-|[]].
  apply parse_json_problem_inv in E. destruct E as [d [n E]]. tauto.
Qed.

(** Reading and parsing sends nothing and yields the valid problems of the
    file. *)
Lemma read_and_parse_spec (w : world) (file_path : string) (f : file)
  (problems : list dict) (s : state) :
  files w file_path = Some f ->
  parsed_problems file_path f = Some problems ->
  exists (processed_count : nat) (s' : state),
    read_and_parse w file_path s = (Ok (Some (problems, processed_count)), s') /\
    requests s' = requests s /\ writes s' = writes s.
Proof.
  intros Hf Hp. unfold read_and_parse, parsed_problems, open_file in *.
  rewrite Hf.
  destruct (PyStr.endswith file_path ".json").
  - unfold bindM at 1, lift. unfold parse_structured.
    destruct (json_doc f) as [[| | | | |items|d]|e]; try discriminate Hp.
    + inversion Hp. subst problems. unfold bindM at 1, lift.
      destruct (parse_json_loop_spec items [] 0%nat s) as [s' [E [Hr Hw]]].
      unfold bindM, ret. rewrite E. eexists; eexists; eauto.
    + unfold bindM at 1, lift.
      destruct (Dict.get d "problems") as [raw|]; [|discriminate Hp].
      destruct (py_iter raw) as [items|e]; [|discriminate Hp].
      inversion Hp. subst problems.
      destruct (parse_json_loop_spec items [] 0%nat s) as [s' [E [Hr Hw]]].
      unfold bindM, lift, ret. rewrite E. eexists; eexists; eauto.
  - unfold bindM at 1, lift. unfold parse_tabular.
    destruct (csv_rows f) as [rows|e]; [|discriminate Hp].
    inversion Hp. subst problems.
    destruct (parse_csv_loop_spec rows [] 0%nat s) as [s' [E [Hr Hw]]].
    unfold bindM, lift, ret. rewrite E. eexists; eexists; eauto.
Qed.

Lemma parsed_problems_normalized (file_path : string) (f : file)
  (problems : list dict) :
  parsed_problems file_path f = Some problems ->
  forallb normalized problems = true.
Proof.
  unfold parsed_problems.
  destruct (PyStr.endswith file_path ".json").
  - destruct (json_doc f) as [[| | | | |items|d]|e]; try discriminate.
    + intros H. inversion H. apply json_problems_normalized.
    + destruct (Dict.get d "problems") as [raw|]; [|discriminate].
      destruct (py_iter raw) as [items|e]; [|discriminate].
      intros H. inversion H. apply json_problems_normalized.
  - destruct (csv_rows f) as [rows|e]; [|discriminate].
    intros H. inversion H. apply csv_problems_normalized.
Qed.




(** ** Essentials upload *)

Lemma create_essentials_entry_last_updated (problems : list dict) (e : dict) :
  create_essentials_entry problems = Ok e ->
  Dict.get e "last_updated" = Some VNone.
Proof.
  unfold create_essentials_entry.
  destruct (map_exc essential_of problems) as [es|x]; [|discriminate].
  cbn [bind].
  destruct (map_exc sort_key es) as [ks|x]; [|discriminate].
  cbn [bind]. intros H. inversion H. reflexivity.
Qed.

(** C8: the index that [create_essentials_entry] returns holds no
    timestamp: its [last_updated] is [None].  The caller sets it, when it
    uploads the index, to the text of the clock's whole seconds, and that
    stamped index is what it writes under the key [essentials]. *)
Theorem essentials_last_updated :
  forall (w : world) (problems : list dict) (essentials : dict) (s : state),
    create_essentials_entry problems = Ok essentials ->
    Dict.get essentials "last_updated" = Some VNone /\
    exists (ok : bool) (s' : state),
      upload_essentials w problems s = (Ok ok, s') /\
      writes s'
      = (writes s
         ++ [("essentials",
              VDict (Dict.set essentials "last_updated"
                       (VStr (PyStr.str_of_Z (now w)))))])%list /\
      Dict.get (Dict.set essentials "last_updated"
                  (VStr (PyStr.str_of_Z (now w)))) "last_updated"
      = Some (VStr (PyStr.str_of_Z (now w))).
Proof.
  intros w problems essentials s H.
  split; [eapply create_essentials_entry_last_updated; exact H|].
  unfold upload_essentials. unfold bindM at 1. cbn [logging].
  unfold bindM at 1, lift. rewrite H.
  set (stamped := Dict.set essentials "last_updated" _).
  set (s0 := {| log := _; requests := _; writes := _; bulk_calls := _ |}).
  destruct (put_spec w "essentials" (VDict stamped) s0) as [s1 [E [Hr Hw]]].
  unfold bindM at 1. rewrite E.
  destruct (write_ok _); unfold bindM, logging, ret;
    eexists; eexists; (split; [reflexivity|]);
    cbn [writes]; (split; [exact Hw|]);
    unfold stamped; rewrite get_set; reflexivity.
Qed.

Lemma essentials_last_updated_witness :
  Dict.get [("problems", VList (map VDict (map sample_summary [1262; 1931; 2000])));
            ("count", VInt 3);
            ("last_updated", VNone)] "last_updated" = Some VNone /\
  exists (ok : bool) (s' : state),
    upload_essentials third_write_fails three_problems initial_state = (Ok ok, s') /\
    writes s'
    = (writes initial_state
       ++ [("essentials",
            VDict (Dict.set
                     [("problems",
                       VList (map VDict (map sample_summary [1262; 1931; 2000])));
                      ("count", VInt 3);
                      ("last_updated", VNone)]
                     "last_updated"
                     (VStr (PyStr.str_of_Z (now third_write_fails)))))])%list /\
    Dict.get (Dict.set
                [("problems",
                  VList (map VDict (map sample_summary [1262; 1931; 2000])));
                 ("count", VInt 3);
                 ("last_updated", VNone)]
                "last_updated"
                (VStr (PyStr.str_of_Z (now third_write_fails)))) "last_updated"
    = Some (VStr (PyStr.str_of_Z (now third_write_fails))).
Proof.
  apply (essentials_last_updated third_write_fails three_problems).
  vm_compute. reflexivity.
Defined.

(** ** The driver and the entry point *)

Lemma final_record_snoc (lg : list log_record) (r : log_record)
  (k : nat) (ws : list (string * value)) (cs : list (list (string * value))) :
  final_record {| log := (lg ++ [r])%list; requests := k; writes := ws;
                  bulk_calls := cs |} = Some r.
Proof.
  unfold final_record. cbn [log]. rewrite rev_app_distr. reflexivity.
Qed.

(** A run whose upload returns goes on to the summary: [main] ends with
    exit code 0, and the last line it logs tells whether a write failed. *)
Lemma main_completes (w : world) (a : args) (f : file) (s s1 : state)
  (success_count failed_count : nat) :
  files w (csv a) = Some f ->
  upload_file_to_kv w (csv a) (batch_size a) (skip_essentials a) s
  = (Ok (success_count, failed_count), s1) ->
  exists s',
    main w a s = (0, s') /\
    final_record s'
    = Some (if (failed_count =? 0)%nat then (INFO, AllUploadsCompleted)
            else (WARNING, SomeUploadsFailed failed_count)) /\
    requests s' = requests s1 /\
    writes s' = writes s1 /\
    exists lg, log s' = (log s1 ++ lg)%list.
Proof.
  intros Hf H. unfold main. rewrite Hf.
  unfold bindM at 1. rewrite H.
  destruct ((0 <? success_count + failed_count)%nat);
    destruct ((failed_count =? 0)%nat);
    cbn; eexists; (split; [reflexivity|]);
    (split; [apply final_record_snoc|]);
    (split; [reflexivity|]); (split; [reflexivity|]);
    cbn [log]; repeat rewrite <- app_assoc; eexists; reflexivity.
Qed.

(** With no valid problem the driver warns and returns at once. *)
Lemma upload_file_to_kv_no_problems (w : world) (file_path : string) (f : file)
  (b : Z) (skip : bool) (s : state) :
  files w file_path = Some f ->
  parsed_problems file_path f = Some [] ->
  exists s',
    upload_file_to_kv w file_path b skip s = (Ok (0, 0)%nat, s') /\
    requests s' = requests s /\
    writes s' = writes s /\
    In (WARNING, NoProblemsFound) (log s').
Proof.
  intros Hf Hp. unfold upload_file_to_kv.
  unfold bindM at 1. cbn [logging]. unfold bindM at 1. cbn [logging].
  cbn [log requests writes bulk_calls].
  set (s0 := {| log := _; requests := _; writes := _; bulk_calls := _ |}).
  destruct (read_and_parse_spec w file_path f [] s0 Hf Hp)
    as [n [s1 [E [Hr Hw]]]].
  unfold bindM at 1. rewrite E. cbn.
  eexists. split; [reflexivity|]. cbn [requests writes log bulk_calls].
  split; [exact Hr|]. split; [exact Hw|].
  apply in_or_app. right. left. reflexivity.
Qed.




(** C5, as stated, fails: a file whose only row is filtered out yields no
    problem, and the run ends with exit code 0 and the success line, after
    the warning; nothing is written. *)
Lemma no_problems_exit_code_counterexample :
  parsed_problems "problems.csv" filtered_out_content = Some [] /\
  main (world_with "problems.csv" filtered_out_content)
    (default_args "problems.csv") initial_state
  = (0, {| log := [(INFO, StartingUpload "problems.csv");
                   (INFO, ReadingAndParsing);
                   (INFO, ParsedProblems 0 1);
                   (WARNING, NoProblemsFound);
                   (INFO, SummaryRule);
                   (INFO, SummaryTitle);
                   (INFO, SummaryRule);
                   (INFO, TotalProcessed 0);
                   (INFO, SuccessfulUploads 0);
                   (INFO, FailedUploads 0);
                   (INFO, SummaryRule);
                   (INFO, AllUploadsCompleted)];
           requests := 0;
           writes := [];
           bulk_calls := [] |}).
Proof.
  split; vm_compute; reflexivity.
Qed.

(** C5, amended: when the file yields no valid problem, the driver logs the
    warning and returns the counts (0, 0) at once: no request is sent and
    nothing is written, neither a problem nor the essentials; [main] then
    ends with exit code 0 and its success line. *)
Theorem no_problems_no_upload :
  forall (w : world) (a : args) (f : file) (s : state),
    files w (csv a) = Some f ->
    parsed_problems (csv a) f = Some [] ->
    exists s',
      main w a s = (0, s') /\
      requests s' = requests s /\
      writes s' = writes s /\
      In (WARNING, NoProblemsFound) (log s') /\
      final_record s' = Some (INFO, AllUploadsCompleted).
Proof.
  intros w a f s Hf Hp.
  destruct (upload_file_to_kv_no_problems w (csv a) f (batch_size a)
              (skip_essentials a) s Hf Hp) as [s1 [E [Hr [Hw Hin]]]].
  destruct (main_completes w a f s s1 0%nat 0%nat Hf E)
    as [s' [Em [R [Hr' [Hw' [lg Hl]]]]]].
  exists s'. split; [exact Em|].
  split; [congruence|]. split; [congruence|].
  split; [rewrite Hl; apply in_or_app; left; exact Hin|exact R].
Qed.

Lemma no_problems_no_upload_witness :
  exists s',
    main (world_with "problems.csv" filtered_out_content)
      (default_args "problems.csv") initial_state = (0, s') /\
    requests s' = requests initial_state /\
    writes s' = writes initial_state /\
    In (WARNING, NoProblemsFound) (log s') /\
    final_record s' = Some (INFO, AllUploadsCompleted).
Proof.
  apply (no_problems_no_upload (world_with "problems.csv" filtered_out_content)
           (default_args "problems.csv") filtered_out_content initial_state).
  - reflexivity.
  - vm_compute. reflexivity.
Defined.

(* ================================================================== *)
(** * Further properties of the uploader *)

Lemma put_bulk_entry_log (w : world) (entry : string * value)
  (res : results) (s : state) :
  exists res' s' lg,
    put_bulk_entry w entry res s = (Ok res', s') /\
    log s' = (log s ++ lg)%list /\
    forallb is_error lg = true /\
    (failed res' = failed res + List.length lg)%nat.
Proof.
  destruct entry as [key body].
  unfold put_bulk_entry, try_exceptM, bindM, requests_put.
  destruct (remote w (requests s)) as [status_code text|e]; cbv beta iota zeta.
  - destruct (status_ok status_code); cbn.
    + eexists; eexists; exists []. rewrite app_nil_r. repeat split. cbn. lia.
    + eexists; eexists; eexists. repeat split. cbn. lia.
  - cbn. eexists; eexists; eexists. repeat split. cbn. lia.
Qed.

Lemma put_bulk_loop_log (w : world) (entries : list (string * value)) :
  forall (res : results) (s : state),
  exists res' s' lg,
    put_bulk_loop w entries res s = ((res', None), s') /\
    log s' = (log s ++ lg)%list /\
    forallb is_error lg = true /\
    (failed res' = failed res + List.length lg)%nat.
Proof.
  induction entries as [|entry rest IH]; intros res s.
  - exists res, s, []. cbn. rewrite app_nil_r. repeat split. lia.
  - cbn [put_bulk_loop].
    destruct (put_bulk_entry_log w entry res s) as [res1 [s1 [lg1 [E [L [F N]]]]]].
    rewrite E.
    destruct (IH res1 s1) as [res2 [s2 [lg2 [E2 [L2 [F2 N2]]]]]].
    exists res2, s2, (lg1 ++ lg2)%list. rewrite E2.
    split; [reflexivity|]. split; [rewrite L2, L, app_assoc; reflexivity|].
    split; [rewrite forallb_app, F, F2; reflexivity|].
    rewrite length_app. lia.
Qed.

(** X1: [put_bulk] never raises.  It sends one request per entry, in the
    order of the entries, whatever the store answers; the successes are the
    requests answered with status 200 or 201, every other entry is a failure,
    and each failure is logged as exactly one error. *)
Theorem put_bulk_tally :
  forall (w : world) (entries : list (string * value)) (s : state),
  exists (res : results) (s' : state) (lg : list log_record),
    put_bulk w entries s = (Ok res, s') /\
    writes s' = (writes s ++ entries)%list /\
    requests s' = (requests s + List.length entries)%nat /\
    success res = count_ok w (requests s) (List.length entries) /\
    (success res + failed res)%nat = List.length entries /\
    log s' = (log s ++ lg)%list /\
    forallb is_error lg = true /\
    List.length lg = failed res.
Proof.
  intros w entries s.
  destruct (put_bulk_spec w entries s) as [res [s' [E [Hs [Hf [Hr Hw]]]]]].
  unfold put_bulk in E.
  destruct (put_bulk_loop_log w entries {| success := 0; failed := 0 |}
              (called_put_bulk entries s))
    as [res' [s'' [lg [E' [L [F N]]]]]].
  rewrite E' in E. inversion E. subst res' s''.
  exists res, s', lg. unfold put_bulk. rewrite E'.
  pose proof (count_ok_le w (requests s) (List.length entries)).
  cbn in N. repeat split; try assumption; lia.
Qed.

(** ** The whole driver *)

Lemma read_outcome_parsed (file_path : string) (f : file) (problems : list dict) :
  read_outcome file_path f = Ok (Some problems) <->
  parsed_problems file_path f = Some problems.
Proof.
  unfold read_outcome, parsed_problems.
  destruct (PyStr.endswith file_path ".json").
  - destruct (json_doc f) as [[| | | | |items|d]|e]; cbn [bind];
      try (split; discriminate).
    + split; intros H; inversion H; reflexivity.
    + destruct (Dict.get d "problems") as [raw|]; [|split; discriminate].
      destruct (py_iter raw) as [items|e]; cbn [bind]; [|split; discriminate].
      split; intros H; inversion H; reflexivity.
  - destruct (csv_rows f) as [rows|e]; cbn [bind]; [|split; discriminate].
    split; intros H; inversion H; reflexivity.
Qed.

Lemma upload_essentials_spec (w : world) (problems : list dict) (s : state) :
  forallb normalized problems = true ->
  exists (essentials : dict) (s' : state),
    create_essentials_entry problems = Ok essentials /\
    upload_essentials w problems s
    = (Ok (write_ok (remote w (requests s))), s') /\
    writes s'
    = (writes s
       ++ [("essentials",
            VDict (Dict.set essentials "last_updated"
                     (VStr (PyStr.str_of_Z (now w)))))])%list /\
    requests s' = S (requests s).
Proof.
  intros Hn.
  pose proof (create_essentials_entry_normalized problems Hn) as Hc.
  cbv zeta in Hc. eexists. 
  unfold upload_essentials. unfold bindM at 1. cbn [logging].
  unfold bindM at 1, lift. rewrite Hc.
  set (stamped := Dict.set _ "last_updated" _).
  set (s0 := {| log := _; requests := _; writes := _; bulk_calls := _ |}).
  destruct (put_spec w "essentials" (VDict stamped) s0) as [s1 [E [Hr Hw]]].
  unfold bindM at 1. rewrite E. cbn [requests] in *.
  destruct (write_ok _); unfold bindM, logging, ret;
    eexists; (split; [reflexivity|]); (split; [reflexivity|]);
    cbn [writes requests]; split; assumption.
Qed.

Lemma upload_file_to_kv_positive :
  forall (w : world) (file_path : string) (f : file) (problems : list dict)
         (b : Z) (skip : bool) (s : state),
    files w file_path = Some f ->
    read_outcome file_path f = Ok (Some problems) ->
    problems <> [] ->
    0 < b ->
    exists (essentials : dict) (success_count failed_count : nat) (s' : state),
      create_essentials_entry problems = Ok essentials /\
      upload_file_to_kv w file_path b skip s
      = (Ok (success_count, failed_count), s') /\
      writes s'
      = (writes s ++ map problem_entry_of problems
         ++ if skip then []
            else [("essentials",
                   VDict (Dict.set essentials "last_updated"
                            (VStr (PyStr.str_of_Z (now w)))))])%list /\
      requests s'
      = (requests s + List.length problems + if skip then 0 else 1)%nat /\
      success_count
      = count_ok w (requests s)
          (List.length problems + if skip then 0 else 1) /\
      (success_count + failed_count)%nat
      = (List.length problems + if skip then 0 else 1)%nat.
Proof.
  intros w file_path f problems b skip s Hf Hr Hne Hb.
  apply read_outcome_parsed in Hr.
  pose proof (parsed_problems_normalized _ _ _ Hr) as Hn.
  unfold upload_file_to_kv.
  unfold bindM at 1. cbn [logging]. unfold bindM at 1. cbn [logging].
  cbn [log requests writes bulk_calls].
  set (s0 := {| log := _; requests := _; writes := _; bulk_calls := _ |}).
  destruct (read_and_parse_spec w file_path f problems s0 Hf Hr)
    as [n [s1 [E [Hr1 Hw1]]]].
  unfold bindM at 1. rewrite E.
  unfold bindM at 1. cbn [logging].
  set (s2 := {| log := _; requests := _; writes := _; bulk_calls := _ |}).
  destruct problems as [|p0 rest]; [contradiction|].
  set (problems := p0 :: rest) in *.
  destruct (upload_problems_spec w problems b s2 Hb Hn)
    as [starts [sc [fc [s3 [_ [_ [_ [_ [_ [Eu [Hw3 [Hr3 [Hs3 Hsum]]]]]]]]]]]]].
  unfold bindM at 1. rewrite Eu.
  assert (R2 : requests s2 = requests s) by (unfold s2; cbn; rewrite Hr1; reflexivity).
  assert (W2 : writes s2 = writes s) by (unfold s2; cbn; rewrite Hw1; reflexivity).
  rewrite R2 in *. rewrite W2 in *.
  destruct (upload_essentials_spec w problems s3 Hn)
    as [essentials [s4 [Ec [Ee [Hw4 Hr4]]]]].
  exists essentials.
  destruct skip; cbn [negb].
  - unfold bindM, logging, ret. eexists; eexists; eexists.
    split; [exact Ec|]. split; [reflexivity|]. cbn [writes requests].
    rewrite app_nil_r, !Nat.add_0_r. repeat split; assumption.
  - unfold bindM at 1. rewrite Ee.
    rewrite Hr3 in *.
    destruct (write_ok (remote w (requests s + List.length problems))) eqn:Ok;
      unfold ret; eexists; eexists; eexists;
      (split; [exact Ec|]); (split; [reflexivity|]);
      (split; [rewrite Hw4, Hw3, <- app_assoc; reflexivity|]);
      (split; [lia|]);
      rewrite count_ok_add; unfold count_ok at 2; cbn [seq map filter];
      rewrite Ok; cbn [List.length]; split; lia.
Qed.

(** X2: a run over a file that yields at least one valid problem, with a
    positive batch size, writes one entry per problem, in the order of the
    file, and then, unless the essentials are skipped, the stamped essentials
    index as the single last write.  It returns without raising, its
    successes are the requests the store accepted, and the two counts add up
    to the number of writes. *)
Theorem upload_file_to_kv_end_to_end :
  forall (w : world) (file_path : string) (f : file) (problems : list dict)
         (b : Z) (skip : bool) (s : state),
    files w file_path = Some f ->
    read_outcome file_path f = Ok (Some problems) ->
    problems <> [] ->
    0 < b ->
    exists (essentials : dict) (success_count failed_count : nat) (s' : state),
      create_essentials_entry problems = Ok essentials /\
      upload_file_to_kv w file_path b skip s
      = (Ok (success_count, failed_count), s') /\
      writes s'
      = (writes s ++ map problem_entry_of problems
         ++ if skip then []
            else [("essentials",
                   VDict (Dict.set essentials "last_updated"
                            (VStr (PyStr.str_of_Z (now w)))))])%list /\
      requests s'
      = (requests s + List.length problems + if skip then 0 else 1)%nat /\
      success_count
      = count_ok w (requests s)
          (List.length problems + if skip then 0 else 1) /\
      (success_count + failed_count)%nat
      = (List.length problems + if skip then 0 else 1)%nat.
Proof.
  intros w file_path f problems b skip s Hf Hr Hne Hb.
  apply (upload_file_to_kv_positive w file_path f); assumption.
Qed.


Lemma upload_file_to_kv_end_to_end_witness :
  exists (essentials : dict) (success_count failed_count : nat) (s' : state),
    create_essentials_entry
      (csv_problems [[("frontendQuestionId", "1262"); ("title", "A")];
                     [("frontendQuestionId", "1500"); ("title", "B")];
                     [("frontendQuestionId", "1931"); ("title", "C")]])
    = Ok essentials /\
    upload_file_to_kv second_write_fails "problems.csv" 50 false initial_state
    = (Ok (success_count, failed_count), s') /\
    map fst (writes s') = ["problem:1262"; "problem:1931"; "essentials"] /\
    success_count = 2%nat /\ failed_count = 1%nat.
Proof.
  destruct (upload_file_to_kv_end_to_end second_write_fails "problems.csv"
              three_rows_content
              (csv_problems [[("frontendQuestionId", "1262"); ("title", "A")];
                             [("frontendQuestionId", "1500"); ("title", "B")];
                             [("frontendQuestionId", "1931"); ("title", "C")]])
              50 false initial_state eq_refl eq_refl
              ltac:(vm_compute; discriminate) ltac:(lia))
    as [e [sc [fc [s' [Ec [Eu [Hw [Hr [Hs Hsum]]]]]]]]].
  exists e, sc, fc, s'. split; [exact Ec|]. split; [exact Eu|].
  split.
  - rewrite Hw. vm_compute. reflexivity.
  - assert (S2 : sc = 2%nat) by (rewrite Hs; vm_compute; reflexivity).
    split; [exact S2|]. rewrite S2 in Hsum. vm_compute in Hsum. lia.
Defined.

(** Reading and parsing, by what the file comes to. *)
Lemma read_and_parse_outcome (w : world) (file_path : string) (f : file)
  (s : state) :
  files w file_path = Some f ->
  exists (r : exc (option (list dict * nat))) (s' : state),
    read_and_parse w file_path s = (r, s') /\
    requests s' = requests s /\ writes s' = writes s /\
    match read_outcome file_path f with
    | Raise e => r = Raise e
    | Ok None => r = Ok None
    | Ok (Some problems) => exists n, r = Ok (Some (problems, n))
    end.
Proof.
  intros Hf.
  destruct (read_outcome file_path f) as [[problems|]|e] eqn:Ho.
  - apply read_outcome_parsed in Ho.
    destruct (read_and_parse_spec w file_path f problems s Hf Ho)
      as [n [s' [E [Hr Hw]]]].
    exists (Ok (Some (problems, n))), s'. rewrite E. eauto.
  - unfold read_and_parse, read_outcome, open_file in *. rewrite Hf.
    destruct (PyStr.endswith file_path ".json").
    + unfold parse_structured, bindM, lift.
      destruct (json_doc f) as [[| | | | |items|d]|e]; cbn [bind] in Ho;
        cbv beta iota zeta; try discriminate Ho;
        try (cbn; eexists; eexists; repeat split; reflexivity).
      destruct (Dict.get d "problems") as [raw|].
      * destruct (py_iter raw); discriminate Ho.
      * cbn. eexists; eexists; repeat split; reflexivity.
    + destruct (csv_rows f); discriminate Ho.
  - unfold read_and_parse, read_outcome, open_file in *. rewrite Hf.
    destruct (PyStr.endswith file_path ".json").
    + unfold parse_structured, bindM, lift.
      destruct (json_doc f) as [[| | | | |items|d]|e']; cbn [bind] in Ho;
        cbv beta iota zeta; try discriminate Ho.
      * destruct (Dict.get d "problems") as [raw|]; [|discriminate Ho].
        destruct (py_iter raw) as [items|e']; [discriminate Ho|].
        cbn [bind] in Ho. inversion Ho. subst e'.
        eexists; eexists; repeat split; reflexivity.
      * inversion Ho. subst e'.
        eexists; eexists; repeat split; reflexivity.
    + unfold parse_tabular, bindM, lift.
      destruct (csv_rows f) as [rows|e']; [discriminate Ho|].
      cbn [bind] in Ho. inversion Ho. subst e'.
      eexists; eexists; repeat split; reflexivity.
Qed.

Lemma upload_problems_not_positive (w : world) (problems : list dict)
  (b : Z) (s : state) :
  b <= 0 ->
  exists s',
    upload_problems w problems b s
    = (if b =? 0 then Raise ValueError else Ok (0, 0)%nat, s') /\
    requests s' = requests s /\ writes s' = writes s.
Proof.
  intros Hb. unfold upload_problems, py_range, bindM, logging, lift.
  destruct (Z.eqb_spec b 0) as [Z0|NZ].
  - eexists. repeat split; reflexivity.
  - destruct (Z.ltb_spec b 0); [|lia].
    cbn. eexists. repeat split; reflexivity.
Qed.

(** The driver, from the first log line to the upload phase. *)
Lemma upload_file_to_kv_parsed (w : world) (file_path : string) (f : file)
  (problems : list dict) (b : Z) (skip : bool) (s : state) :
  files w file_path = Some f ->
  read_outcome file_path f = Ok (Some problems) ->
  problems <> [] ->
  exists s2,
    requests s2 = requests s /\ writes s2 = writes s /\
    upload_file_to_kv w file_path b skip s
    = (counts <~ upload_problems w problems b ;;
       let '(success_count, failed_count) := counts in
       if negb skip then
         ok <~ upload_essentials w problems ;;
         if ok : bool then ret (S success_count, failed_count)
         else ret (success_count, S failed_count)
       else
         logging INFO SkippingEssentials ;;; ret (success_count, failed_count)) s2.
Proof.
  intros Hf Hr Hne. apply read_outcome_parsed in Hr.
  unfold upload_file_to_kv.
  unfold bindM at 1. cbn [logging]. unfold bindM at 1. cbn [logging].
  cbn [log requests writes bulk_calls].
  set (s0 := {| log := _; requests := _; writes := _; bulk_calls := _ |}).
  destruct (read_and_parse_spec w file_path f problems s0 Hf Hr)
    as [n [s1 [E [Hr1 Hw1]]]].
  unfold bindM at 1. rewrite E.
  unfold bindM at 1. cbn [logging].
  destruct problems as [|p0 rest]; [contradiction|].
  eexists. split; [|split; [|reflexivity]]; cbn; assumption.
Qed.

Lemma main_raises (w : world) (a : args) (f : file) (s s1 : state) (e : exn) :
  files w (csv a) = Some f ->
  upload_file_to_kv w (csv a) (batch_size a) (skip_essentials a) s
  = (Raise e, s1) ->
  exists s',
    main w a s = (1, s') /\
    final_record s' = Some (ERROR, FatalError e) /\
    requests s' = requests s1 /\ writes s' = writes s1.
Proof.
  intros Hf H. unfold main. rewrite Hf.
  unfold bindM at 1. rewrite H. cbn.
  eexists. split; [reflexivity|]. split; [apply final_record_snoc|].
  split; reflexivity.
Qed.

Lemma main_batch_size_zero :
  forall (w : world) (a : args) (f : file) (problems : list dict) (s : state),
    files w (csv a) = Some f ->
    read_outcome (csv a) f = Ok (Some problems) ->
    problems <> [] ->
    batch_size a = 0 ->
    exists s',
      main w a s = (1, s') /\
      final_record s' = Some (ERROR, FatalError ValueError) /\
      requests s' = requests s /\
      writes s' = writes s.
Proof.
  intros w a f problems s Hf Hr Hne Hb.
  destruct (upload_file_to_kv_parsed w (csv a) f problems (batch_size a)
              (skip_essentials a) s Hf Hr Hne) as [s2 [R2 [W2 E]]].
  destruct (upload_problems_not_positive w problems (batch_size a) s2
              ltac:(lia)) as [s3 [Eu [R3 W3]]].
  rewrite Hb in Eu at 2. cbn [Z.eqb] in Eu.
  unfold bindM at 1 in E. rewrite Eu in E.
  destruct (main_raises w a f s s3 ValueError Hf E) as [s' [Em [Fr [R W]]]].
  exists s'. split; [exact Em|]. split; [exact Fr|]. split; congruence.
Qed.

(** X3: with a batch size of zero and at least one valid problem the run is
    fatal: the step of the batches raises [ValueError] before any write, and
    [main] logs the fatal error and ends with exit code 1. *)
Theorem batch_size_zero_is_fatal :
  forall (w : world) (a : args) (f : file) (problems : list dict) (s : state),
    files w (csv a) = Some f ->
    read_outcome (csv a) f = Ok (Some problems) ->
    problems <> [] ->
    batch_size a = 0 ->
    exists s',
      main w a s = (1, s') /\
      final_record s' = Some (ERROR, FatalError ValueError) /\
      requests s' = requests s /\
      writes s' = writes s.
Proof.
  intros w a f problems s Hf Hr Hne Hb.
  apply (main_batch_size_zero w a f problems); assumption.
Qed.


Lemma batch_size_zero_is_fatal_witness :
  exists s',
    main second_write_fails (args_with_batch_size "problems.csv" 0) initial_state
    = (1, s') /\
    final_record s' = Some (ERROR, FatalError ValueError) /\
    requests s' = requests initial_state /\
    writes s' = writes initial_state.
Proof.
  apply (batch_size_zero_is_fatal second_write_fails
           (args_with_batch_size "problems.csv" 0) three_rows_content
           (csv_problems [[("frontendQuestionId", "1262"); ("title", "A")];
                          [("frontendQuestionId", "1500"); ("title", "B")];
                          [("frontendQuestionId", "1931"); ("title", "C")]])
           initial_state).
  - reflexivity.
  - reflexivity.
  - vm_compute. discriminate.
  - reflexivity.
Defined.

Lemma upload_file_to_kv_negative :
  forall (w : world) (file_path : string) (f : file) (problems : list dict)
         (b : Z) (skip : bool) (s : state),
    files w file_path = Some f ->
    read_outcome file_path f = Ok (Some problems) ->
    problems <> [] ->
    b < 0 ->
    exists (essentials : dict) (success_count failed_count : nat) (s' : state),
      create_essentials_entry problems = Ok essentials /\
      upload_file_to_kv w file_path b skip s
      = (Ok (success_count, failed_count), s') /\
      writes s'
      = (writes s
         ++ if skip then []
            else [("essentials",
                   VDict (Dict.set essentials "last_updated"
                            (VStr (PyStr.str_of_Z (now w)))))])%list /\
      (success_count + failed_count)%nat = (if skip then 0 else 1)%nat.
Proof.
  intros w file_path f problems b skip s Hf Hr Hne Hb.
  destruct (upload_file_to_kv_parsed w file_path f problems b skip s Hf Hr Hne)
    as [s2 [R2 [W2 E]]].
  destruct (upload_problems_not_positive w problems b s2 ltac:(lia))
    as [s3 [Eu [R3 W3]]].
  destruct (Z.eqb_spec b 0); [lia|].
  unfold bindM at 1 in E. rewrite Eu in E.
  pose proof (parsed_problems_normalized _ _ _
                (proj1 (read_outcome_parsed _ _ _) Hr)) as Hn.
  destruct (upload_essentials_spec w problems s3 Hn)
    as [essentials [s4 [Ec [Ee [Hw4 Hr4]]]]].
  exists essentials. rewrite E.
  destruct skip; cbn [negb].
  - unfold bindM, logging, ret. eexists; eexists; eexists.
    split; [exact Ec|]. split; [reflexivity|]. cbn [writes].
    rewrite app_nil_r. split; [congruence|reflexivity].
  - unfold bindM at 1. rewrite Ee.
    destruct (write_ok _); unfold ret; eexists; eexists; eexists;
      (split; [exact Ec|]); (split; [reflexivity|]);
      (split; [rewrite Hw4; congruence|reflexivity]).
Qed.

(** X4: with a negative batch size no problem entry is written at all: the
    range of the batches is empty.  The run still returns, and unless the
    essentials are skipped its only write is the essentials index of all the
    problems, counted alone. *)
Theorem negative_batch_size_writes_no_problem :
  forall (w : world) (file_path : string) (f : file) (problems : list dict)
         (b : Z) (skip : bool) (s : state),
    files w file_path = Some f ->
    read_outcome file_path f = Ok (Some problems) ->
    problems <> [] ->
    b < 0 ->
    exists (essentials : dict) (success_count failed_count : nat) (s' : state),
      create_essentials_entry problems = Ok essentials /\
      upload_file_to_kv w file_path b skip s
      = (Ok (success_count, failed_count), s') /\
      writes s'
      = (writes s
         ++ if skip then []
            else [("essentials",
                   VDict (Dict.set essentials "last_updated"
                            (VStr (PyStr.str_of_Z (now w)))))])%list /\
      (success_count + failed_count)%nat = (if skip then 0 else 1)%nat.
Proof.
  intros w file_path f problems b skip s Hf Hr Hne Hb.
  apply (upload_file_to_kv_negative w file_path f); assumption.
Qed.


Lemma negative_batch_size_writes_no_problem_witness :
  exists (essentials : dict) (success_count failed_count : nat) (s' : state),
    create_essentials_entry
      (csv_problems [[("frontendQuestionId", "1262"); ("title", "A")];
                     [("frontendQuestionId", "1500"); ("title", "B")];
                     [("frontendQuestionId", "1931"); ("title", "C")]])
    = Ok essentials /\
    upload_file_to_kv second_write_fails "problems.csv" (-1) false initial_state
    = (Ok (success_count, failed_count), s') /\
    map fst (writes s') = ["essentials"] /\
    (success_count + failed_count)%nat = 1%nat.
Proof.
  destruct (negative_batch_size_writes_no_problem second_write_fails
              "problems.csv" three_rows_content
              (csv_problems [[("frontendQuestionId", "1262"); ("title", "A")];
                             [("frontendQuestionId", "1500"); ("title", "B")];
                             [("frontendQuestionId", "1931"); ("title", "C")]])
              (-1) false initial_state eq_refl eq_refl
              ltac:(vm_compute; discriminate) ltac:(lia))
    as [e [sc [fc [s' [Ec [Eu [Hw Hsum]]]]]]].
  exists e, sc, fc, s'. split; [exact Ec|]. split; [exact Eu|].
  split; [rewrite Hw; reflexivity|exact Hsum].
Defined.

Lemma upload_file_to_kv_unparsed (w : world) (file_path : string) (f : file)
  (b : Z) (skip : bool) (s : state) :
  files w file_path = Some f ->
  match read_outcome file_path f with
  | Raise e =>
      exists s', upload_file_to_kv w file_path b skip s = (Raise e, s') /\
                 requests s' = requests s /\ writes s' = writes s
  | Ok None =>
      exists s', upload_file_to_kv w file_path b skip s = (Ok (0, 0)%nat, s') /\
                 requests s' = requests s /\ writes s' = writes s
  | Ok (Some _) => True
  end.
Proof.
  intros Hf.
  destruct (read_and_parse_outcome w file_path f
              {| log := ((log s ++ [(INFO, StartingUpload file_path)])
                         ++ [(INFO, ReadingAndParsing)])%list;
                 requests := requests s; writes := writes s;
                 bulk_calls := bulk_calls s |} Hf)
    as [r [s1 [E [Hr [Hw Ho]]]]].
  cbn [requests writes] in Hr, Hw.
  destruct (read_outcome file_path f) as [[problems|]|e]; [exact I| |]; subst r.
  - exists s1. split; [|split; assumption].
    unfold upload_file_to_kv.
    unfold bindM at 1. cbn [logging]. unfold bindM at 1. cbn [logging].
    cbn [log requests writes bulk_calls]. unfold bindM at 1. rewrite E. reflexivity.
  - exists s1. split; [|split; assumption].
    unfold upload_file_to_kv.
    unfold bindM at 1. cbn [logging]. unfold bindM at 1. cbn [logging].
    cbn [log requests writes bulk_calls]. unfold bindM at 1. rewrite E. reflexivity.
Qed.

(** X5: the exit code of [main], in every case.  It is 1 when the file does
    not exist, when reading the file raises, and when a valid problem meets a
    batch size of zero; it is 0 in every other case, among them a document
    of the wrong shape and a file without a valid problem, and whatever the
    store answers to the writes. *)
Theorem main_exit_code :
  forall (w : world) (a : args) (s : state),
    fst (main w a s)
    = match files w (csv a) with
      | None => 1
      | Some f =>
          match read_outcome (csv a) f with
          | Raise _ => 1
          | Ok None => 0
          | Ok (Some []) => 0
          | Ok (Some (_ :: _)) => if batch_size a =? 0 then 1 else 0
          end
      end.
Proof.
  intros w a s.
  destruct (files w (csv a)) as [f|] eqn:Hf.
  2: { unfold main. rewrite Hf. reflexivity. }
  pose proof (upload_file_to_kv_unparsed w (csv a) f (batch_size a)
                (skip_essentials a) s Hf) as U.
  destruct (read_outcome (csv a) f) as [[problems|]|e] eqn:Ho.
  - clear U. destruct problems as [|p0 rest].
    + apply read_outcome_parsed in Ho.
      destruct (upload_file_to_kv_no_problems w (csv a) f (batch_size a)
                  (skip_essentials a) s Hf Ho) as [s1 [Eu _]].
      destruct (main_completes w a f s s1 0%nat 0%nat Hf Eu) as [s' [E _]].
      rewrite E. reflexivity.
    + set (problems := p0 :: rest) in *.
      assert (Hne : problems <> []) by discriminate.
      destruct (Z.eqb_spec (batch_size a) 0) as [Z0|NZ].
      * destruct (main_batch_size_zero w a f problems s Hf Ho Hne Z0)
          as [s' [E _]].
        rewrite E. reflexivity.
      * assert (Hc : 0 < batch_size a \/ batch_size a < 0) by lia.
        destruct Hc as [Hp|Hm].
        -- destruct (upload_file_to_kv_positive w (csv a) f problems
                       (batch_size a) (skip_essentials a) s Hf Ho Hne Hp)
             as [e [sc [fc [s1 [_ [Eu _]]]]]].
           destruct (main_completes w a f s s1 sc fc Hf Eu) as [s' [E _]].
           rewrite E. reflexivity.
        -- destruct (upload_file_to_kv_negative w (csv a) f problems
                       (batch_size a) (skip_essentials a) s Hf Ho Hne Hm)
             as [e [sc [fc [s1 [_ [Eu _]]]]]].
           destruct (main_completes w a f s s1 sc fc Hf Eu) as [s' [E _]].
           rewrite E. reflexivity.
  - destruct U as [s1 [Eu _]].
    destruct (main_completes w a f s s1 0%nat 0%nat Hf Eu) as [s' [E _]].
    rewrite E. reflexivity.
  - destruct U as [s1 [Eu _]].
    destruct (main_raises w a f s s1 e Hf Eu) as [s' [E _]].
    rewrite E. reflexivity.
Qed.




(* ================================================================== *)
(** * Further properties of the tabular normaliser *)

(** An accepted row gives the problem that the last lines assemble from the
    identifier and the three numeric fields. *)
Lemma parse_csv_row_assembled (row : Row) (p : dict) :
  fst (parse_csv_row row) = Ok (Some p) ->
  exists (n : Z) (acceptance_rate : value) (likes dislikes : Z),
    PyNum.py_int (PyStr.strip (row_get row "frontendQuestionId" "")) = Ok n /\
    should_process_problem n = true /\
    parse_acceptance_rate row = Ok acceptance_rate /\
    parse_count row "likes" = Ok likes /\
    parse_count row "dislikes" = Ok dislikes /\
    p = assembled_problem row n acceptance_rate likes dislikes.
Proof.
  unfold parse_csv_row. intros H.
  destruct (parse_csv_row_body row) as [r|e] eqn:E; cbn [fst] in H;
    [|discriminate H].
  inversion H. subst r. clear H.
  unfold parse_csv_row_body in E.
  destruct (PyStr.nonempty _); cbn [negb] in E; [|discriminate E].
  destruct (PyNum.py_int _) as [n|e]; cbn [bind] in E; [|discriminate E].
  destruct (should_process_problem n) eqn:Hf; cbn [negb] in E; [|discriminate E].
  destruct (parse_acceptance_rate_ok row) as [ar Har].
  destruct (parse_count_ok row "likes") as [likes Hl].
  destruct (parse_count_ok row "dislikes") as [dislikes Hd].
  rewrite Har, Hl, Hd in E. cbn [bind] in E. cbv zeta in E.
  inversion E. exists n, ar, likes, dislikes.
  repeat split; try assumption; reflexivity.
Qed.

Lemma assembled_problem_metadata (row : Row) (n : Z) (ar : value) (l d : Z) :
  Dict.get (assembled_problem row n ar l d) "metadata"
  = Some (VDict (metadata_of row (parse_list_column row "topics")
                   (parse_list_column row "hints")
                   (parse_list_column row "similar_questions") ar l d)).
Proof.
  unfold assembled_problem. cbv zeta.
  rewrite assembled_get.
  - reflexivity.
  - apply metadata_of_not_nil.
  - apply solution_codes_get_other. reflexivity.
Qed.

(** X7: for rows whose columns all hold text, as the reader yields them
    for the lines that have as many fields as the header, whether
    [parse_csv_row] keeps a row, and under which id, depends on the
    identifier column alone: two such rows with the same identifier text
    are both kept, with the same id, or both dropped, whatever text their
    other columns hold.  (A line with fewer or more fields than the header
    gives a row that holds [None] or a list, which [Row] leaves out.) *)
Theorem parse_csv_row_decided_by_identifier :
  forall (row row' : Row) (p : dict),
    row_get row "frontendQuestionId" "" = row_get row' "frontendQuestionId" "" ->
    fst (parse_csv_row row) = Ok (Some p) ->
    exists p',
      fst (parse_csv_row row') = Ok (Some p') /\
      Dict.get p' "id" = Dict.get p "id".
Proof.
  intros row row' p Hid H.
  apply parse_csv_row_inv in H.
  destruct H as [n [Ht [Hn [Hf [Hi _]]]]].
  rewrite Hid in Ht, Hn.
  destruct (proj2 (parse_csv_row_accepts_iff row')) as [p' Hp'].
  { split; [exact Ht|]. exists n. auto. }
  exists p'. split; [exact Hp'|].
  apply parse_csv_row_inv in Hp'.
  destruct Hp' as [m [_ [Hm [_ [Hi' _]]]]].
  rewrite Hn in Hm. inversion Hm. subst m. congruence.
Qed.

Lemma parse_csv_row_decided_by_identifier_witness :
  exists p',
    fst (parse_csv_row row_same_identifier) = Ok (Some p') /\
    Dict.get p' "id" = Dict.get problem_of_row_int_id "id".
Proof.
  apply (parse_csv_row_decided_by_identifier row_int_id row_same_identifier).
  - reflexivity.
  - vm_compute. reflexivity.
Defined.

Lemma solution_codes_get (row : Row) (key : string) :
  In key solution_code_keys ->
  Dict.get (if truthy (VDict (solution_codes_of row))
            then Dict.update
                   [("id", VNone); ("difficulty", VNone); ("title", VNone);
                    ("titleSlug", VNone); ("url", VNone); ("description", VNone)]
                   (solution_codes_of row)
            else [("id", VNone); ("difficulty", VNone); ("title", VNone);
                  ("titleSlug", VNone); ("url", VNone); ("description", VNone)])
    key
  = match Dict.get row key with
    | Some code => if PyStr.nonempty code then Some (VStr code) else None
    | None => None
    end.
Proof.
  intros Hk. unfold solution_codes_of. cbn [fold_left].
  change ("solution_code_" ++ "python") with "solution_code_python".
  change ("solution_code_" ++ "java") with "solution_code_java".
  change ("solution_code_" ++ "cpp") with "solution_code_cpp".
  destruct Hk as [<-|[<-|[<-|[]]]];
    (destruct (Dict.get row "solution_code_python") as [c1|];
     [destruct (PyStr.nonempty c1)|]);
    (destruct (Dict.get row "solution_code_java") as [c2|];
     [destruct (PyStr.nonempty c2)|]);
    (destruct (Dict.get row "solution_code_cpp") as [c3|];
     [destruct (PyStr.nonempty c3)|]);
    reflexivity.
Qed.

(** The fields of the first dictionary literal do not matter to what is
    stored under a solution key. *)
Lemma update_get_codes (base base' other : dict) (key : string) :
  Dict.get base key = Dict.get base' key ->
  Dict.get (Dict.update base other) key = Dict.get (Dict.update base' other) key.
Proof.
  unfold Dict.update. revert base base'.
  induction other as [|[k v] other IH]; intros base base' H; cbn [fold_left].
  - exact H.
  - apply IH. cbn [fst snd]. rewrite !get_set. rewrite H. reflexivity.
Qed.

(** X8: an accepted row carries a solution under [solution_code_python],
    [solution_code_java] or [solution_code_cpp] exactly when the row holds a
    non-empty text in that column, and then the text is stored as it is, not
    stripped; otherwise the key is absent from the problem. *)
Theorem solution_codes_attached :
  forall (row : Row) (p : dict) (key : string),
    fst (parse_csv_row row) = Ok (Some p) ->
    In key solution_code_keys ->
    Dict.get p key
    = match Dict.get row key with
      | Some code => if PyStr.nonempty code then Some (VStr code) else None
      | None => None
      end.
Proof.
  intros row p key H Hk.
  apply parse_csv_row_assembled in H.
  destruct H as [n [ar [l [d [_ [_ [_ [_ [_ ->]]]]]]]]].
  unfold assembled_problem. cbv zeta.
  set (md := metadata_of _ _ _ _ _ _ _).
  assert (Hmd : md <> []) by apply metadata_of_not_nil.
  assert (Ht : truthy (VDict md) = true)
    by (destruct md; [contradiction|reflexivity]).
  rewrite Ht, get_set.
  assert (Hm : String.eqb key "metadata" = false)
    by (destruct Hk as [<-|[<-|[<-|[]]]]; reflexivity).
  rewrite Hm. rewrite <- (solution_codes_get row key Hk).
  destruct (truthy (VDict (solution_codes_of row))).
  - apply update_get_codes.
    destruct Hk as [<-|[<-|[<-|[]]]]; reflexivity.
  - destruct Hk as [<-|[<-|[<-|[]]]]; reflexivity.
Qed.

Lemma solution_codes_attached_witness :
  Dict.get (assembled_problem row_with_extras 1931
              (VFloat (S754_finite false 6403555720167424 (-47))) 0 0)
    "solution_code_python"
  = Some (VStr "x = 1").
Proof.
  apply (solution_codes_attached row_with_extras).
  - vm_compute. reflexivity.
  - left. reflexivity.
Defined.

Lemma nonempty_strip (v : string) :
  PyStr.nonempty v && PyStr.nonempty (PyStr.strip v)
  = PyStr.nonempty (PyStr.strip v).
Proof.
  destruct v; reflexivity.
Qed.

Lemma add_other_columns_absent (row : Row) (metadata : dict) (key : string) :
  ~ In key (map fst row) ->
  Dict.get (add_other_columns row metadata) key = Dict.get metadata key.
Proof.
  unfold add_other_columns. revert metadata.
  induction row as [|[k v] row IH]; intros metadata Hk; cbn [fold_left].
  - reflexivity.
  - cbn [map fst] in Hk. rewrite IH by (intros X; apply Hk; right; exact X).
    destruct (negb _); [|reflexivity].
    destruct (_ && _); [|reflexivity].
    rewrite get_set.
    destruct (String.eqb_spec key k) as [->|]; [|reflexivity].
    exfalso. apply Hk. left. reflexivity.
Qed.

Lemma add_other_columns_unrecognized (row : Row) (metadata : dict) (key : string) :
  NoDup (map fst row) ->
  unrecognized key = true ->
  Dict.get (add_other_columns row metadata) key
  = match Dict.get row key with
    | Some v =>
        if PyStr.nonempty (PyStr.strip v) then Some (VStr (PyStr.strip v))
        else Dict.get metadata key
    | None => Dict.get metadata key
    end.
Proof.
  intros Hn Hu. revert metadata.
  induction row as [|[k v] row IH]; intros metadata.
  - reflexivity.
  - cbn [map fst] in Hn. inversion Hn as [|? ? Hk Hn']; subst.
    cbn [Dict.get]. destruct (String.eqb_spec key k) as [->|Hne].
    + change (add_other_columns ((k, v) :: row) metadata)
        with (add_other_columns row
                (if negb (existsb (String.eqb k) recognized_columns) then
                   if PyStr.nonempty v && PyStr.nonempty (PyStr.strip v)
                   then Dict.set metadata k (VStr (PyStr.strip v))
                   else metadata
                 else metadata)).
      rewrite add_other_columns_absent by exact Hk.
      unfold unrecognized in Hu. rewrite Hu, nonempty_strip.
      destruct (PyStr.nonempty (PyStr.strip v)); [|reflexivity].
      rewrite get_set, String.eqb_refl. reflexivity.
    + change (add_other_columns ((k, v) :: row) metadata)
        with (add_other_columns row
                (if negb (existsb (String.eqb k) recognized_columns) then
                   if PyStr.nonempty v && PyStr.nonempty (PyStr.strip v)
                   then Dict.set metadata k (VStr (PyStr.strip v))
                   else metadata
                 else metadata)).
      rewrite (IH Hn').
      destruct (Dict.get row key) as [v0|];
        [destruct (PyStr.nonempty (PyStr.strip v0)); [reflexivity|]|];
        (destruct (negb _); [|reflexivity];
         destruct (_ && _); [|reflexivity];
         rewrite get_set;
         destruct (String.eqb_spec key k); [contradiction|reflexivity]).
Qed.

Lemma existsb_false_In (key : string) (l : list string) (k : string) :
  existsb (String.eqb key) l = false -> In k l -> String.eqb key k = false.
Proof.
  intros H Hk. destruct (String.eqb key k) eqn:E; [|reflexivity].
  rewrite <- H. symmetry. apply existsb_exists. exists k. auto.
Qed.

(** The metadata before the loop over the other columns holds only names
    of [metadata_keys]. *)
Lemma metadata_before_loop (similar : list string)
  (c t h ar l d : value) (key : string) :
  existsb (String.eqb key) metadata_keys = false ->
  Dict.get (if truthy (str_list similar)
            then Dict.set [("category", c); ("topics", t); ("hints", h);
                           ("acceptance_rate", ar); ("likes", l); ("dislikes", d)]
                   "similar_questions" (str_list similar)
            else [("category", c); ("topics", t); ("hints", h);
                  ("acceptance_rate", ar); ("likes", l); ("dislikes", d)]) key
  = None.
Proof.
  intros H.
  assert (G : forall k, In k metadata_keys -> String.eqb key k = false)
    by (intros k; apply existsb_false_In; exact H).
  destruct (truthy _); [rewrite get_set|]; cbn [Dict.get];
    rewrite ?(G "similar_questions"), (G "category"), (G "topics"),
      (G "hints"), (G "acceptance_rate"), (G "likes"), (G "dislikes");
    try reflexivity; cbn; tauto.
Qed.

Lemma unrecognized_not_metadata_key (key : string) :
  unrecognized key = true -> existsb (String.eqb key) metadata_keys = false.
Proof.
  unfold unrecognized. intros H. apply negb_true_iff in H.
  destruct (existsb (String.eqb key) metadata_keys) eqn:E; [|reflexivity].
  apply existsb_exists in E. destruct E as [k [Hk Ek]].
  rewrite <- H. symmetry. apply existsb_exists. exists k. split; [|exact Ek].
  cbn in Hk. cbn. tauto.
Qed.

(** X9: every column of an accepted row that is outside the recognised
    schema and holds more than blanks is kept in the metadata, under its own
    name, as its stripped text; a column that is absent or blank leaves no
    entry. *)
Theorem other_columns_kept_in_metadata :
  forall (row : Row) (p : dict) (key : string),
    NoDup (map fst row) ->
    fst (parse_csv_row row) = Ok (Some p) ->
    unrecognized key = true ->
    exists m : dict,
      Dict.get p "metadata" = Some (VDict m) /\
      Dict.get m key
      = match Dict.get row key with
        | Some v =>
            if PyStr.nonempty (PyStr.strip v)
            then Some (VStr (PyStr.strip v)) else None
        | None => None
        end.
Proof.
  intros row p key Hn H Hu.
  apply parse_csv_row_assembled in H.
  destruct H as [n [ar [l [d [_ [_ [_ [_ [_ ->]]]]]]]]].
  eexists. split; [apply assembled_problem_metadata|].
  unfold metadata_of. cbv zeta.
  rewrite add_other_columns_unrecognized by assumption.
  rewrite metadata_before_loop
    by (apply unrecognized_not_metadata_key; exact Hu).
  destruct (Dict.get row key) as [v|]; [|reflexivity].
  destruct (PyStr.nonempty (PyStr.strip v)); reflexivity.
Qed.

Lemma other_columns_kept_in_metadata_witness :
  exists m : dict,
    Dict.get (assembled_problem row_with_extras 1931
                (VFloat (S754_finite false 6403555720167424 (-47))) 0 0)
      "metadata" = Some (VDict m) /\
    Dict.get m "company" = Some (VStr "Acme").
Proof.
  apply (other_columns_kept_in_metadata row_with_extras).
  - cbn. repeat constructor; cbn; intuition discriminate.
  - vm_compute. reflexivity.
  - reflexivity.
Defined.

(** X10: the columns [paidOnly], [description_url], [solution_url],
    [solution], [solution_code_url] and [stats] of an accepted row are
    dropped: whatever they hold, the problem has no entry under their name,
    neither at the top nor in its metadata. *)
Theorem recognised_columns_dropped :
  forall (row : Row) (p : dict) (key : string),
    fst (parse_csv_row row) = Ok (Some p) ->
    In key ["paidOnly"; "description_url"; "solution_url"; "solution";
            "solution_code_url"; "stats"] ->
    Dict.get p key = None /\
    exists m : dict,
      Dict.get p "metadata" = Some (VDict m) /\ Dict.get m key = None.
Proof.
  intros row p key H Hk.
  apply parse_csv_row_assembled in H.
  destruct H as [n [ar [l [d [_ [_ [_ [_ [_ ->]]]]]]]]].
  split.
  - unfold assembled_problem. cbv zeta.
    rewrite assembled_get.
    + destruct Hk as [<-|[<-|[<-|[<-|[<-|[<-|[]]]]]]]; reflexivity.
    + apply metadata_of_not_nil.
    + apply solution_codes_get_other.
      destruct Hk as [<-|[<-|[<-|[<-|[<-|[<-|[]]]]]]]; reflexivity.
  - eexists. split; [apply assembled_problem_metadata|].
    unfold metadata_of. cbv zeta.
    rewrite add_other_columns_get
      by (destruct Hk as [<-|[<-|[<-|[<-|[<-|[<-|[]]]]]]]; reflexivity).
    apply metadata_before_loop.
    destruct Hk as [<-|[<-|[<-|[<-|[<-|[<-|[]]]]]]]; reflexivity.
Qed.

Lemma recognised_columns_dropped_witness :
  Dict.get problem_of_row_int_id "stats" = None /\
  exists m : dict,
    Dict.get problem_of_row_int_id "metadata" = Some (VDict m) /\
    Dict.get m "stats" = None.
Proof.
  apply (recognised_columns_dropped
           (row_int_id ++ [("stats", "12 likes")])%list).
  - vm_compute. reflexivity.
  - do 5 right. left. reflexivity.
Defined.

Lemma nonempty_false (v : string) : PyStr.nonempty v = false -> v = "".
Proof.
  destruct v; [reflexivity|discriminate].
Qed.

Lemma row_get_default (row : Row) (column default : string) :
  PyStr.nonempty (PyStr.strip (row_get row column "")) = true ->
  row_get row column default = row_get row column "".
Proof.
  unfold row_get. destruct (Dict.get row column); [reflexivity|discriminate].
Qed.

Lemma parse_count_value (row : Row) (column : string) :
  parse_count row column
  = Ok (match PyNum.py_int (PyStr.strip (row_get row column "")) with
        | Ok n => n
        | Raise _ => 0
        end).
Proof.
  unfold parse_count.
  destruct (PyStr.nonempty (PyStr.strip (row_get row column ""))) eqn:E.
  - rewrite (row_get_default row column "0" E).
    destruct (PyNum.py_int _) as [n|e] eqn:En; [reflexivity|].
    rewrite (py_int_raises _ _ En). reflexivity.
  - rewrite (nonempty_false _ E). reflexivity.
Qed.

Lemma parse_acceptance_rate_value (row : Row) :
  parse_acceptance_rate row
  = Ok (match PyNum.py_float
                (PyStr.strip
                   (PyStr.remove_char "%"
                      (PyStr.strip (row_get row "acceptance_rate" "")))) with
        | Ok x => VFloat x
        | Raise _ => VNone
        end).
Proof.
  unfold parse_acceptance_rate.
  destruct (PyStr.nonempty (PyStr.strip (row_get row "acceptance_rate" ""))) eqn:E.
  - destruct (PyNum.py_float _) as [x|e] eqn:Ex; [reflexivity|].
    rewrite (py_float_raises _ _ Ex). reflexivity.
  - rewrite (nonempty_false _ E). reflexivity.
Qed.

Lemma metadata_of_get (row : Row) (topics hints similar : list string)
  (ar : value) (l d : Z) (key : string) :
  unrecognized key = false ->
  Dict.get (metadata_of row topics hints similar ar l d) key
  = Dict.get (if truthy (str_list similar)
              then Dict.set
                     [("category", VStr (PyStr.strip (row_get row "category" "")));
                      ("topics", str_list topics); ("hints", str_list hints);
                      ("acceptance_rate", ar); ("likes", VInt l);
                      ("dislikes", VInt d)]
                     "similar_questions" (str_list similar)
              else [("category", VStr (PyStr.strip (row_get row "category" "")));
                    ("topics", str_list topics); ("hints", str_list hints);
                    ("acceptance_rate", ar); ("likes", VInt l);
                    ("dislikes", VInt d)]) key.
Proof.
  intros H. unfold metadata_of. cbv zeta.
  apply add_other_columns_get. unfold unrecognized in H.
  apply negb_false_iff in H. exact H.
Qed.

(** X11: a malformed number never costs the row.  In the metadata of an
    accepted row, [likes] and [dislikes] are the integer that the stripped
    text spells, and 0 when it spells none or is missing; the acceptance rate
    is the float that the stripped text spells once its percent signs are
    removed, and [None] otherwise. *)
Theorem malformed_numbers_default :
  forall (row : Row) (p : dict),
    fst (parse_csv_row row) = Ok (Some p) ->
    exists m : dict,
      Dict.get p "metadata" = Some (VDict m) /\
      Dict.get m "likes"
      = Some (VInt (match PyNum.py_int (PyStr.strip (row_get row "likes" "")) with
                    | Ok n => n
                    | Raise _ => 0
                    end)) /\
      Dict.get m "dislikes"
      = Some (VInt (match PyNum.py_int (PyStr.strip (row_get row "dislikes" "")) with
                    | Ok n => n
                    | Raise _ => 0
                    end)) /\
      Dict.get m "acceptance_rate"
      = Some (match PyNum.py_float
                      (PyStr.strip
                         (PyStr.remove_char "%"
                            (PyStr.strip (row_get row "acceptance_rate" "")))) with
              | Ok x => VFloat x
              | Raise _ => VNone
              end).
Proof.
  intros row p H.
  apply parse_csv_row_assembled in H.
  destruct H as [n [ar [l [d [_ [_ [Har [Hl [Hd ->]]]]]]]]].
  rewrite parse_count_value in Hl, Hd. rewrite parse_acceptance_rate_value in Har.
  inversion Hl. inversion Hd. inversion Har.
  eexists. split; [apply assembled_problem_metadata|].
  rewrite !metadata_of_get by reflexivity.
  destruct (truthy _); rewrite ?get_set; repeat split; reflexivity.
Qed.

Lemma malformed_numbers_default_witness :
  exists m : dict,
    Dict.get (assembled_problem row_with_extras 1931
                (VFloat (S754_finite false 6403555720167424 (-47))) 0 0)
      "metadata" = Some (VDict m) /\
    Dict.get m "likes" = Some (VInt 0) /\
    Dict.get m "dislikes" = Some (VInt 0) /\
    Dict.get m "acceptance_rate"
    = Some (VFloat (S754_finite false 6403555720167424 (-47))).
Proof.
  apply (malformed_numbers_default row_with_extras).
  vm_compute. reflexivity.
Defined.

(** X12: the metadata of an accepted row always holds [topics] and [hints]
    as lists of strings, empty when the column is missing or blank, while
    [similar_questions] is present only when the column yields at least one
    item. *)
Theorem list_columns_in_metadata :
  forall (row : Row) (p : dict),
    fst (parse_csv_row row) = Ok (Some p) ->
    exists m : dict,
      Dict.get p "metadata" = Some (VDict m) /\
      Dict.get m "topics" = Some (str_list (parse_list_column row "topics")) /\
      Dict.get m "hints" = Some (str_list (parse_list_column row "hints")) /\
      Dict.get m "similar_questions"
      = match parse_list_column row "similar_questions" with
        | [] => None
        | items => Some (str_list items)
        end /\
      (forall column : string,
          PyStr.strip (row_get row column "") = "" ->
          parse_list_column row column = []).
Proof.
  intros row p H.
  apply parse_csv_row_assembled in H.
  destruct H as [n [ar [l [d [_ [_ [_ [_ [_ ->]]]]]]]]].
  eexists. split; [apply assembled_problem_metadata|].
  rewrite !metadata_of_get by reflexivity.
  split; [|split; [|split]].
  - destruct (truthy _); rewrite ?get_set; reflexivity.
  - destruct (truthy _); rewrite ?get_set; reflexivity.
  - destruct (parse_list_column row "similar_questions"); reflexivity.
  - intros column E. unfold parse_list_column. rewrite E. reflexivity.
Qed.

Lemma list_columns_in_metadata_witness :
  exists m : dict,
    Dict.get (assembled_problem row_same_identifier 1931 VNone 7 0) "metadata"
    = Some (VDict m) /\
    Dict.get m "topics" = Some (VList [VStr "x"]) /\
    Dict.get m "hints" = Some (VList []) /\
    Dict.get m "similar_questions" = None /\
    (forall column : string,
        PyStr.strip (row_get row_same_identifier column "") = "" ->
        parse_list_column row_same_identifier column = []).
Proof.
  apply (list_columns_in_metadata row_same_identifier).
  vm_compute. reflexivity.
Defined.

(* ================================================================== *)
(** * Further properties of the structured normaliser *)


(* ================================================================== *)
(** * Keys *)

Lemma str_of_Z_injective (a b : Z) :
  PyStr.str_of_Z a = PyStr.str_of_Z b -> a = b.
Proof.
  unfold PyStr.str_of_Z. intros H.
  assert (N : forall z, Z.to_int z <> Decimal.Pos Decimal.Nil
                        /\ Z.to_int z <> Decimal.Neg Decimal.Nil).
  { intros [|p|p]; cbn; split; try discriminate;
      intros E; inversion E as [E'];
      exact (DecimalPos.Unsigned.to_uint_nonnil p E'). }
  assert (E : Some (Z.to_int a) = Some (Z.to_int b)).
  { rewrite <- (NilZero.isi (Z.to_int a)) by apply N.
    rewrite <- (NilZero.isi (Z.to_int b)) by apply N.
    rewrite H. reflexivity. }
  inversion E as [E'].
  rewrite <- (DecimalZ.of_to a), <- (DecimalZ.of_to b), E'. reflexivity.
Qed.

Lemma problem_key_injective (p q : dict) :
  fst (problem_entry_of p) = fst (problem_entry_of q) -> int_id p = int_id q.
Proof.
  unfold problem_entry_of. cbn [fst]. intros H.
  apply str_of_Z_injective.
  change ("problem:" ++ PyStr.str_of_Z (int_id p))
    with (String "p" (String "r" (String "o" (String "b" (String "l"
           (String "e" (String "m" (String ":" (PyStr.str_of_Z (int_id p))))))))))
    in H.
  inversion H. reflexivity.
Qed.

(** X14: problems with distinct ids are written under distinct keys, and
    none of these keys is the key of the essentials: in a run over problems
    with distinct ids no write overwrites another. *)
Theorem written_keys_distinct :
  forall (w : world) (file_path : string) (f : file) (problems : list dict)
         (b : Z) (skip : bool) (s : state),
    files w file_path = Some f ->
    read_outcome file_path f = Ok (Some problems) ->
    problems <> [] ->
    0 < b ->
    NoDup (map int_id problems) ->
    exists (counts : nat * nat) (s' : state) (written : list (string * value)),
      upload_file_to_kv w file_path b skip s = (Ok counts, s') /\
      writes s' = (writes s ++ written)%list /\
      NoDup (map fst written).
Proof.
  intros w file_path f problems b skip s Hf Hr Hne Hb Hd.
  destruct (upload_file_to_kv_positive w file_path f problems b skip s
              Hf Hr Hne Hb)
    as [e [sc [fc [s' [_ [Eu [Hw _]]]]]]].
  eexists; exists s'; eexists. split; [exact Eu|]. split; [exact Hw|].
  rewrite map_app.
  assert (K : NoDup (map fst (map problem_entry_of problems))).
  { clear - Hd. induction problems as [|p rest IH]; cbn [map].
    - constructor.
    - cbn [map] in Hd. inversion Hd as [|? ? Hp Hd']; subst.
      constructor; [|apply IH; exact Hd'].
      intros Hin. apply Hp. rewrite map_map in Hin.
      apply in_map_iff in Hin. destruct Hin as [q [Eq Hq]].
      apply in_map_iff. exists q. split; [|exact Hq].
      symmetry. apply problem_key_injective. symmetry. exact Eq. }
  assert (E : forall q, In q problems ->
                        fst (problem_entry_of q) <> "essentials").
  { intros q _. unfold problem_entry_of. cbn [fst]. discriminate. }
  destruct skip; cbn [map].
  - rewrite app_nil_r. exact K.
  - apply NoDup_app; [exact K|repeat constructor; intros []|].
    intros k Hk [<-|[]]. rewrite map_map in Hk.
    apply in_map_iff in Hk. destruct Hk as [q [Eq Hq]].
    exact (E q Hq Eq).
Qed.

Lemma written_keys_distinct_witness :
  exists (counts : nat * nat) (s' : state) (written : list (string * value)),
    upload_file_to_kv second_write_fails "problems.csv" 50 false initial_state
    = (Ok counts, s') /\
    writes s' = (writes initial_state ++ written)%list /\
    NoDup (map fst written).
Proof.
  apply (written_keys_distinct second_write_fails "problems.csv"
           three_rows_content
           (csv_problems [[("frontendQuestionId", "1262"); ("title", "A")];
                          [("frontendQuestionId", "1500"); ("title", "B")];
                          [("frontendQuestionId", "1931"); ("title", "C")]])).
  - reflexivity.
  - reflexivity.
  - vm_compute. discriminate.
  - lia.
  - vm_compute. repeat constructor; cbn; intuition discriminate.
Defined.

(* ================================================================== *)
(** * Further properties of the essentials builder *)

Lemma insert_by_key_filter {A : Type} (k : Z) (x : Z * A) (l : list (Z * A)) :
  filter (fun y => fst y =? k) (insert_by_key x l)
  = filter (fun y => fst y =? k) (x :: l).
Proof.
  induction l as [|y t IH]; cbn [insert_by_key].
  - reflexivity.
  - destruct (Z.leb_spec (fst x) (fst y)) as [L|L]; [reflexivity|].
    cbn [filter] in *. rewrite IH.
    destruct (Z.eqb_spec (fst x) k), (Z.eqb_spec (fst y) k);
      try reflexivity. lia.
Qed.

(** The sort is stable: the elements under one key keep their order. *)
Lemma sort_by_key_stable {A : Type} (k : Z) (l : list (Z * A)) :
  filter (fun y => fst y =? k) (sort_by_key l)
  = filter (fun y => fst y =? k) l.
Proof.
  induction l as [|x l IH]; cbn [sort_by_key fold_right].
  - reflexivity.
  - fold (sort_by_key l). rewrite insert_by_key_filter.
    cbn [filter]. rewrite IH. reflexivity.
Qed.

Lemma sorted_le_of_keyed (l : list (Z * dict)) :
  StronglySorted (fun x y => fst x <= fst y) l ->
  Forall (fun x => fst x = int_id (snd x)) l ->
  StronglySorted (fun a b => int_id a <= int_id b) (map snd l).
Proof.
  induction 1 as [|x l Hs IH Hf]; intros Hk; simpl.
  - constructor.
  - inversion Hk as [|? ? Kx Kl]; subst.
    constructor; [apply IH; exact Kl|].
    rewrite Forall_forall in *. intros e He.
    apply in_map_iff in He. destruct He as [y [<- Hy]].
    rewrite <- Kx, <- (Kl y Hy). apply Hf. exact Hy.
Qed.

Lemma filter_map_snd_keyed (k : Z) (l : list dict) :
  map snd (filter (fun y => fst y =? k) (map keyed l))
  = filter (fun e => int_id e =? k) l.
Proof.
  induction l as [|e l IH]; cbn.
  - reflexivity.
  - destruct (int_id e =? k); cbn; rewrite IH; reflexivity.
Qed.

Lemma filter_map_snd (k : Z) (l : list (Z * dict)) :
  Forall (fun x => fst x = int_id (snd x)) l ->
  filter (fun e => int_id e =? k) (map snd l)
  = map snd (filter (fun y => fst y =? k) l).
Proof.
  induction 1 as [|x l Hx Hl IH]; cbn.
  - reflexivity.
  - rewrite <- Hx. destruct (fst x =? k); cbn; rewrite IH; reflexivity.
Qed.

(** X15: [create_essentials_entry] neither drops nor merges problems, also
    when ids repeat: the index lists one summary per problem, in
    non-decreasing order of id, its count is the number of problems, and the
    summaries that share an id stand in the order in which their problems
    were given. *)
Theorem essentials_keeps_every_problem :
  forall problems : list dict,
    forallb normalized problems = true ->
    exists summaries : list dict,
      create_essentials_entry problems
      = Ok [("problems", VList (map VDict summaries));
            ("count", VInt (Z.of_nat (List.length problems)));
            ("last_updated", VNone)] /\
      Permutation summaries (map summary_of problems) /\
      StronglySorted (fun a b => int_id a <= int_id b) summaries /\
      (forall n : Z,
          filter (fun e => int_id e =? n) summaries
          = map summary_of (filter (fun p => int_id p =? n) problems)).
Proof.
  intros problems Hn.
  set (ks := map keyed (map summary_of problems)).
  assert (Hk : Forall (fun x => fst x = int_id (snd x)) (sort_by_key ks)).
  { eapply Permutation_Forall; [apply Permutation_sym, sort_by_key_perm|].
    unfold ks. apply Forall_forall. intros x Hx.
    apply in_map_iff in Hx. destruct Hx as [e [<- _]]. reflexivity. }
  assert (Hsnd : map snd ks = map summary_of problems).
  { unfold ks. rewrite map_map. simpl. apply map_id. }
  exists (map snd (sort_by_key ks)).
  rewrite create_essentials_entry_normalized by assumption. cbv zeta. fold ks.
  split.
  { rewrite length_map, (Permutation_length (sort_by_key_perm ks)).
    unfold ks. rewrite !length_map. reflexivity. }
  split; [rewrite <- Hsnd; apply Permutation_map, sort_by_key_perm|].
  split; [apply sorted_le_of_keyed; [apply sort_by_key_sorted|exact Hk]|].
  intros n. rewrite filter_map_snd by exact Hk.
  rewrite sort_by_key_stable. unfold ks. rewrite filter_map_snd_keyed.
  clear - Hn. induction problems as [|p rest IH]; cbn [map filter].
  - reflexivity.
  - cbn [forallb] in Hn. apply andb_prop in Hn. destruct Hn as [Hp Hrest].
    rewrite (int_id_summary_of p Hp).
    destruct (int_id p =? n); cbn [map]; rewrite (IH Hrest); reflexivity.
Qed.

Lemma essentials_keeps_every_problem_witness :
  exists summaries : list dict,
    create_essentials_entry (three_problems ++ three_problems)
    = Ok [("problems", VList (map VDict summaries));
          ("count", VInt 6);
          ("last_updated", VNone)] /\
    Permutation summaries (map summary_of (three_problems ++ three_problems)) /\
    StronglySorted (fun a b => int_id a <= int_id b) summaries /\
    (forall n : Z,
        filter (fun e => int_id e =? n) summaries
        = map summary_of
            (filter (fun p => int_id p =? n) (three_problems ++ three_problems))).
Proof.
  apply (essentials_keeps_every_problem (three_problems ++ three_problems)).
  reflexivity.
Defined.

(* ================================================================== *)
(** * Properties of the parsing test *)

Lemma test_rows_tally (rows : list Row) (t : TestUpload.tally) :
  forallb normalized (TestUpload.problems t) = true ->
  let t' := fold_left TestUpload.test_row rows t in
  forallb normalized (TestUpload.problems t') = true /\
  (TestUpload.failed_count t' =? 0)%nat
  = (TestUpload.failed_count t =? 0)%nat
    && forallb (fun row => match fst (parse_csv_row row) with
                           | Ok (Some _) => true
                           | _ => false
                           end) rows.
Proof.
  revert t. induction rows as [|row rest IH]; intros t Hn; cbn [fold_left forallb].
  - split; [exact Hn|]. rewrite andb_true_r. reflexivity.
  - assert (Hrow : forallb normalized
                     (TestUpload.problems (TestUpload.test_row t row)) = true
                   /\ (TestUpload.failed_count (TestUpload.test_row t row) =? 0)%nat
                      = (TestUpload.failed_count t =? 0)%nat
                        && match fst (parse_csv_row row) with
                           | Ok (Some _) => true
                           | _ => false
                           end).
    { unfold TestUpload.test_row.
      destruct (fst (parse_csv_row row)) as [[p|]|e] eqn:E.
      - apply parse_csv_row_inv in E.
        destruct E as [n [_ [_ [_ [_ [_ [Hp _]]]]]]].
        rewrite (normalized_truthy p Hp).
        cbn [TestUpload.problems TestUpload.failed_count].
        rewrite forallb_app, Hn. cbn [forallb andb].
        rewrite Hp, !andb_true_r. split; reflexivity.
      - cbn [TestUpload.problems TestUpload.failed_count Nat.eqb].
        rewrite andb_false_r. split; [exact Hn|reflexivity].
      - cbn [TestUpload.problems TestUpload.failed_count Nat.eqb].
        rewrite andb_false_r. split; [exact Hn|reflexivity]. }
    destruct Hrow as [Hn' Hf].
    destruct (IH (TestUpload.test_row t row) Hn') as [Hn'' Hf'].
    split; [exact Hn''|]. rewrite Hf', Hf, andb_assoc. reflexivity.
Qed.

(** X16: on a readable file [test_csv_parsing] raises [ZeroDivisionError]
    for a sample size of 0, and otherwise returns whether every row of the
    sample, the first [sample_size] rows, is kept by [parse_csv_row]: one
    row with a missing, malformed or filtered-out identifier makes the test
    fail, and a negative sample size makes it pass on any file. *)
Theorem test_csv_parsing_outcome :
  forall (rows : list Row) (sample_size : Z),
    TestUpload.test_csv_parsing (Ok rows) sample_size
    = if sample_size =? 0 then TestUpload.RaisedZeroDivisionError
      else TestUpload.Returned
             (forallb (fun row => match fst (parse_csv_row row) with
                                  | Ok (Some _) => true
                                  | _ => false
                                  end)
                      (firstn (Z.to_nat sample_size) rows)).
Proof.
  intros rows sample_size. unfold TestUpload.test_csv_parsing. cbv zeta.
  destruct (test_rows_tally (firstn (Z.to_nat sample_size) rows)
              {| TestUpload.problems := []; TestUpload.parsed_count := 0;
                 TestUpload.failed_count := 0 |} eq_refl) as [Hn Hf].
  cbv zeta in Hn, Hf. rewrite Hf. cbn [TestUpload.failed_count Nat.eqb andb].
  set (t := fold_left TestUpload.test_row _ _) in *.
  destruct (truthy (VList (map VDict (TestUpload.problems t)))).
  - rewrite (create_essentials_entry_normalized _ Hn). reflexivity.
  - reflexivity.
Qed.

(* ================================================================== *)
(** * Properties of the wrangler configuration update *)

Lemma set_set {A : Type} (d : list (string * A)) (k : string) (v v' : A) :
  Dict.set (Dict.set d k v) k v' = Dict.set d k v'.
Proof.
  induction d as [|[k0 v0] d IH]; cbn [Dict.set].
  - rewrite String.eqb_refl. reflexivity.
  - destruct (String.eqb k k0) eqn:E; cbn [Dict.set]; rewrite E.
    + reflexivity.
    + rewrite IH. reflexivity.
Qed.

Lemma is_kv_binding_set_id (ns ns' : value) (a : string) :
  SetupEnv.set_id ns a = Ok ns' ->
  SetupEnv.is_kv_binding ns' = SetupEnv.is_kv_binding ns /\
  (forall b, SetupEnv.set_id ns' b = SetupEnv.set_id ns b) /\
  value_get ns' "id" VNone = Ok (VStr a).
Proof.
  destruct ns as [| | | | | |d]; try discriminate.
  cbn. intros H. inversion H. subst ns'. clear H.
  unfold SetupEnv.is_kv_binding. cbn [value_get bind SetupEnv.set_id].
  rewrite !get_set. cbn [String.eqb Ascii.eqb Bool.eqb].
  repeat split. intros b. rewrite set_set. reflexivity.
Qed.

Lemma update_first_kv_again (l l1 : list value) (a b : string) :
  SetupEnv.update_first_kv l a = Ok (Some l1) ->
  SetupEnv.update_first_kv l1 b = SetupEnv.update_first_kv l b.
Proof.
  revert l1. induction l as [|ns rest IH]; intros l1; cbn [SetupEnv.update_first_kv].
  - discriminate.
  - destruct (SetupEnv.is_kv_binding ns) as [[|]|e] eqn:Ek; cbn [bind];
      [| |discriminate].
    + destruct (SetupEnv.set_id ns a) as [ns'|e] eqn:Es; cbn [bind];
        [|discriminate].
      intros H. inversion H. subst l1. clear H.
      destruct (is_kv_binding_set_id ns ns' a Es) as [K [S _]].
      cbn [SetupEnv.update_first_kv]. rewrite K, Ek. cbn [bind].
      rewrite S. reflexivity.
    + destruct (SetupEnv.update_first_kv rest a) as [[r|]|e] eqn:Er;
        cbn [bind option_map]; try discriminate.
      intros H. inversion H. subst l1. clear H.
      cbn [SetupEnv.update_first_kv]. rewrite Ek. cbn [bind].
      rewrite (IH r eq_refl). reflexivity.
Qed.

Lemma update_first_kv_none (l : list value) (a b : string) :
  SetupEnv.update_first_kv l a = Ok None ->
  SetupEnv.update_first_kv l b = Ok None /\
  SetupEnv.update_first_kv (l ++ [SetupEnv.new_kv_namespace a])%list b
  = Ok (Some (l ++ [SetupEnv.new_kv_namespace b])%list).
Proof.
  induction l as [|ns rest IH]; cbn [SetupEnv.update_first_kv app].
  - intros _. split; reflexivity.
  - destruct (SetupEnv.is_kv_binding ns) as [[|]|e] eqn:Ek; cbn [bind];
      [| |discriminate].
    + destruct (SetupEnv.set_id ns a); discriminate.
    + destruct (SetupEnv.update_first_kv rest a) as [[r|]|e] eqn:Er;
        cbn [bind option_map]; try discriminate.
      intros _. destruct (IH eq_refl) as [N A]. rewrite N, A.
      split; reflexivity.
Qed.

(** X17: the update of the wrangler configuration is a last write that
    wins: updating an updated configuration with a second id gives what
    updating the original with the second id gives, and updating it again
    with the same id changes nothing: the update is idempotent. *)
Theorem updated_config_last_wins :
  forall (config config1 : value) (a b : string),
    SetupEnv.updated_config config a = Ok config1 ->
    SetupEnv.updated_config config1 b = SetupEnv.updated_config config b /\
    SetupEnv.updated_config config1 a = Ok config1.
Proof.
  assert (G : forall (config config1 : value) (a b : string),
             SetupEnv.updated_config config a = Ok config1 ->
             SetupEnv.updated_config config1 b
             = SetupEnv.updated_config config b).
  { intros config config1 a b H.
    destruct config as [| | | | | |d]; try discriminate H.
    unfold SetupEnv.updated_config in *. cbv zeta in *.
    destruct (Dict.get d "kv_namespaces") as [v|] eqn:Ev.
    - unfold Dict.getitem in *. rewrite Ev in *. cbn [bind] in *.
      destruct v as [| | | | |l|]; try discriminate H.
      destruct (SetupEnv.update_first_kv l a) as [[l1|]|e] eqn:Eu;
        cbn [bind] in H; [| |discriminate H].
      + inversion H. subst config1. clear H.
        repeat (rewrite get_set; cbn [String.eqb Ascii.eqb Bool.eqb bind]).
        rewrite (update_first_kv_again l l1 a b Eu).
        destruct (SetupEnv.update_first_kv l b) as [[l2|]|e] eqn:Eb;
          cbn [bind]; rewrite ?set_set; try reflexivity.
        exfalso. destruct (update_first_kv_none l b a Eb) as [N _]. congruence.
      + inversion H. subst config1. clear H.
        repeat (rewrite get_set; cbn [String.eqb Ascii.eqb Bool.eqb bind]).
        destruct (update_first_kv_none l a b Eu) as [N A].
        rewrite A, N. cbn [bind]. rewrite set_set. reflexivity.
    - unfold Dict.getitem in *. rewrite get_set in *.
      cbn [String.eqb Ascii.eqb Bool.eqb bind SetupEnv.update_first_kv app] in *.
      inversion H. subst config1. clear H.
      rewrite !set_set.
      repeat (rewrite get_set; cbn [String.eqb Ascii.eqb Bool.eqb bind]).
      change (SetupEnv.update_first_kv [SetupEnv.new_kv_namespace a] b)
        with (Ok (Some [SetupEnv.new_kv_namespace b])).
      cbn [bind]. rewrite set_set. reflexivity. }
  intros config config1 a b H. split; [apply (G config config1 a b H)|].
  rewrite (G config config1 a a H). exact H.
Qed.

Lemma updated_config_last_wins_witness :
  SetupEnv.updated_config wrangler_config_updated "other"
  = SetupEnv.updated_config wrangler_config "other" /\
  SetupEnv.updated_config wrangler_config_updated "new"
  = Ok wrangler_config_updated.
Proof.
  apply (updated_config_last_wins wrangler_config wrangler_config_updated).
  reflexivity.
Defined.

Lemma update_first_kv_found (l l1 : list value) (a : string) :
  SetupEnv.update_first_kv l a = Ok (Some l1) ->
  exists (before : list value) (ns0 ns : value) (after : list value),
    l = (before ++ ns0 :: after)%list /\
    l1 = (before ++ ns :: after)%list /\
    Forall (fun x => SetupEnv.is_kv_binding x = Ok false) before /\
    SetupEnv.is_kv_binding ns0 = Ok true /\
    SetupEnv.set_id ns0 a = Ok ns.
Proof.
  revert l1. induction l as [|x rest IH]; intros l1; cbn [SetupEnv.update_first_kv].
  - discriminate.
  - destruct (SetupEnv.is_kv_binding x) as [[|]|e] eqn:Ek; cbn [bind];
      [| |discriminate].
    + destruct (SetupEnv.set_id x a) as [x'|e] eqn:Es; cbn [bind];
        [|discriminate].
      intros H. inversion H. subst l1.
      exists [], x, x', rest. repeat split; auto.
    + destruct (SetupEnv.update_first_kv rest a) as [[r|]|e] eqn:Er;
        cbn [bind option_map]; try discriminate.
      intros H. inversion H. subst l1.
      destruct (IH r eq_refl) as [before [ns0 [ns [after [E1 [E2 [F [K S]]]]]]]].
      exists (x :: before), ns0, ns, after. subst rest r.
      repeat split; auto.
Qed.

Lemma update_first_kv_not_found (l : list value) (a : string) :
  SetupEnv.update_first_kv l a = Ok None ->
  Forall (fun x => SetupEnv.is_kv_binding x = Ok false) l.
Proof.
  induction l as [|x rest IH]; cbn [SetupEnv.update_first_kv].
  - constructor.
  - destruct (SetupEnv.is_kv_binding x) as [[|]|e] eqn:Ek; cbn [bind];
      [| |discriminate].
    + destruct (SetupEnv.set_id x a); discriminate.
    + destruct (SetupEnv.update_first_kv rest a) as [[r|]|e] eqn:Er;
        cbn [bind option_map]; try discriminate.
      intros _. constructor; [exact Ek|apply IH; reflexivity].
Qed.

(** X18: when the update of the wrangler configuration succeeds, every
    other key of the configuration is left as it was, and the list under
    [kv_namespaces] holds the entries it held, in their order, with the id
    set in the first entry bound to KV; when no entry is bound to KV, or the
    key is missing, one new entry bound to KV with the id is added at the
    end. *)
Theorem updated_config_sets_first_kv :
  forall (d : dict) (a : string) (config1 : value),
    SetupEnv.updated_config (VDict d) a = Ok config1 ->
    exists (d1 : dict) (before : list value) (ns : value) (after : list value),
      config1 = VDict d1 /\
      (forall k : string,
          String.eqb k "kv_namespaces" = false -> Dict.get d1 k = Dict.get d k) /\
      Dict.get d1 "kv_namespaces" = Some (VList (before ++ ns :: after)) /\
      Forall (fun x => SetupEnv.is_kv_binding x = Ok false) before /\
      SetupEnv.is_kv_binding ns = Ok true /\
      value_get ns "id" VNone = Ok (VStr a) /\
      ((exists ns0 : value,
           Dict.get d "kv_namespaces" = Some (VList (before ++ ns0 :: after)) /\
           SetupEnv.set_id ns0 a = Ok ns)
       \/ (after = [] /\ ns = SetupEnv.new_kv_namespace a /\
           (Dict.get d "kv_namespaces" = Some (VList before)
            \/ (Dict.get d "kv_namespaces" = None /\ before = [])))).
Proof.
  intros d a config1 H.
  unfold SetupEnv.updated_config in H. cbv zeta in H.
  destruct (Dict.get d "kv_namespaces") as [v|] eqn:Ev.
  - unfold Dict.getitem in H. rewrite Ev in H. cbn [bind] in H.
    destruct v as [| | | | |l|]; try discriminate H.
    destruct (SetupEnv.update_first_kv l a) as [[l1|]|e] eqn:Eu;
      cbn [bind] in H; [| |discriminate H].
    + inversion H. subst config1. clear H.
      destruct (update_first_kv_found l l1 a Eu)
        as [before [ns0 [ns [after [E1 [E2 [F [K S]]]]]]]].
      destruct (is_kv_binding_set_id ns0 ns a S) as [K' [_ I]].
      exists (Dict.set d "kv_namespaces" (VList l1)), before, ns, after.
      split; [reflexivity|].
      split; [intros k Hk; rewrite get_set, Hk; reflexivity|].
      split; [rewrite get_set, E2; reflexivity|].
      split; [exact F|]. split; [congruence|]. split; [exact I|].
      left. exists ns0. subst l. auto.
    + inversion H. subst config1. clear H.
      exists (Dict.set d "kv_namespaces"
                (VList (l ++ [SetupEnv.new_kv_namespace a]))),
        l, (SetupEnv.new_kv_namespace a), [].
      split; [reflexivity|].
      split; [intros k Hk; rewrite get_set, Hk; reflexivity|].
      split; [rewrite get_set; reflexivity|].
      split; [eapply update_first_kv_not_found; exact Eu|].
      split; [reflexivity|]. split; [reflexivity|].
      right. auto.
  - unfold Dict.getitem in H. rewrite get_set in H.
    cbn [String.eqb Ascii.eqb Bool.eqb bind SetupEnv.update_first_kv app] in H.
    inversion H. subst config1. clear H. rewrite set_set.
    exists (Dict.set d "kv_namespaces" (VList [SetupEnv.new_kv_namespace a])),
      [], (SetupEnv.new_kv_namespace a), [].
    split; [reflexivity|].
    split; [intros k Hk; rewrite get_set, Hk; reflexivity|].
    split; [rewrite get_set; reflexivity|].
    split; [constructor|]. split; [reflexivity|]. split; [reflexivity|].
    right. auto.
Qed.

Lemma updated_config_sets_first_kv_witness :
  exists (d1 : dict) (before : list value) (ns : value) (after : list value),
    wrangler_config_updated = VDict d1 /\
    (forall k : string,
        String.eqb k "kv_namespaces" = false ->
        Dict.get d1 k
        = Dict.get [("name", VStr "app");
                    ("kv_namespaces",
                     VList [VDict [("binding", VStr "CACHE"); ("id", VStr "c1")];
                            VDict [("binding", VStr "KV"); ("id", VStr "old")]])]
            k) /\
    Dict.get d1 "kv_namespaces" = Some (VList (before ++ ns :: after)) /\
    value_get ns "id" VNone = Ok (VStr "new").
Proof.
  destruct (updated_config_sets_first_kv
              [("name", VStr "app");
               ("kv_namespaces",
                VList [VDict [("binding", VStr "CACHE"); ("id", VStr "c1")];
                       VDict [("binding", VStr "KV"); ("id", VStr "old")]])]
              "new" wrangler_config_updated eq_refl)
    as [d1 [before [ns [after [E [K [G [_ [_ [I _]]]]]]]]]].
  exists d1, before, ns, after. auto.
Defined.

(** ** The saved credentials read back *)

Lemma list_ascii_app (a b : string) :
  list_ascii_of_string (a ++ b)
  = (list_ascii_of_string a ++ list_ascii_of_string b)%list.
Proof. induction a as [|c a IH]; cbn; [reflexivity | f_equal; exact IH]. Qed.

Lemma string_of_list_app (a b : list ascii) :
  string_of_list_ascii (a ++ b)%list
  = (string_of_list_ascii a ++ string_of_list_ascii b)%string.
Proof. induction a as [|c a IH]; cbn; [reflexivity | f_equal; exact IH]. Qed.

Lemma string_app_assoc (a b c : string) :
  ((a ++ b) ++ c)%string = (a ++ (b ++ c))%string.
Proof. induction a as [|x a IH]; cbn; [reflexivity | f_equal; exact IH]. Qed.

Lemma readlines_line (l rest : list ascii) :
  no_line_break l = true ->
  DotEnv.readlines (l ++ DotEnv.newline :: rest)
  = (l ++ [DotEnv.newline])%list :: DotEnv.readlines rest.
Proof.
  induction l as [|c l IH]; intros H.
  - reflexivity.
  - cbn [no_line_break forallb] in H.
    apply andb_true_iff in H. destruct H as [Hc Hl].
    apply andb_true_iff in Hc. destruct Hc as [Hn Hr].
    apply negb_true_iff in Hn. apply negb_true_iff in Hr.
    cbn [app DotEnv.readlines]. rewrite Hn, Hr.
    fold (no_line_break l) in Hl. rewrite (IH Hl). reflexivity.
Qed.

Lemma readlines_string_line (h rest : string) :
  no_line_break (list_ascii_of_string h) = true ->
  map string_of_list_ascii
    (DotEnv.readlines (list_ascii_of_string (h ++ DotEnv.nl ++ rest)))
  = (h ++ DotEnv.nl)%string
    :: map string_of_list_ascii (DotEnv.readlines (list_ascii_of_string rest)).
Proof.
  intros H. rewrite list_ascii_app.
  change (list_ascii_of_string (DotEnv.nl ++ rest))
    with (DotEnv.newline :: list_ascii_of_string rest).
  rewrite (readlines_line _ _ H). cbn [map]. f_equal.
  rewrite string_of_list_app, string_of_list_ascii_of_string. reflexivity.
Qed.

Lemma lstrip_by_all (p : ascii -> bool) (w x : list ascii) :
  forallb p w = true -> PyStr.lstrip_by p (w ++ x) = PyStr.lstrip_by p x.
Proof.
  induction w as [|c w IH]; intros H; [reflexivity|].
  cbn [forallb] in H. apply andb_true_iff in H. destruct H as [Hc Hw].
  cbn [app PyStr.lstrip_by]. rewrite Hc. exact (IH Hw).
Qed.

Lemma lstrip_by_app (p : ascii -> bool) (v w : list ascii) :
  forallb p w = true ->
  PyStr.lstrip_by p (v ++ w)
  = match PyStr.lstrip_by p v with
    | [] => []
    | c :: r => (c :: r ++ w)%list
    end.
Proof.
  intros H. induction v as [|c v IH].
  - cbn [app PyStr.lstrip_by].
    rewrite <- (app_nil_r w). rewrite (lstrip_by_all p w [] H). reflexivity.
  - cbn [app PyStr.lstrip_by]. destruct (p c); [exact IH | reflexivity].
Qed.

Lemma forallb_rev (p : ascii -> bool) (w : list ascii) :
  forallb p w = true -> forallb p (rev w) = true.
Proof.
  intros H. apply forallb_forall. intros x Hx.
  apply in_rev in Hx. revert x Hx. apply forallb_forall. exact H.
Qed.

Lemma strip_by_trim (p : ascii -> bool) (w1 m w2 : list ascii) :
  forallb p w1 = true -> forallb p w2 = true ->
  PyStr.strip_by p (w1 ++ m ++ w2) = PyStr.strip_by p m.
Proof.
  intros H1 H2. unfold PyStr.strip_by.
  rewrite (lstrip_by_all p w1 _ H1), (lstrip_by_app p m w2 H2).
  destruct (PyStr.lstrip_by p m) as [|c r]; [reflexivity|].
  change (c :: r ++ w2)%list with ((c :: r) ++ w2)%list.
  rewrite rev_app_distr, (lstrip_by_all p (rev w2) _ (forallb_rev p w2 H2)).
  reflexivity.
Qed.

Lemma strip_by_free (p : ascii -> bool) (m : list ascii) :
  match m with [] => true | c :: _ => negb (p c) end = true ->
  match rev m with [] => true | c :: _ => negb (p c) end = true ->
  PyStr.strip_by p m = m.
Proof.
  intros H1 H2. unfold PyStr.strip_by.
  assert (E1 : PyStr.lstrip_by p m = m).
  { destruct m as [|c t]; [reflexivity|]. cbn [PyStr.lstrip_by].
    apply negb_true_iff in H1. rewrite H1. reflexivity. }
  rewrite E1.
  assert (E2 : PyStr.lstrip_by p (rev m) = rev m).
  { destruct (rev m) as [|c t]; [reflexivity|]. cbn [PyStr.lstrip_by].
    apply negb_true_iff in H2. rewrite H2. reflexivity. }
  rewrite E2. apply rev_involutive.
Qed.

Lemma strip_by_ends (p : ascii -> bool) (c d : ascii) (x : list ascii) :
  p c = false -> p d = false ->
  PyStr.strip_by p (c :: x ++ [d]) = (c :: x ++ [d])%list.
Proof.
  intros Hc Hd. apply strip_by_free.
  - rewrite Hc. reflexivity.
  - change (c :: x ++ [d])%list with ((c :: x) ++ [d])%list.
    rewrite rev_app_distr. cbn [rev app]. rewrite Hd. reflexivity.
Qed.

Lemma strip_line (c : ascii) (x : string) :
  PyStr.isspace c = false ->
  PyStr.strip (String c x ++ DotEnv.dquote ++ DotEnv.nl)
  = (String c x ++ DotEnv.dquote)%string.
Proof.
  intros Hc. unfold PyStr.strip.
  rewrite !list_ascii_app.
  change (list_ascii_of_string (String c x))
    with (c :: list_ascii_of_string x).
  change (list_ascii_of_string DotEnv.dquote) with ["034"%char].
  change (list_ascii_of_string DotEnv.nl) with [DotEnv.newline].
  transitivity
    (string_of_list_ascii (c :: list_ascii_of_string x ++ ["034"%char])%list).
  - f_equal.
    replace ((c :: list_ascii_of_string x) ++ ["034"%char] ++ [DotEnv.newline])%list
      with ([] ++ (c :: list_ascii_of_string x ++ ["034"%char])
               ++ [DotEnv.newline])%list
      by (cbn [app]; rewrite <- app_assoc; reflexivity).
    rewrite (strip_by_trim PyStr.isspace []
               (c :: list_ascii_of_string x ++ ["034"%char])
               [DotEnv.newline] eq_refl eq_refl).
    apply strip_by_ends; [exact Hc | reflexivity].
  - change (c :: list_ascii_of_string x ++ ["034"%char])%list
      with ((c :: list_ascii_of_string x) ++ ["034"%char])%list.
    rewrite string_of_list_app. cbn [string_of_list_ascii].
    rewrite string_of_list_ascii_of_string. reflexivity.
Qed.

Lemma strip_quoted (v : string) :
  PyStr.strip (DotEnv.dquote ++ v ++ DotEnv.dquote)
  = (DotEnv.dquote ++ v ++ DotEnv.dquote)%string.
Proof.
  unfold PyStr.strip. rewrite !list_ascii_app.
  change (list_ascii_of_string DotEnv.dquote) with ["034"%char].
  cbn [app].
  rewrite (strip_by_ends PyStr.isspace "034"%char "034"%char
             (list_ascii_of_string v) eq_refl eq_refl).
  change ("034"%char :: list_ascii_of_string v ++ ["034"%char])%list
    with (["034"%char] ++ list_ascii_of_string v ++ ["034"%char])%list.
  rewrite !string_of_list_app, string_of_list_ascii_of_string. reflexivity.
Qed.

Lemma strip_chars_quoted (v : string) :
  PyStr.strip_chars DotEnv.dquote (DotEnv.dquote ++ v ++ DotEnv.dquote)
  = PyStr.strip_chars DotEnv.dquote v.
Proof.
  unfold PyStr.strip_chars. rewrite !list_ascii_app.
  change (list_ascii_of_string DotEnv.dquote) with ["034"%char].
  rewrite (strip_by_trim (PyStr.mem_char ["034"%char]) ["034"%char]
             (list_ascii_of_string v) ["034"%char] eq_refl eq_refl).
  reflexivity.
Qed.

Lemma split_once_app (sep : ascii) (a rest : string) :
  DotEnv.contains sep a = false ->
  DotEnv.split_once sep (a ++ String sep rest) = (a, rest).
Proof.
  unfold DotEnv.contains. induction a as [|c a IH]; intros H.
  - cbn. rewrite Ascii.eqb_refl. reflexivity.
  - cbn [list_ascii_of_string existsb] in H.
    apply orb_false_iff in H. destruct H as [Hc Ha].
    cbn [append DotEnv.split_once].
    rewrite Ascii.eqb_sym, Hc, (IH Ha). reflexivity.
Qed.

Lemma contains_app (sep : ascii) (a rest : string) :
  DotEnv.contains sep (a ++ String sep rest) = true.
Proof.
  unfold DotEnv.contains. rewrite list_ascii_app, existsb_app.
  cbn [list_ascii_of_string existsb]. rewrite Ascii.eqb_refl.
  apply orb_true_iff. right. reflexivity.
Qed.

(** One [export] line of the file: the key is what is left of the text
    before the first equals sign, the value loses the quotes at its ends. *)
Lemma env_line_export (config : dict) (c : ascii) (x k v : string) :
  PyStr.isspace c = false ->
  Ascii.eqb "#"%char c = false ->
  DotEnv.contains "="%char (String c x) = false ->
  PyStr.strip (DotEnv.remove "export " (String c x)) = k ->
  DotEnv.env_line config
    ((String c x ++ "=" ++ DotEnv.dquote ++ v ++ DotEnv.dquote)
     ++ DotEnv.nl)
  = Dict.set config k
      (VStr (PyStr.strip_chars DotEnv.squote
               (PyStr.strip_chars DotEnv.dquote v))).
Proof.
  intros Hc Hh He Hk. unfold DotEnv.env_line.
  assert (S1 : PyStr.strip
                 ((String c x ++ "=" ++ DotEnv.dquote ++ v ++ DotEnv.dquote)
                  ++ DotEnv.nl)
               = (String c x
                  ++ String "="%char (DotEnv.dquote ++ v ++ DotEnv.dquote))%string).
  { transitivity
      (PyStr.strip (String c (x ++ "=" ++ DotEnv.dquote ++ v)
                    ++ DotEnv.dquote ++ DotEnv.nl)).
    - f_equal. cbn [append]. f_equal.
      rewrite !string_app_assoc. cbn [append]. rewrite !string_app_assoc.
      reflexivity.
    - rewrite (strip_line c _ Hc). cbn [append]. f_equal.
      rewrite !string_app_assoc. cbn [append]. rewrite !string_app_assoc.
      reflexivity. }
  cbv zeta. rewrite S1.
  assert (S2 : DotEnv.startswith
                 (String c x
                  ++ String "="%char (DotEnv.dquote ++ v ++ DotEnv.dquote)) "#"
               = false).
  { unfold DotEnv.startswith. cbn [append list_ascii_of_string PyStr.starts_with].
    rewrite Hh. reflexivity. }
  rewrite S2. cbn [append PyStr.nonempty negb orb].
  change (String c (x ++ String "="%char (DotEnv.dquote ++ v ++ DotEnv.dquote)))
    with (String c x
          ++ String "="%char (DotEnv.dquote ++ v ++ DotEnv.dquote))%string.
  rewrite contains_app, (split_once_app _ _ _ He), Hk.
  rewrite strip_quoted, strip_chars_quoted. reflexivity.
Qed.

Lemma no_line_break_entry (p v : string) :
  no_line_break (list_ascii_of_string p) = true ->
  no_line_break (list_ascii_of_string v) = true ->
  no_line_break
    (list_ascii_of_string (p ++ "=" ++ DotEnv.dquote ++ v ++ DotEnv.dquote))
  = true.
Proof.
  intros Hp Hv. unfold no_line_break in *.
  rewrite !list_ascii_app, !forallb_app, Hp, Hv. reflexivity.
Qed.

(** What is read back from a saved file, whatever the values are as long
    as each is on one line. *)
Lemma read_env_save_env_file (a t n : string) :
  no_line_break (list_ascii_of_string a) = true ->
  no_line_break (list_ascii_of_string t) = true ->
  no_line_break (list_ascii_of_string n) = true ->
  DotEnv.read_env (DotEnv.save_env_file a t n)
  = [("CF_ACCOUNT_ID",
      VStr (PyStr.strip_chars DotEnv.squote (PyStr.strip_chars DotEnv.dquote a)));
     ("CF_API_TOKEN",
      VStr (PyStr.strip_chars DotEnv.squote (PyStr.strip_chars DotEnv.dquote t)));
     ("CF_NAMESPACE_ID",
      VStr (PyStr.strip_chars DotEnv.squote (PyStr.strip_chars DotEnv.dquote n)))].
Proof.
  intros Ha Ht Hn.
  assert (E : DotEnv.save_env_file a t n
              = ("# Cloudflare KV Configuration" ++ DotEnv.nl ++
                 ("export CF_ACCOUNT_ID" ++ "=" ++ DotEnv.dquote ++ a ++ DotEnv.dquote)
                 ++ DotEnv.nl ++
                 ("export CF_API_TOKEN" ++ "=" ++ DotEnv.dquote ++ t ++ DotEnv.dquote)
                 ++ DotEnv.nl ++
                 ("export CF_NAMESPACE_ID" ++ "=" ++ DotEnv.dquote ++ n ++ DotEnv.dquote)
                 ++ DotEnv.nl ++ EmptyString)%string).
  { unfold DotEnv.save_env_file, DotEnv.nl, DotEnv.dquote.
    repeat (rewrite ?string_app_assoc; cbn [append]). reflexivity. }
  unfold DotEnv.read_env. rewrite E.
  rewrite (readlines_string_line "# Cloudflare KV Configuration" _ eq_refl).
  rewrite (readlines_string_line _ _
             (no_line_break_entry "export CF_ACCOUNT_ID" a eq_refl Ha)).
  rewrite (readlines_string_line _ _
             (no_line_break_entry "export CF_API_TOKEN" t eq_refl Ht)).
  rewrite (readlines_string_line _ _
             (no_line_break_entry "export CF_NAMESPACE_ID" n eq_refl Hn)).
  cbn [list_ascii_of_string DotEnv.readlines map fold_left].
  change (DotEnv.env_line [] ("# Cloudflare KV Configuration" ++ DotEnv.nl))
    with (@nil (string * value)).
  rewrite (env_line_export [] "e"%char "xport CF_ACCOUNT_ID" "CF_ACCOUNT_ID" a
             eq_refl eq_refl eq_refl eq_refl).
  rewrite (env_line_export _ "e"%char "xport CF_API_TOKEN" "CF_API_TOKEN" t
             eq_refl eq_refl eq_refl eq_refl).
  rewrite (env_line_export _ "e"%char "xport CF_NAMESPACE_ID" "CF_NAMESPACE_ID" n
             eq_refl eq_refl eq_refl eq_refl).
  reflexivity.
Qed.

Lemma strip_chars_plain (q : ascii) (v : string) :
  (forall c : ascii,
      negb (Ascii.eqb c "034"%char) && negb (Ascii.eqb c "039"%char) = true ->
      Ascii.eqb c q = false) ->
  no_leading_quote (list_ascii_of_string v) = true ->
  no_leading_quote (rev (list_ascii_of_string v)) = true ->
  PyStr.strip_chars (String q EmptyString) v = v.
Proof.
  intros Hq H1 H2. unfold PyStr.strip_chars.
  rewrite strip_by_free; [apply string_of_list_ascii_of_string | |].
  - destruct (list_ascii_of_string v) as [|c r]; [reflexivity|].
    cbn [no_leading_quote] in H1.
    cbn [list_ascii_of_string PyStr.mem_char existsb].
    rewrite (Hq c H1). reflexivity.
  - destruct (rev (list_ascii_of_string v)) as [|c r]; [reflexivity|].
    cbn [no_leading_quote] in H2.
    cbn [list_ascii_of_string PyStr.mem_char existsb].
    rewrite (Hq c H2). reflexivity.
Qed.

Lemma strip_quotes_plain (v : string) :
  plain_value v = true ->
  PyStr.strip_chars DotEnv.squote (PyStr.strip_chars DotEnv.dquote v) = v.
Proof.
  unfold plain_value. cbv zeta. intros H.
  apply andb_true_iff in H. destruct H as [H H2].
  apply andb_true_iff in H. destruct H as [_ H1].
  unfold DotEnv.squote, DotEnv.dquote.
  rewrite (strip_chars_plain "034"%char v); [| |exact H1|exact H2].
  - apply strip_chars_plain; [|exact H1|exact H2].
    intros c Hc. apply andb_true_iff in Hc. destruct Hc as [_ Hc].
    apply negb_true_iff in Hc. exact Hc.
  - intros c Hc. apply andb_true_iff in Hc. destruct Hc as [Hc _].
    apply negb_true_iff in Hc. exact Hc.
Qed.

Lemma plain_value_one_line (v : string) :
  plain_value v = true -> no_line_break (list_ascii_of_string v) = true.
Proof.
  unfold plain_value. cbv zeta. intros H.
  apply andb_true_iff in H. destruct H as [H _].
  apply andb_true_iff in H. destruct H as [H _].
  apply andb_true_iff in H. destruct H as [_ H]. exact H.
Qed.

(** X19: the credentials saved by [save_env_file] are the ones that
    [cloudinterview_upload] reads back from [.env]: when each value is plain
    text on one line with no quote character at either end, the configuration
    read holds exactly the three keys [CF_ACCOUNT_ID], [CF_API_TOKEN] and
    [CF_NAMESPACE_ID], each with the value that was saved. *)
Theorem env_file_round_trip :
  forall (account_id api_token namespace_id : string),
    plain_value account_id = true ->
    plain_value api_token = true ->
    plain_value namespace_id = true ->
    DotEnv.read_env (DotEnv.save_env_file account_id api_token namespace_id)
    = [("CF_ACCOUNT_ID", VStr account_id);
       ("CF_API_TOKEN", VStr api_token);
       ("CF_NAMESPACE_ID", VStr namespace_id)].
Proof.
  intros a t n Ha Ht Hn.
  rewrite (read_env_save_env_file a t n
             (plain_value_one_line a Ha) (plain_value_one_line t Ht)
             (plain_value_one_line n Hn)).
  rewrite (strip_quotes_plain a Ha), (strip_quotes_plain t Ht),
    (strip_quotes_plain n Hn).
  reflexivity.
Qed.

Lemma env_file_round_trip_witness :
  DotEnv.read_env (DotEnv.save_env_file "0a1b2c" "tok=en with = signs" "ns-1")
  = [("CF_ACCOUNT_ID", VStr "0a1b2c");
     ("CF_API_TOKEN", VStr "tok=en with = signs");
     ("CF_NAMESPACE_ID", VStr "ns-1")].
Proof.
  apply (env_file_round_trip "0a1b2c" "tok=en with = signs" "ns-1");
    reflexivity.
Defined.

(** X20: what is read back from a saved [.env] when a value has quote
    characters at its ends.  For values on one line, the configuration read
    holds the three keys, and each value is the saved one without the double
    quotes at its two ends and then without the single quotes at its two
    ends: a value that begins or ends with a quote is not read back as it
    was saved. *)
Theorem env_file_loses_outer_quotes :
  forall (account_id api_token namespace_id : string),
    no_line_break (list_ascii_of_string account_id) = true ->
    no_line_break (list_ascii_of_string api_token) = true ->
    no_line_break (list_ascii_of_string namespace_id) = true ->
    DotEnv.read_env (DotEnv.save_env_file account_id api_token namespace_id)
    = [("CF_ACCOUNT_ID",
        VStr (PyStr.strip_chars DotEnv.squote
                (PyStr.strip_chars DotEnv.dquote account_id)));
       ("CF_API_TOKEN",
        VStr (PyStr.strip_chars DotEnv.squote
                (PyStr.strip_chars DotEnv.dquote api_token)));
       ("CF_NAMESPACE_ID",
        VStr (PyStr.strip_chars DotEnv.squote
                (PyStr.strip_chars DotEnv.dquote namespace_id)))].
Proof.
  intros a t n Ha Ht Hn. exact (read_env_save_env_file a t n Ha Ht Hn).
Qed.

Lemma env_file_loses_outer_quotes_witness :
  DotEnv.read_env (DotEnv.save_env_file "'0a1b2c'" "tok'en" "ns-1")
  = [("CF_ACCOUNT_ID", VStr "0a1b2c");
     ("CF_API_TOKEN", VStr "tok'en");
     ("CF_NAMESPACE_ID", VStr "ns-1")].
Proof.
  apply (env_file_loses_outer_quotes "'0a1b2c'" "tok'en" "ns-1");
    reflexivity.
Defined.
